(** * organize_photos: a model of the photo organizer and its properties

    The program walks a source tree, reads the capture date of every
    image from its EXIF block, and moves the image to
    [<dest>/<year>/<year>-<month>/<timestamp>.<ext>], skipping files
    whose content is already there.

    The development follows the source file [organize_photos.py]
    function by function.  Python strings are [string]s (one [ascii]
    per code point below 256, which is what Pillow's Latin-1 decoding
    of EXIF text produces), file contents are [list byte], the
    filesystem is a finite map from paths to nodes, and every
    function that touches the filesystem or prints runs in a small
    state-and-exception monad over the [world]. *)

From Stdlib Require Import Strings.Ascii Strings.String Strings.Byte.
From stdpp Require Import gmap strings list fin_maps pretty.

Open Scope string_scope.
Open Scope nat_scope.

(** ** Characters and strings *)

Definition is_digit (c : ascii) : bool :=
  (48 <=? nat_of_ascii c) && (nat_of_ascii c <=? 57).

Definition in_range (lo hi c : ascii) : bool :=
  (nat_of_ascii lo <=? nat_of_ascii c) && (nat_of_ascii c <=? nat_of_ascii hi).

(** [str.isspace] on code points below 256: the class [\s] of [re] for
    [str] patterns. *)
Definition is_space (c : ascii) : bool :=
  let n := nat_of_ascii c in
  ((9 <=? n) && (n <=? 13)) || ((28 <=? n) && (n <=? 32))
  || (n =? 133) || (n =? 160).

Definition digit_char (d : nat) : ascii := ascii_of_nat (48 + d).

Definition digit_val (c : ascii) : nat := nat_of_ascii c - 48.

(** [str.lower] on the letters A-Z. *)
Definition ascii_lower (c : ascii) : ascii :=
  if in_range "A" "Z" c then ascii_of_nat (nat_of_ascii c + 32) else c.

Fixpoint lower (s : string) : string :=
  match s with
  | EmptyString => EmptyString
  | String c s' => String (ascii_lower c) (lower s')
  end.

(** [s.lstrip('.')] *)
Fixpoint lstrip_dot (s : string) : string :=
  match s with
  | String "." s' => lstrip_dot s'
  | _ => s
  end.

Fixpoint lstrip_space (s : string) : string :=
  match s with
  | String c s' => if is_space c then lstrip_space s' else s
  | EmptyString => EmptyString
  end.

(** [s.endswith(suf)] *)
Definition endswith (s suf : string) : bool :=
  String.eqb (String.substring (String.length s - String.length suf)
                               (String.length suf) s) suf
  && (String.length suf <=? String.length s).

(** [s.rfind('.')]: index of the last dot, if any. *)
Fixpoint rfind_dot (s : string) : option nat :=
  match s with
  | EmptyString => None
  | String c s' =>
      match rfind_dot s' with
      | Some i => Some (S i)
      | None => if Ascii.eqb c "." then Some 0 else None
      end
  end.

Fixpoint drop_string (n : nat) (s : string) : string :=
  match n, s with
  | S n', String _ s' => drop_string n' s'
  | _, _ => s
  end.

(** Decimal value of a run of digits, most significant first. *)
Fixpoint digits_val (acc : nat) (s : string) : nat :=
  match s with
  | EmptyString => acc
  | String c s' => digits_val (10 * acc + digit_val c) s'
  end.

(** [int(s)] for the texts the date patterns capture: digits, possibly
    after white space. *)
Definition py_int (s : string) : nat := digits_val 0 (lstrip_space s).

(** [%02d] and [%04d]. *)
Definition pad2 (n : nat) : string :=
  String (digit_char (n / 10 mod 10)) (String (digit_char (n mod 10)) EmptyString).

Definition pad4 (n : nat) : string :=
  String (digit_char (n / 1000 mod 10))
    (String (digit_char (n / 100 mod 10)) (pad2 n)).

(** ** [datetime.strptime]

    [strptime] turns the format into a regular expression, takes the
    first match in backtracking order and requires it to consume the
    whole text ([_strptime.py]).  Only the directives the program uses
    are listed; a directive is an alternation of fixed-width patterns
    of character classes, tried in the order written. *)

Inductive field := FY | Fm | Fd | FH | FM | FS.

Global Instance field_eq_dec : EqDecision field.
Proof. solve_decision. Defined.

Inductive item :=
  | Group (f : field)
  | Lit (c : ascii)
  | Spaces.

Definition alternatives (f : field) : list (list (ascii -> bool)) :=
  match f with
  | FY => [[is_digit; is_digit; is_digit; is_digit]]
  | Fm => [[Ascii.eqb "1"; in_range "0" "2"]; [Ascii.eqb "0"; in_range "1" "9"];
           [in_range "1" "9"]]
  | Fd => [[Ascii.eqb "3"; in_range "0" "1"]; [in_range "1" "2"; is_digit];
           [Ascii.eqb "0"; in_range "1" "9"]; [in_range "1" "9"];
           [Ascii.eqb " "; in_range "1" "9"]]
  | FH => [[Ascii.eqb "2"; in_range "0" "3"]; [in_range "0" "1"; is_digit];
           [is_digit]]
  | FM => [[in_range "0" "5"; is_digit]; [is_digit]]
  | FS => [[Ascii.eqb "6"; in_range "0" "1"]; [in_range "0" "5"; is_digit];
           [is_digit]]
  end.

Definition directive (c : ascii) : option field :=
  match c with
  | "Y" => Some FY | "m" => Some Fm | "d" => Some Fd
  | "H" => Some FH | "M" => Some FM | "S" => Some FS
  | _ => None
  end%char.

(** [TimeRE.pattern]: a run of white space in the format becomes
    [\s+], [%x] becomes the group of directive [x], any other character
    stands for itself.  [None] is the [ValueError] for a bad or stray
    directive. *)
Fixpoint compile (after_space : bool) (fmt : string) : option (list item) :=
  match fmt with
  | EmptyString => Some []
  | String "%" EmptyString => None
  | String "%" (String d rest) =>
      match directive d, compile false rest with
      | Some f, Some re => Some (Group f :: re)
      | _, _ => None
      end
  | String c rest =>
      if is_space c then
        match compile true rest with
        | Some re => Some (if after_space then re else Spaces :: re)
        | None => None
        end
      else
        match compile false rest with
        | Some re => Some (Lit c :: re)
        | None => None
        end
  end.

Definition captures := field -> option string.

Definition capture (f : field) (t : string) (env : captures) : captures :=
  fun g => if decide (g = f) then Some t else env g.

Definition no_captures : captures := fun _ => None.

(** One alternative: every class must accept its character. *)
Fixpoint match_alt (cs : list (ascii -> bool)) (s : string)
  : option (string * string) :=
  match cs with
  | [] => Some (EmptyString, s)
  | p :: cs' =>
      match s with
      | String c s' =>
          if p c then
            match match_alt cs' s' with
            | Some (t, r) => Some (String c t, r)
            | None => None
            end
          else None
      | EmptyString => None
      end
  end.

(** The alternation: the first alternative after which the rest of the
    pattern [k] matches. *)
Fixpoint first_alt {R} (alts : list (list (ascii -> bool))) (s : string)
    (k : string -> string -> option R) : option R :=
  match alts with
  | [] => None
  | a :: alts' =>
      match match_alt a s with
      | Some (t, r) =>
          match k t r with
          | Some x => Some x
          | None => first_alt alts' s k
          end
      | None => first_alt alts' s k
      end
  end.

(** Greedy [\s*] and [\s+] followed by [k]. *)
Fixpoint spaces_star {R} (k : string -> option R) (s : string) : option R :=
  match s with
  | String c s' =>
      if is_space c then
        match spaces_star k s' with
        | Some x => Some x
        | None => k s
        end
      else k s
  | EmptyString => k s
  end.

Definition spaces_plus {R} (k : string -> option R) (s : string) : option R :=
  match s with
  | String c s' => if is_space c then spaces_star k s' else None
  | EmptyString => None
  end.

(** [format_regex.match(data_string)]: captured groups and the text left
    over. *)
Fixpoint re_match (re : list item) (env : captures) (s : string)
  : option (captures * string) :=
  match re with
  | [] => Some (env, s)
  | Group f :: re' =>
      first_alt (alternatives f) s (fun t r => re_match re' (capture f t env) r)
  | Lit c :: re' =>
      match s with
      | String c' s' => if Ascii.eqb c c' then re_match re' env s' else None
      | EmptyString => None
      end
  | Spaces :: re' => spaces_plus (re_match re' env) s
  end.

Record datetime := {
  dt_year : nat; dt_month : nat; dt_day : nat;
  dt_hour : nat; dt_minute : nat; dt_second : nat
}.

Definition is_leap (y : nat) : bool :=
  (y mod 4 =? 0) && (negb (y mod 100 =? 0) || (y mod 400 =? 0)).

Definition days_in_month (y m : nat) : nat :=
  match m with
  | 2 => if is_leap y then 29 else 28
  | 4 | 6 | 9 | 11 => 30
  | _ => 31
  end.

(** The range checks of the [date] and [datetime] constructors. *)
Definition valid_datetime (d : datetime) : bool :=
  (1 <=? dt_year d) && (dt_year d <? 10 * 1000)
  && (1 <=? dt_month d) && (dt_month d <=? 12)
  && (1 <=? dt_day d) && (dt_day d <=? days_in_month (dt_year d) (dt_month d))
  && (dt_hour d <? 24) && (dt_minute d <? 60) && (dt_second d <? 60).

Definition field_val (env : captures) (f : field) (default : nat) : nat :=
  match env f with
  | Some t => py_int t
  | None => default
  end.

(** [datetime.strptime(data, fmt)]; [None] stands for [ValueError]. *)
Definition strptime (data fmt : string) : option datetime :=
  match compile false fmt with
  | None => None
  | Some re =>
      match re_match re no_captures data with
      | Some (env, EmptyString) =>
          let d := {| dt_year := field_val env FY 1900;
                      dt_month := field_val env Fm 1;
                      dt_day := field_val env Fd 1;
                      dt_hour := field_val env FH 0;
                      dt_minute := field_val env FM 0;
                      dt_second := field_val env FS 0 |} in
          if valid_datetime d then Some d else None
      | _ => None
      end
  end.

Definition exif_format : string := "%Y:%m:%d %H:%M:%S".
Definition touch_format : string := "%Y%m%d%H%M.%S".

(** ** Paths, files and the filesystem

    A path is the list of its components, innermost first: the parent
    is the tail and [p / name] is a cons.  Paths are absolute and
    normalised; the root is [[]]. *)

Abbreviation path := (list string).

Definition joinpath (p : path) (name : string) : path := name :: p.
Infix "</>" := joinpath (at level 40, left associativity).

Definition parent (p : path) : path := tail p.

Definition name_of (p : path) : string :=
  match p with
  | [] => EmptyString
  | n :: _ => n
  end.

(** [PurePath.suffix] *)
Definition suffix (p : path) : string :=
  let name := name_of p in
  match rfind_dot name with
  | Some i =>
      if (0 <? i) && (i <? String.length name - 1) then drop_string i name
      else EmptyString
  | None => EmptyString
  end.

Record file := {
  content : list byte;
  atime : Z;
  mtime : Z;
  mode : N
}.

Inductive node :=
  | Dir
  | File (f : file).

(** The file with its access and modification times replaced. *)
Definition retime (times : Z * Z) (f : file) : file :=
  {| content := content f; atime := fst times; mtime := snd times; mode := mode f |}.

Inductive exn :=
  | FileNotFoundError
  | FileExistsError
  | NotADirectoryError
  | IsADirectoryError
  | PermissionError
  | SameFileError
  | UnidentifiedImageError
  | TypeError
  | ValueError
  | OSError
  | EOFError.

Global Instance exn_eq_dec : EqDecision exn.
Proof. solve_decision. Defined.

(** Path resolution: every proper ancestor must be a directory. *)
Fixpoint stat (m : gmap path node) (p : path) : exn + node :=
  match p with
  | [] => inr Dir
  | _ :: q =>
      match stat m q with
      | inr Dir =>
          match m !! p with
          | Some nd => inr nd
          | None => inl FileNotFoundError
          end
      | inr (File _) => inl NotADirectoryError
      | inl e => inl e
      end
  end.

(** [Path.exists], [Path.is_file], [Path.is_dir] *)
Definition exists_ (m : gmap path node) (p : path) : bool :=
  match stat m p with inr _ => true | inl _ => false end.

Definition is_file (m : gmap path node) (p : path) : bool :=
  match stat m p with inr (File _) => true | _ => false end.

Definition is_dir (m : gmap path node) (p : path) : bool :=
  match stat m p with inr Dir => true | _ => false end.

(** What the program prints. *)
Inductive msg :=
  | MsgExifError (file_path : path) (e : exn)
  | MsgNoDate (file_path : path)
  | MsgInvalidDate (file_path : path)
  | MsgDuplicate (source_file dest_path : path)
  | MsgCopied (file_path dest_file : path)
  | MsgRemoved (file_path : path)
  | MsgTraversing (source_dir : path)
  | MsgUsage
  | MsgInvalidSource (source_dir : path)
  | MsgSourceDirectory (source_dir : path)
  | MsgDestinationDirectory (dest_dir : path)
  | MsgPrompt
  | MsgCanceled.

Record world := {
  fs : gmap path node;
  stdout : list msg
}.

Definition set_fs (m : gmap path node) (w : world) : world :=
  {| fs := m; stdout := stdout w |}.

(** ** The environment

    What the program takes from outside itself: the digest, Pillow's
    reading of the EXIF block from a file's bytes, the local-time rule
    of [datetime.timestamp], the clock, which system calls the
    operating system refuses (permissions, read-only disk), whether
    the C library's [strftime] pads [%Y] to four digits (glibc does
    not: year 999 is written [999]), and the copies that fail after
    the destination was opened (full disk, I/O error, refused
    [copystat]), each with the exception raised and the file it leaves
    at the destination. *)

Inductive exif_value :=
  | VStr (s : string)
  | VOther (truthy : bool).

Inductive exif_read :=
  | ExifFails
  | ExifData (d : option (gmap Z exif_value)).

Inductive syscall :=
  | SysMkdir (p : path)
  | SysUtime (p : path)
  | SysOpen (p : path)
  | SysCopy (src dst : path)
  | SysRemove (p : path).

Class Platform := {
  md5 : list byte -> string;
  getexif : list byte -> exif_read;
  mktime : datetime -> Z;
  now : path -> Z;
  denied : syscall -> bool;
  year_padded : bool;
  copy_fault : path -> path -> option (exn * file)
}.

(** ** [date.strftime]

    The three formats the program uses.  [%m], [%d], [%H], [%M] and
    [%S] are two digits everywhere; [%Y] is what the C library makes
    of it. *)
Section Strftime.
Context `{Platform}.

Definition strftime_Y (d : datetime) : string :=
  if year_padded then pad4 (dt_year d) else pretty (dt_year d).

Definition strftime_m (d : datetime) : string := pad2 (dt_month d).

(** ["%Y%m%d%H%M.%S"] *)
Definition strftime_touch (d : datetime) : string :=
  strftime_Y d +:+ pad2 (dt_month d) +:+ pad2 (dt_day d)
  +:+ pad2 (dt_hour d) +:+ pad2 (dt_minute d) +:+ "." +:+ pad2 (dt_second d).

(** ["%Y%m%d_%H%M%S"] *)
Definition strftime_compact (d : datetime) : string :=
  strftime_Y d +:+ pad2 (dt_month d) +:+ pad2 (dt_day d) +:+ "_"
  +:+ pad2 (dt_hour d) +:+ pad2 (dt_minute d) +:+ pad2 (dt_second d).

End Strftime.

(** ** State and exceptions *)

Inductive outcome (A : Type) :=
  | Ok (a : A)
  | Raise (e : exn)
  | Timeout.
Arguments Ok {A} a.
Arguments Raise {A} e.
Arguments Timeout {A}.

Definition M (A : Type) : Type := world -> outcome A * world.

Definition ret {A} (a : A) : M A := fun w => (Ok a, w).
Definition raise {A} (e : exn) : M A := fun w => (Raise e, w).
Definition timeout {A} : M A := fun w => (Timeout, w).

Definition bind {A B} (m : M A) (k : A -> M B) : M B :=
  fun w =>
    match m w with
    | (Ok a, w') => k a w'
    | (Raise e, w') => (Raise e, w')
    | (Timeout, w') => (Timeout, w')
    end.

Notation "'let*' x ':=' m 'in' k" := (bind m (fun x => k))
  (at level 10, x name, m at level 100, k at level 200).
Notation "m ';;' k" := (bind m (fun _ => k))
  (at level 100, k at level 200, right associativity).

(** [try: m except Exception as e: h e] *)
Definition try_except {A} (m : M A) (h : exn -> M A) : M A :=
  fun w =>
    match m w with
    | (Raise e, w') => h e w'
    | r => r
    end.

Definition say (x : msg) (w : world) : world :=
  {| fs := fs w; stdout := stdout w ++ [x] |}.

Definition print (x : msg) : M unit := fun w => (Ok tt, say x w).

Definition get_fs : M (gmap path node) := fun w => (Ok (fs w), w).
Definition put_fs (m : gmap path node) : M unit := fun w => (Ok tt, set_fs m w).

(** [for x in l: body x] *)
Fixpoint for_each {A} (l : list A) (body : A -> M unit) : M unit :=
  match l with
  | [] => ret tt
  | x :: l' => body x ;; for_each l' body
  end.

Definition lift {A} (r : outcome A) : M A := fun w => (r, w).

(** ** The program *)

Record date_info := {
  year : string;
  month : string;
  formatted_date : string;
  timestamp : string
}.

(** Common EXIF date tag IDs: DateTimeOriginal, DateTimeDigitized,
    DateTime. *)
Definition date_tags : list Z := [36867; 36868; 306]%Z.

(** Truth value of an EXIF entry ([if date_str:]). *)
Definition truthy (v : exif_value) : bool :=
  match v with
  | VStr s => negb (String.eqb s EmptyString)
  | VOther b => b
  end.

(** The loop over [date_tags]: the first entry that is present and
    true. *)
Fixpoint first_date (exif_data : gmap Z exif_value) (tags : list Z)
  : option exif_value :=
  match tags with
  | [] => None
  | tag_id :: tags' =>
      match exif_data !! tag_id with
      | Some date_str =>
          if truthy date_str then Some date_str else first_date exif_data tags'
      | None => first_date exif_data tags'
      end
  end.

(** [format_date]: the [try] catches [ValueError] only, so a value that
    is not a string leaves with [strptime]'s [TypeError]. *)
Definition format_date `{Platform} (date_str : exif_value)
  : outcome (option date_info) :=
  match date_str with
  | VStr s =>
      match strptime s exif_format with
      | Some date =>
          Ok (Some {| year := strftime_Y date;
                      month := strftime_m date;
                      formatted_date := strftime_touch date;
                      timestamp := strftime_compact date |})
      | None => Ok None
      end
  | VOther _ => Raise TypeError
  end.

(** [file.lower().endswith(('.jpg', '.jpeg', '.png'))] *)
Definition eligible (file : string) : bool :=
  let l := lower file in
  endswith l ".jpg" || endswith l ".jpeg" || endswith l ".png".

(** Names of the entries of directory [top], in the order the map lists
    them. *)
Definition entries (m : gmap path node) (top : path) : list (string * node) :=
  omap (fun kv : path * node =>
          match fst kv with
          | n :: q => if decide (q = top) then Some (n, snd kv) else None
          | [] => None
          end) (map_to_list m).

(** [os.scandir] as [os.walk] uses it: sub-directories and other
    entries; [None] when [top] cannot be listed. *)
Definition scandir (m : gmap path node) (top : path)
  : option (list string * list string) :=
  match stat m top with
  | inr Dir =>
      let es := entries m top in
      Some (omap (fun e : string * node =>
                    match snd e with Dir => Some (fst e) | File _ => None end) es,
            omap (fun e : string * node =>
                    match snd e with File _ => Some (fst e) | Dir => None end) es)
  | _ => None
  end.

Section Program.
Context `{Platform}.

(** *** System calls *)

Definition os_mkdir (p : path) : M unit := fun w =>
  if denied (SysMkdir p) then (Raise PermissionError, w) else
  match p with
  | [] => (Raise FileExistsError, w)
  | _ :: q =>
      match stat (fs w) q with
      | inl e => (Raise e, w)
      | inr (File _) => (Raise NotADirectoryError, w)
      | inr Dir =>
          match fs w !! p with
          | Some _ => (Raise FileExistsError, w)
          | None => (Ok tt, set_fs (<[p := Dir]> (fs w)) w)
          end
      end
  end.

(** The [except OSError] clause of [Path.mkdir] with [exist_ok=True]. *)
Definition unless_is_dir (p : path) (e : exn) : M unit :=
  let* m := get_fs in
  if is_dir m p then ret tt else raise e.

(** [p.mkdir(parents=False, exist_ok=True)] *)
Definition mkdir_exist_ok (p : path) : M unit :=
  try_except (os_mkdir p)
    (fun e =>
       match e with
       | FileNotFoundError => raise e
       | _ => unless_is_dir p e
       end).

(** [p.mkdir(parents=True, exist_ok=True)] *)
Fixpoint mkdir (p : path) : M unit :=
  try_except (os_mkdir p)
    (fun e =>
       match e with
       | FileNotFoundError =>
           match p with
           | [] => raise e
           | _ :: q => mkdir q ;; mkdir_exist_ok p
           end
       | _ => unless_is_dir p e
       end).

(** [os.utime(p, (a, m))]; the times of directories are not tracked. *)
Definition os_utime (p : path) (times : Z * Z) : M unit := fun w =>
  if denied (SysUtime p) then (Raise PermissionError, w) else
  match stat (fs w) p with
  | inl e => (Raise e, w)
  | inr Dir => (Ok tt, w)
  | inr (File f) => (Ok tt, set_fs (<[p := File (retime times f)]> (fs w)) w)
  end.

(** [open(p, "rb").read()] *)
Definition open_rb (p : path) : M (list byte) := fun w =>
  if denied (SysOpen p) then (Raise PermissionError, w) else
  match stat (fs w) p with
  | inl e => (Raise e, w)
  | inr Dir => (Raise IsADirectoryError, w)
  | inr (File f) => (Ok (content f), w)
  end.

(** The copy proper, once both files are open. *)
Definition copy_into (src dst : path) (f : file) : M unit := fun w =>
  match copy_fault src dst with
  | Some (e, part) => (Raise e, set_fs (<[dst := File part]> (fs w)) w)
  | None => (Ok tt, set_fs (<[dst := File f]> (fs w)) w)
  end.

(** [shutil.copy2(src, dst)]: the source is opened for reading and the
    destination for writing, which creates or empties it; then the
    bytes are copied, then mode and times.  A failure after the
    destination was opened leaves there what was written so far. *)
Definition shutil_copy2 (src dst : path) : M unit := fun w =>
  let dst := if is_dir (fs w) dst then dst </> name_of src else dst in
  if bool_decide (src = dst) && exists_ (fs w) src then (Raise SameFileError, w)
  else if denied (SysOpen src) then (Raise PermissionError, w)
  else
    match stat (fs w) src with
    | inl e => (Raise e, w)
    | inr Dir => (Raise IsADirectoryError, w)
    | inr (File f) =>
        if denied (SysCopy src dst) then (Raise PermissionError, w)
        else
          match stat (fs w) dst with
          | inr Dir => (Raise IsADirectoryError, w)
          | inl NotADirectoryError => (Raise NotADirectoryError, w)
          | inr (File _) => copy_into src dst f w
          | inl _ =>
              if is_dir (fs w) (parent dst)
              then copy_into src dst f w
              else (Raise FileNotFoundError, w)
          end
    end.

(** [os.remove(p)] *)
Definition os_remove (p : path) : M unit := fun w =>
  if denied (SysRemove p) then (Raise PermissionError, w) else
  match stat (fs w) p with
  | inl e => (Raise e, w)
  | inr Dir => (Raise IsADirectoryError, w)
  | inr (File _) => (Ok tt, set_fs (delete p (fs w)) w)
  end.

(** [Image.open(p)._getexif()] *)
Definition image_getexif (p : path) : M (option (gmap Z exif_value)) :=
  let* c := open_rb p in
  match getexif c with
  | ExifFails => raise UnidentifiedImageError
  | ExifData d => ret d
  end.

(** *** [get_exif_date] *)
Definition get_exif_date (file_path : path) : M (option exif_value) :=
  try_except
    (let* exif_data := image_getexif file_path in
     match exif_data with
     | None => ret None
     | Some d =>
         if decide (d = ∅) then ret None
         else ret (first_date d date_tags)
     end)
    (fun e => print (MsgExifError file_path e) ;; ret None).

(** *** [get_checksum], [files_are_identical] *)
Definition get_checksum (file_path : path) : M string :=
  let* c := open_rb file_path in
  ret (md5 c).

Definition files_are_identical (file1 file2 : path) : M bool :=
  let* c1 := get_checksum file1 in
  let* c2 := get_checksum file2 in
  ret (bool_decide (c1 = c2)).

(** *** [generate_unique_filename] *)

(** [f"{base_name}.{ext}"] and [f"{base_name}_{counter}.{ext}"] *)
Definition plain_name (base_name ext : string) : string :=
  base_name +:+ "." +:+ ext.

Definition numbered_name (base_name ext : string) (counter : nat) : string :=
  base_name +:+ "_" +:+ pretty counter +:+ "." +:+ ext.

(** The [while] loop, from the test of its condition; [fuel] bounds the
    number of tests. *)
Fixpoint unique_loop (fuel : nat) (base_name ext : string)
    (dest_dir source_file dest_path : path) (counter : nat) : M (option path) :=
  match fuel with
  | 0 => timeout
  | S fuel' =>
      let* m := get_fs in
      if exists_ m dest_path then
        let* same := (if is_file m dest_path
                      then files_are_identical dest_path source_file
                      else ret false) in
        if same then
          print (MsgDuplicate source_file dest_path) ;; ret None
        else
          unique_loop fuel' base_name ext dest_dir source_file
            (dest_dir </> numbered_name base_name ext counter) (counter + 1)
      else ret (Some dest_path)
  end.

(** The destination holds finitely many entries, so one test more than
    that is enough for the loop to find a free name. *)
Definition generate_unique_filename (base_name ext : string)
    (dest_dir source_file : path) : M (option path) :=
  let* m := get_fs in
  unique_loop (S (size m)) base_name ext dest_dir source_file
    (dest_dir </> plain_name base_name ext) 1.

(** *** [process_file] *)
Definition process_file (file_path dest_dir : path) : M unit :=
  let* exif_date := get_exif_date file_path in
  match exif_date with
  | None => print (MsgNoDate file_path)
  | Some exif_date =>
      let* date_info := lift (format_date exif_date) in
      match date_info with
      | None => print (MsgInvalidDate file_path)
      | Some date_info =>
          let dest_subdir :=
            dest_dir </> year date_info
                     </> (year date_info +:+ "-" +:+ month date_info) in
          mkdir dest_subdir ;;
          let* mt := (match strptime (formatted_date date_info) touch_format with
                      | Some d => ret (mktime d)
                      | None => raise ValueError
                      end) in
          os_utime file_path (now file_path, mt) ;;
          let ext := lstrip_dot (lower (suffix file_path)) in
          let base_name := timestamp date_info in
          let* dest_file :=
            generate_unique_filename base_name ext dest_subdir file_path in
          match dest_file with
          | None => ret tt
          | Some dest_file =>
              shutil_copy2 file_path dest_file ;;
              print (MsgCopied file_path dest_file) ;;
              os_remove file_path ;;
              print (MsgRemoved file_path)
          end
      end
  end.

(** *** [traverse_directory] *)

(** The body of the [os.walk] loop for one directory. *)
Definition process_files (root : path) (files : list string) (dest_dir : path)
  : M unit :=
  for_each files (fun file =>
    if eligible file then process_file (root </> file) dest_dir else ret tt).

(** [os.walk(top)], top-down: list [top], run the body on it, then
    descend into the sub-directories listed.  A directory that cannot
    be listed is passed over.  [fuel] bounds the depth. *)
Fixpoint os_walk (fuel : nat) (top : path)
    (body : path -> list string -> M unit) : M unit :=
  match fuel with
  | 0 => timeout
  | S fuel' =>
      let* m := get_fs in
      match scandir m top with
      | None => ret tt
      | Some (dirs, files) =>
          body top files ;;
          for_each dirs (fun d => os_walk fuel' (top </> d) body)
      end
  end.

Definition traverse_directory (fuel : nat) (source_dir dest_dir : path) : M unit :=
  print (MsgTraversing source_dir) ;;
  os_walk fuel source_dir (fun root files => process_files root files dest_dir).

End Program.

(** * Vocabulary of the properties

    What the statements below speak of: the best EXIF date, the names
    the probing loop goes through and what it finds at each, the
    worlds a placement passes through, and the ways [process_file]
    and the walk can end. *)

Section Vocabulary.
Context `{Platform}.

(** An entry that is present and true. *)
Definition non_empty (o : option exif_value) : bool :=
  match o with
  | Some v => truthy v
  | None => false
  end.

(** The value the three date tags give, in priority order. *)
Definition best_date (d : gmap Z exif_value) : option exif_value :=
  if non_empty (d !! 36867%Z) then d !! 36867%Z
  else if non_empty (d !! 36868%Z) then d !! 36868%Z
  else if non_empty (d !! 306%Z) then d !! 306%Z
  else None.

(** The path the loop tests after [k] collisions. *)
Definition candidate (base_name ext : string) (dest_dir : path) (k : nat) : path :=
  match k with
  | 0 => dest_dir </> plain_name base_name ext
  | S _ => dest_dir </> numbered_name base_name ext k
  end.

(** What one test of the loop finds at [dest_path]. *)
Inductive probe_result :=
  | Free
  | Taken
  | Same
  | Fails (e : exn).

Global Instance probe_result_eq_dec : EqDecision probe_result.
Proof. solve_decision. Defined.

(** The test itself: the condition of the [while] and the [if] inside
    it.  [Taken] sends the loop to the next name. *)
Definition probe (w : world) (source_file dest_path : path) : probe_result :=
  if exists_ (fs w) dest_path then
    if is_file (fs w) dest_path then
      match fst (files_are_identical dest_path source_file w) with
      | Ok true => Same
      | Ok false => Taken
      | Raise e => Fails e
      | Timeout => Taken
      end
    else Taken
  else Free.

(** What the loop returns when it stops at [dest_path]. *)
Definition probe_outcome (w : world) (source_file dest_path : path)
  : outcome (option path) * world :=
  match probe w source_file dest_path with
  | Free => (Ok (Some dest_path), w)
  | Taken => (Timeout, w)
  | Same => (Ok None, say (MsgDuplicate source_file dest_path) w)
  | Fails e => (Raise e, w)
  end.

(** The values each two-digit directive can take in a valid date. *)
Definition in_field (f : field) (n : nat) : Prop :=
  match f with
  | FY => False
  | Fm => 1 <= n <= 12
  | Fd => 1 <= n <= 31
  | FH => n < 24
  | FM => n < 60
  | FS => n < 60
  end.

(** The text of a date in the exact pattern [YYYY:MM:DD HH:MM:SS]. *)
Definition exif_text (d : datetime) : string :=
  pad4 (dt_year d) +:+ ":" +:+ pad2 (dt_month d) +:+ ":" +:+ pad2 (dt_day d)
  +:+ " " +:+ pad2 (dt_hour d) +:+ ":" +:+ pad2 (dt_minute d) +:+ ":"
  +:+ pad2 (dt_second d).

(** The groups [strptime] captures from such a text. *)
Definition date_captures (d : datetime) : captures :=
  capture FS (pad2 (dt_second d)) (capture FM (pad2 (dt_minute d))
    (capture FH (pad2 (dt_hour d)) (capture Fd (pad2 (dt_day d))
      (capture Fm (pad2 (dt_month d)) (capture FY (pad4 (dt_year d))
        no_captures))))).

(** The specification's reading of "exact pattern": nineteen characters, digits
    where the pattern has letters, the separators in place. *)
Fixpoint matches_template (t s : string) : bool :=
  match t, s with
  | EmptyString, EmptyString => true
  | String "d" t', String c s' => is_digit c && matches_template t' s'
  | String a t', String c s' => Ascii.eqb a c && matches_template t' s'
  | _, _ => false
  end.

(** [YYYY:MM:DD HH:MM:SS], with [d] for a digit. *)
Definition exact_pattern (s : string) : bool :=
  matches_template "dddd:dd:dd dd:dd:dd" s.

(** The dictionary [format_date] returns for the date [d]. *)
Definition date_info_of (d : datetime) : date_info :=
  {| year := strftime_Y d;
     month := strftime_m d;
     formatted_date := strftime_touch d;
     timestamp := strftime_compact d |}.

(** The year is written with four digits: the C library pads it, or
    it has four digits of its own. *)
Definition four_digit (d : datetime) : Prop :=
  year_padded = true \/ 1000 <= dt_year d.

(** The date [process_file] reads back from [formatted_date] for
    [os.utime]; [None] is [strptime]'s [ValueError]. *)
Definition touch_date (d : datetime) : option datetime :=
  strptime (strftime_touch d) touch_format.

(** [w1] prints nothing new and shows every entry [w] shows: what
    [mkdir] does to the world. *)
Definition grows (w w1 : world) : Prop :=
  stdout w1 = stdout w
  /\ forall q nd, stat (fs w) q = inr nd -> stat (fs w1) q = inr nd.

(** The destination directory of a date. *)
Definition subdir_of (dest_dir : path) (d : datetime) : path :=
  dest_dir </> strftime_Y d </> (strftime_Y d +:+ "-" +:+ strftime_m d).

(** The extension [process_file] gives the destination. *)
Definition ext_of (file_path : path) : string :=
  lstrip_dot (lower (suffix file_path)).

(** The part of [process_file] after the date was read. *)
Definition place (file_path dest_dir : path) (d : datetime) : M unit :=
  mkdir (subdir_of dest_dir d) ;;
  let* mt := (match touch_date d with
              | Some d' => ret (mktime d')
              | None => raise ValueError
              end) in
  os_utime file_path (now file_path, mt) ;;
  let* dest_file := generate_unique_filename (strftime_compact d) (ext_of file_path)
                      (subdir_of dest_dir d) file_path in
  match dest_file with
  | None => ret tt
  | Some dest_file =>
      shutil_copy2 file_path dest_file ;;
      print (MsgCopied file_path dest_file) ;;
      os_remove file_path ;;
      print (MsgRemoved file_path)
  end.

(** The source with the times [os.utime] gives it, [d] being the date
    read back from [formatted_date]. *)
Definition stamped (file_path : path) (d : datetime) (f : file) : file :=
  retime (now file_path, mktime d) f.

(** After [os.utime]. *)
Definition after_utime (file_path : path) (d : datetime) (f : file) (w1 : world) : world :=
  set_fs (<[file_path := File (stamped file_path d f)]> (fs w1)) w1.

(** After [shutil.copy2] and its message. *)
Definition after_copy (file_path dest_file : path) (d : datetime) (f : file)
    (w2 : world) : world :=
  say (MsgCopied file_path dest_file)
    (set_fs (<[dest_file := File (stamped file_path d f)]> (fs w2)) w2).

(** After [os.remove] and its message. *)
Definition after_remove (file_path : path) (w3 : world) : world :=
  say (MsgRemoved file_path) (set_fs (delete file_path (fs w3)) w3).

(** Two worlds show the same entry at [q], if any. *)
Definition same_at (w w' : world) (q : path) : Prop :=
  forall nd, stat (fs w') q = inr nd <-> stat (fs w) q = inr nd.

(** What [process_file] does with a file that has no usable date. *)
Inductive undated (file_path : path) (w : world)
  : outcome unit -> world -> Prop :=
  | NoDateQuiet : undated file_path w (Ok tt) (say (MsgNoDate file_path) w)
  | NoDateError (e : exn) :
      undated file_path w (Ok tt)
        (say (MsgNoDate file_path) (say (MsgExifError file_path e) w))
  | InvalidDate : undated file_path w (Ok tt) (say (MsgInvalidDate file_path) w)
  | NotAString : undated file_path w (Raise TypeError) w.

(** After a copy that failed and left [part] at the destination. *)
Definition after_fault (dest_file : path) (part : file) (w2 : world) : world :=
  set_fs (<[dest_file := File part]> (fs w2)) w2.

(** How the probing of destination names ends for source [p] stamped
    with date [d], in the world [w2] where the time stamp is already
    set, at the name [c] the loop stopped at. *)
Inductive arrived (p : path) (d : datetime) (f : file) (w2 : world) (c : path)
  : outcome unit -> world -> Prop :=
  | ProbeFailed (e : exn) :
      probe w2 p c = Fails e -> arrived p d f w2 c (Raise e) w2
  | FoundSame :
      probe w2 p c = Same ->
      arrived p d f w2 c (Ok tt) (say (MsgDuplicate p c) w2)
  | CopyDenied :
      probe w2 p c = Free ->
      denied (SysOpen p) || denied (SysCopy p c) = true ->
      arrived p d f w2 c (Raise PermissionError) w2
  | CopyFailed (e : exn) (part : file) :
      probe w2 p c = Free ->
      denied (SysOpen p) || denied (SysCopy p c) = false ->
      copy_fault p c = Some (e, part) ->
      arrived p d f w2 c (Raise e) (after_fault c part w2)
  | RemoveDenied :
      probe w2 p c = Free ->
      denied (SysOpen p) || denied (SysCopy p c) = false ->
      copy_fault p c = None ->
      denied (SysRemove p) = true ->
      arrived p d f w2 c (Raise PermissionError) (after_copy p c d f w2)
  | Moved :
      probe w2 p c = Free ->
      denied (SysOpen p) || denied (SysCopy p c) = false ->
      copy_fault p c = None ->
      denied (SysRemove p) = false ->
      arrived p d f w2 c (Ok tt) (after_remove p (after_copy p c d f w2)).

(** How [place] ends: the directory cannot be made, the time stamp
    text cannot be read back, the time stamp cannot be set, or the
    names are probed up to the [k]-th with the source stamped with the
    date [d'] read back. *)
Inductive placing (p dest_dir : path) (d : datetime) (f : file) (w : world)
  : outcome unit -> world -> Prop :=
  | MkdirFailed (e : exn) (w1 : world) :
      mkdir (subdir_of dest_dir d) w = (Raise e, w1) -> grows w w1 ->
      placing p dest_dir d f w (Raise e) w1
  | TouchFailed (w1 : world) :
      mkdir (subdir_of dest_dir d) w = (Ok tt, w1) -> grows w w1 ->
      is_dir (fs w1) (subdir_of dest_dir d) = true ->
      touch_date d = None ->
      placing p dest_dir d f w (Raise ValueError) w1
  | UtimeDenied (w1 : world) (d' : datetime) :
      mkdir (subdir_of dest_dir d) w = (Ok tt, w1) -> grows w w1 ->
      is_dir (fs w1) (subdir_of dest_dir d) = true ->
      touch_date d = Some d' ->
      denied (SysUtime p) = true ->
      placing p dest_dir d f w (Raise PermissionError) w1
  | Probed (w1 : world) (d' : datetime) (k : nat) (r : outcome unit) (w' : world) :
      mkdir (subdir_of dest_dir d) w = (Ok tt, w1) -> grows w w1 ->
      is_dir (fs w1) (subdir_of dest_dir d) = true ->
      touch_date d = Some d' ->
      denied (SysUtime p) = false ->
      (forall i, i < k ->
         probe (after_utime p d' f w1) p
           (candidate (strftime_compact d) (ext_of p) (subdir_of dest_dir d) i) = Taken) ->
      arrived p d' f (after_utime p d' f w1)
        (candidate (strftime_compact d) (ext_of p) (subdir_of dest_dir d) k) r w' ->
      placing p dest_dir d f w r w'.

(** The source [p] was reported as copied to [c] and removed. *)
Definition placed (p c : path) (w w' : world) : Prop :=
  stdout w' = (stdout w ++ [MsgCopied p c; MsgRemoved p])%list.

(** The source [p] was reported as a duplicate of [e]. *)
Definition skipped_duplicate (p e : path) (w w' : world) : Prop :=
  stdout w' = (stdout w ++ [MsgDuplicate p e])%list.

(** The loop over the files of [root] meets a file whose placement
    raises [e], the files before it having been dealt with. *)
Inductive file_fails (dest_dir root : path)
  : list string -> world -> exn -> world -> Prop :=
  | FileFails (pre post : list string) (file : string) (w w1 w2 : world) (e : exn) :
      process_files root pre dest_dir w = (Ok tt, w1) ->
      eligible file = true ->
      process_file (root </> file) dest_dir w1 = (Raise e, w2) ->
      file_fails dest_dir root (pre ++ file :: post)%list w e w2.

(** The walk from [top] meets such a file, in [top] itself or below
    one of its sub-directories, everything before it in walk order
    having returned. *)
Inductive walk_fails (dest_dir : path)
  : nat -> path -> world -> exn -> world -> Prop :=
  | FailsHere (fuel : nat) (top : path) (w w2 : world) (e : exn)
      (dirs files : list string) :
      scandir (fs w) top = Some (dirs, files) ->
      file_fails dest_dir top files w e w2 ->
      walk_fails dest_dir (S fuel) top w e w2
  | FailsBelow (fuel : nat) (top : path) (w w1 w2 w3 : world) (e : exn)
      (files pre post : list string) (d : string) :
      scandir (fs w) top = Some ((pre ++ d :: post)%list, files) ->
      process_files top files dest_dir w = (Ok tt, w1) ->
      for_each pre
        (fun d' => os_walk fuel (top </> d')
                     (fun root fl => process_files root fl dest_dir)) w1 = (Ok tt, w2) ->
      walk_fails dest_dir fuel (top </> d) w2 e w3 ->
      walk_fails dest_dir (S fuel) top w e w3.

End Vocabulary.

(** * The command line, and more vocabulary *)

(** [s.rstrip()] and [s.strip()] *)
Fixpoint rstrip_space (s : string) : string :=
  match s with
  | EmptyString => EmptyString
  | String c s' =>
      match rstrip_space s' with
      | EmptyString => if is_space c then EmptyString else String c EmptyString
      | t => String c t
      end
  end.

Definition strip (s : string) : string := rstrip_space (lstrip_space s).

Section Main.
Context `{Platform}.

(** [Path(arg)] as the operating system resolves it from the working
    directory. *)
Variable resolve : string -> path.

(** [input(prompt)]: the prompt is printed, and the line read is
    returned; at the end of the input it raises [EOFError]. *)
Definition input (line : option string) : M string :=
  print MsgPrompt ;;
  match line with
  | Some s => ret s
  | None => raise EOFError
  end.

(** [main], with the command line [argv] and the line typed at the
    prompt, if any.  [sys.exit(n)] is a return of [n], and so is the
    end of [main], with 0. *)
Definition main (fuel : nat) (argv : list string) (line : option string) : M nat :=
  if length argv <? 3 then
    print MsgUsage ;; ret 1
  else
    let source_dir := resolve (nth 1 argv EmptyString) in
    let dest_dir := resolve (nth 2 argv EmptyString) in
    let* m := get_fs in
    if negb (is_dir m source_dir) then
      print (MsgInvalidSource source_dir) ;; ret 1
    else
      print (MsgSourceDirectory source_dir) ;;
      print (MsgDestinationDirectory dest_dir) ;;
      let* answer := input line in
      let confirm := lower (strip answer) in
      if negb (String.eqb confirm "y") then
        print MsgCanceled ;; ret 0
      else
        traverse_directory fuel source_dir dest_dir ;; ret 0.

End Main.

(** The exit status of the process: the argument of [sys.exit], 0 at
    the end of the script, and 1 after an exception nobody caught. *)
Definition exit_status (r : outcome nat) : option nat :=
  match r with
  | Ok n => Some n
  | Raise _ => Some 1
  | Timeout => None
  end.

Section Reading.
Context `{Platform}.

(** The date entry of the file at [file_path], if the file can be
    opened, Pillow decodes it and one of the three tags is set. *)
Definition exif_date_of (w : world) (file_path : path) : option exif_value :=
  if denied (SysOpen file_path) then None
  else
    match stat (fs w) file_path with
    | inr (File f) =>
        match getexif (content f) with
        | ExifData (Some ex) => best_date ex
        | _ => None
        end
    | _ => None
    end.

End Reading.

(** Only white space. *)
Fixpoint all_space (s : string) : bool :=
  match s with
  | EmptyString => true
  | String c s' => is_space c && all_space s'
  end.

(** The length of the longest path the map has an entry for. *)
Definition depth (m : gmap path node) : nat :=
  max_list ((fun kv : path * node => length (fst kv)) <$> map_to_list m).

(** No entry lies deeper than [n] components. *)
Definition within (n : nat) (w : world) : Prop :=
  forall q, is_Some (fs w !! q) -> length q <= n.


(** ** [get_checksum], chunk by chunk

    The hash object of [hashlib] is a state [A] with an [update]; the
    open file is the list of the bytes not yet read. *)
Section Chunks.
Context {A : Type}.
Variable update : A -> list byte -> A.

(** [f.read(chunk_size)]: the bytes read and the bytes left. *)
Definition file_read (chunk_size : nat) (rest : list byte) : list byte * list byte :=
  (take chunk_size rest, drop chunk_size rest).

(** [for chunk in iter(lambda: f.read(chunk_size), b""):
       hash_md5.update(chunk)]; [fuel] bounds the number of reads. *)
Fixpoint read_chunks (fuel chunk_size : nat) (rest : list byte) (hash_md5 : A)
  : option A :=
  match fuel with
  | 0 => None
  | S fuel' =>
      match file_read chunk_size rest with
      | ([], _) => Some hash_md5
      | (chunk, rest') => read_chunks fuel' chunk_size rest' (update hash_md5 chunk)
      end
  end.

End Chunks.

(** ** A concrete environment, for running the model

    The digest is the content itself, the EXIF block is read off the
    first characters of the content, no system call is refused and no
    copy fails, and the year is written as glibc writes it. *)
Module Demo.

Definition demo_getexif (c : list byte) : exif_read :=
  match string_of_list_byte c with
  | String "!" _ => ExifFails
  | String "-" _ => ExifData None
  | s => ExifData (Some {[ 36867%Z := VStr (String.substring 0 19 s) ]})
  end.

Definition demo_mktime (d : datetime) : Z :=
  (((((Z.of_nat (dt_year d) * 12 + Z.of_nat (dt_month d)) * 31
      + Z.of_nat (dt_day d)) * 24 + Z.of_nat (dt_hour d)) * 60
    + Z.of_nat (dt_minute d)) * 60 + Z.of_nat (dt_second d))%Z.

Definition demo : Platform := {|
  md5 := string_of_list_byte;
  getexif := demo_getexif;
  mktime := demo_mktime;
  now := fun _ => 1700000000%Z;
  denied := fun _ => false;
  year_padded := false;
  copy_fault := fun _ _ => None
|}.

Definition photo_file (s : string) : file :=
  {| content := list_byte_of_string s; atime := 0; mtime := 0; mode := 420 |}.

Definition photo (s : string) : node := File (photo_file s).

Definition src : path := ["src"].
Definition out : path := ["out"].

Definition fs0 : gmap path node :=
  list_to_map [ (src, Dir); (out, Dir);
                (src </> "a.JPG", photo "2023:05:14 10:30:00 first");
                (src </> "b.jpg", photo "2023:05:14 10:30:00 second") ].

Definition w0 : world := {| fs := fs0; stdout := [] |}.

(** The directory of 14 May 2023 under [out], and the base name of
    10:30:00 that day. *)
Definition day : path := out </> "2023" </> "2023-05".
Definition base : string := "20230514_103000".

(** [out/2023] is a regular file, so the directory of a 2023 photo
    cannot be made; the photo of 2024 is not in its way. *)
Definition w_blocked : world :=
  {| fs := list_to_map [ (src, Dir); (out, Dir);
                         (out </> "2023", photo "not a directory");
                         (src </> "a.jpg", photo "2024:01:02 03:04:05 later");
                         (src </> "b.jpg", photo "2023:05:14 10:30:00 first") ];
     stdout := [] |}.

(** Two sources with the same bytes and different extensions. *)
Definition w_twins : world :=
  {| fs := list_to_map [ (src, Dir); (out, Dir);
                         (src </> "a.jpg", photo "2023:05:14 10:30:00 same bytes");
                         (src </> "b.jpeg", photo "2023:05:14 10:30:00 same bytes") ];
     stdout := [] |}.

(** Two sources with the same bytes and the same extension up to
    case. *)
Definition w_pair : world :=
  {| fs := list_to_map [ (src, Dir); (out, Dir);
                         (src </> "a.JPG", photo "2023:05:14 10:30:00 same bytes");
                         (src </> "b.jpg", photo "2023:05:14 10:30:00 same bytes") ];
     stdout := [] |}.

(** A destination that already holds the photo, as [.jpg]. *)
Definition w_organized : world :=
  {| fs := list_to_map [ (src, Dir); (out, Dir); (out </> "2023", Dir); (day, Dir);
                         (day </> "20230514_103000.jpg",
                          photo "2023:05:14 10:30:00 same bytes");
                         (src </> "a.jpg", photo "2023:05:14 10:30:00 same bytes");
                         (src </> "b.jpeg", photo "2023:05:14 10:30:00 same bytes") ];
     stdout := [] |}.

(** The first name is a directory and the second a different photo. *)
Definition w_probe : world :=
  {| fs := list_to_map [ (src, Dir); (out, Dir); (out </> "2023", Dir); (day, Dir);
                         (day </> "20230514_103000.jpg", Dir);
                         (day </> "20230514_103000_1.jpg",
                          photo "2023:05:14 10:30:00 other bytes");
                         (src </> "a.jpg", photo "2023:05:14 10:30:00 these bytes") ];
     stdout := [] |}.

(** The first name is a directory and the next one is free. *)
Definition w_dirname : world :=
  {| fs := list_to_map [ (src, Dir); (out, Dir); (out </> "2023", Dir); (day, Dir);
                         (day </> "20230514_103000.jpg", Dir);
                         (src </> "a.jpg", photo "2023:05:14 10:30:00 these bytes") ];
     stdout := [] |}.

(** A photo dated in the year 999, and the directory the code names
    for it. *)
Definition w_old : world :=
  {| fs := list_to_map [ (src, Dir); (out, Dir);
                         (src </> "old.jpg", photo "0999:05:14 10:30:00 old") ];
     stdout := [] |}.

Definition day_old : path := out </> "999" </> "999-05".

(** The same photo, already organized. *)
Definition w_old_again : world :=
  {| fs := list_to_map [ (src, Dir); (out, Dir); (out </> "999", Dir); (day_old, Dir);
                         (day_old </> "9990514_103000.jpg",
                          photo "0999:05:14 10:30:00 old");
                         (src </> "old.jpg", photo "0999:05:14 10:30:00 old") ];
     stdout := [] |}.

(** A photo dated on the first day of the year 1. *)
Definition w_first : world :=
  {| fs := list_to_map [ (src, Dir); (out, Dir);
                         (src </> "one.jpg", photo "0001:01:01 00:00:00 first") ];
     stdout := [] |}.

(** An environment whose date entries are not text. *)
Definition demo_binary : Platform := {|
  md5 := string_of_list_byte;
  getexif := fun _ => ExifData (Some {[ 36867%Z := VOther true ]});
  mktime := demo_mktime;
  now := fun _ => 1700000000%Z;
  denied := fun _ => false;
  year_padded := false;
  copy_fault := fun _ _ => None
|}.

(** Files without a usable date, a file the traversal does not select,
    and a photo in a sub-directory. *)
Definition w_dates : world :=
  {| fs := list_to_map [ (src, Dir); (out, Dir);
                         (src </> "nodate.jpg", photo "-no exif block");
                         (src </> "bad.jpg", photo "2023:02:30 10:00:00 no such day");
                         (src </> "notes.txt", photo "2023:05:14 10:30:00 text");
                         (src </> "sub", Dir);
                         (src </> "sub" </> "c.png", photo "2023:05:14 10:30:00 deeper") ];
     stdout := [] |}.

End Demo.

(** * Properties *)

Section Properties.
Context `{Platform}.

(** ** [get_exif_date] *)

Lemma first_date_best (d : gmap Z exif_value) :
  first_date d date_tags = best_date d.
Proof.
  unfold best_date, date_tags; simpl.
  destruct (d !! 36867%Z) as [v1|]; simpl;
    [destruct (truthy v1); [reflexivity|]|];
    (destruct (d !! 36868%Z) as [v2|]; simpl;
      [destruct (truthy v2); [reflexivity|]|]);
    (destruct (d !! 306%Z) as [v3|]; simpl;
      [destruct (truthy v3); reflexivity|reflexivity]).
Qed.

Lemma best_date_empty : best_date ∅ = None.
Proof. reflexivity. Qed.

(** C6.  [get_exif_date] never raises and never touches the filesystem.
    On a readable file whose EXIF block Pillow decodes, it returns the
    first non-empty entry among DateTimeOriginal (36867),
    DateTimeDigitized (36868) and DateTime (306), in that order, as
    stored; when the file cannot be opened or decoded it prints the
    error and returns [None]. *)
Theorem get_exif_date_priority (w : world) (file_path : path) :
  (exists r w', get_exif_date file_path w = (Ok r, w') /\ fs w' = fs w)
  /\ (forall f d,
        denied (SysOpen file_path) = false ->
        stat (fs w) file_path = inr (File f) ->
        getexif (content f) = ExifData d ->
        get_exif_date file_path w = (Ok (from_option best_date None d), w))
  /\ (forall e w1,
        image_getexif file_path w = (Raise e, w1) ->
        get_exif_date file_path w =
          (Ok None, {| fs := fs w; stdout := stdout w ++ [MsgExifError file_path e] |})).
Proof.
  unfold get_exif_date, image_getexif, try_except, bind, open_rb, ret, raise, print.
  split; [|split].
  - destruct (denied (SysOpen file_path)); simpl; [eauto|].
    destruct (stat (fs w) file_path) as [e|[|f]]; simpl; eauto.
    destruct (getexif (content f)) as [|[d|]]; simpl; eauto.
    destruct (decide (d = ∅)); simpl; eauto.
  - intros f d Hd Hs Hx. rewrite Hd, Hs; simpl. rewrite Hx.
    destruct d as [d|]; simpl; [|reflexivity].
    destruct (decide (d = ∅)) as [->|]; simpl.
    + now rewrite best_date_empty.
    + do 2 f_equal. apply first_date_best.
  - intros e w1.
    destruct (denied (SysOpen file_path)); simpl.
    { intros [= <- <-]. reflexivity. }
    destruct (stat (fs w) file_path) as [e'|[|f]]; simpl;
      try (intros [= <- <-]; reflexivity).
    destruct (getexif (content f)) as [|[d|]]; simpl;
      try (intros [= <- <-]; reflexivity); discriminate.
Qed.

(** ** The probing loop of [generate_unique_filename] *)

Lemma open_rb_state (p : path) (w : world) : snd (open_rb p w) = w.
Proof.
  unfold open_rb. destruct (denied _); [reflexivity|].
  destruct (stat _ _) as [|[|]]; reflexivity.
Qed.

Lemma open_rb_not_timeout (p : path) (w : world) : fst (open_rb p w) <> Timeout.
Proof.
  unfold open_rb. destruct (denied _); [discriminate|].
  destruct (stat _ _) as [|[|]]; discriminate.
Qed.

Lemma files_are_identical_state (p q : path) (w : world) :
  snd (files_are_identical p q w) = w.
Proof.
  unfold files_are_identical, get_checksum, bind, ret.
  pose proof (open_rb_state p w) as Hp. destruct (open_rb p w) as [[c1| |] w1];
    simpl in *; subst; try reflexivity.
  pose proof (open_rb_state q w) as Hq. destruct (open_rb q w) as [[c2| |] w2];
    simpl in *; subst; reflexivity.
Qed.

Lemma files_are_identical_not_timeout (p q : path) (w : world) :
  fst (files_are_identical p q w) <> Timeout.
Proof.
  unfold files_are_identical, get_checksum, bind, ret.
  pose proof (open_rb_state p w) as Hp. pose proof (open_rb_not_timeout p w) as Tp.
  destruct (open_rb p w) as [[c1| |] w1]; simpl in *; subst; try easy.
  pose proof (open_rb_state q w) as Hq. pose proof (open_rb_not_timeout q w) as Tq.
  destruct (open_rb q w) as [[c2| |] w2]; simpl in *; subst; easy.
Qed.

(** One test of the loop condition. *)
Lemma unique_loop_step (fuel : nat) (base_name ext : string)
    (dest_dir source_file dest_path : path) (counter : nat) (w : world) :
  unique_loop (S fuel) base_name ext dest_dir source_file dest_path counter w =
    match probe w source_file dest_path with
    | Taken =>
        unique_loop fuel base_name ext dest_dir source_file
          (dest_dir </> numbered_name base_name ext counter) (counter + 1) w
    | _ => probe_outcome w source_file dest_path
    end.
Proof.
  unfold probe_outcome, probe. simpl. unfold bind at 1, get_fs at 1.
  destruct (exists_ (fs w) dest_path); [|reflexivity].
  destruct (is_file (fs w) dest_path); unfold bind at 1; [|reflexivity].
  pose proof (files_are_identical_state dest_path source_file w) as Hs.
  pose proof (files_are_identical_not_timeout dest_path source_file w) as Ht.
  destruct (files_are_identical dest_path source_file w) as [[[|]| |] w1];
    simpl in *; subst; try reflexivity.
  now elim Ht.
Qed.

Lemma candidate_next (base_name ext : string) (dest_dir : path) (k : nat) :
  dest_dir </> numbered_name base_name ext (k + 1) = candidate base_name ext dest_dir (S k).
Proof. now rewrite Nat.add_1_r. Qed.

(** The loop runs through the candidates that are taken and stops at the
    first one that is not. *)
Lemma unique_loop_run (base_name ext : string) (dest_dir source_file : path)
    (w : world) (fuel j k : nat) :
  j <= k -> k - j < fuel ->
  (forall i, j <= i < k ->
     probe w source_file (candidate base_name ext dest_dir i) = Taken) ->
  probe w source_file (candidate base_name ext dest_dir k) <> Taken ->
  unique_loop fuel base_name ext dest_dir source_file
    (candidate base_name ext dest_dir j) (j + 1) w
  = probe_outcome w source_file (candidate base_name ext dest_dir k).
Proof.
  revert j. induction fuel as [|fuel IH]; intros j Hjk Hf Htaken Hk; [lia|].
  rewrite unique_loop_step.
  destruct (decide (j = k)) as [->|Hne].
  - destruct (probe w source_file (candidate base_name ext dest_dir k));
      try reflexivity. now elim Hk.
  - rewrite (Htaken j) by lia. rewrite candidate_next.
    replace (j + 1 + 1) with (S j + 1) by lia.
    apply IH; try lia; auto. intros i Hi. apply Htaken. lia.
Qed.

(** Among the candidates from [j] on, the first that is not taken. *)
Lemma first_not_taken (w : world) (source_file : path) (cand : nat -> path) (d j : nat) :
  probe w source_file (cand (j + d)) <> Taken ->
  exists k, j <= k <= j + d
    /\ (forall i, j <= i < k -> probe w source_file (cand i) = Taken)
    /\ probe w source_file (cand k) <> Taken.
Proof.
  revert j. induction d as [|d IH]; intros j Hd.
  - exists j. rewrite Nat.add_0_r in Hd. repeat split; auto; lia.
  - destruct (decide (probe w source_file (cand j) = Taken)) as [Ht|Hn].
    + destruct (IH (S j)) as (k & Hk & Hbefore & Hat).
      { now replace (S j + d) with (j + S d) by lia. }
      exists k. repeat split; try lia; auto.
      intros i Hi. destruct (decide (i = j)) as [->|]; auto. apply Hbefore. lia.
    + exists j. repeat split; auto; lia.
Qed.

Lemma string_app_nil_l (t : string) : "" +:+ t = t.
Proof. reflexivity. Qed.

Lemma string_app_cons (c : ascii) (s t : string) :
  String c s +:+ t = String c (s +:+ t).
Proof. reflexivity. Qed.

Lemma string_length_app (s t : string) :
  String.length (s +:+ t) = String.length s + String.length t.
Proof.
  induction s as [|c s IH]; [reflexivity|].
  rewrite string_app_cons. simpl. now rewrite IH.
Qed.

Lemma string_app_inv_tail (s1 s2 t : string) : s1 +:+ t = s2 +:+ t -> s1 = s2.
Proof.
  revert s2. induction s1 as [|c s1 IH]; intros [|c2 s2] Heq;
    rewrite ?string_app_nil_l, ?string_app_cons in Heq.
  - reflexivity.
  - apply (f_equal String.length) in Heq. simpl in Heq.
    rewrite (string_length_app s2 t) in Heq. exfalso; lia.
  - apply (f_equal String.length) in Heq. simpl in Heq.
    rewrite (string_length_app s1 t) in Heq. exfalso; lia.
  - injection Heq as -> Heq. f_equal. now apply IH.
Qed.

(** Different counters give different names. *)
Lemma candidate_inj (base_name ext : string) (dest_dir : path) (i j : nat) :
  candidate base_name ext dest_dir i = candidate base_name ext dest_dir j -> i = j.
Proof.
  unfold candidate, joinpath, plain_name, numbered_name.
  destruct i as [|i], j as [|j]; intros Heq; try reflexivity;
    injection Heq as Heq; apply String.app_inj in Heq; try discriminate.
  injection Heq as Heq. rewrite !string_app_nil_l in Heq.
  apply string_app_inv_tail in Heq.
  now apply pretty_nat_inj in Heq.
Qed.

Lemma exists_lookup (m : gmap path node) (p : path) :
  p <> [] -> exists_ m p = true -> is_Some (m !! p).
Proof.
  unfold exists_. destruct p as [|n q]; [easy|]. intros _. simpl.
  repeat case_match; intros; simplify_eq; eauto.
Qed.

Lemma candidate_not_root (base_name ext : string) (dest_dir : path) (k : nat) :
  candidate base_name ext dest_dir k <> [].
Proof. destruct k; discriminate. Qed.

(** The map is finite and the candidates are pairwise distinct, so one
    of the first [size m + 1] candidates does not exist. *)
Lemma free_candidate (m : gmap path node) (base_name ext : string) (dest_dir : path) :
  exists k, k <= size m /\ exists_ m (candidate base_name ext dest_dir k) = false.
Proof.
  set (cand := candidate base_name ext dest_dir).
  assert (Hdec : forall n,
    (forall k, k < n -> exists_ m (cand k) = true)
    \/ (exists k, k < n /\ exists_ m (cand k) = false)).
  { induction n as [|n [IH|(k & Hk & Hf)]].
    - left. intros k Hk. lia.
    - destruct (exists_ m (cand n)) eqn:En.
      + left. intros k Hk. destruct (decide (k = n)) as [->|]; auto. apply IH. lia.
      + right. exists n. split; [lia|assumption].
    - right. exists k. split; [lia|assumption]. }
  destruct (Hdec (S (size m))) as [Hall|(k & Hk & Hf)].
  - exfalso.
    set (l := cand <$> seq 0 (S (size m))).
    assert (Hnd : NoDup l).
    { apply NoDup_fmap_2_strong; [|apply NoDup_seq].
      intros i j _ _. apply candidate_inj. }
    assert (Hsub : (list_to_set l : gset path) ⊆ dom m).
    { intros p Hp. apply elem_of_list_to_set in Hp.
      apply list_elem_of_fmap in Hp as (i & -> & Hi).
      apply elem_of_seq in Hi. apply elem_of_dom.
      apply exists_lookup; [apply candidate_not_root|]. apply Hall. lia. }
    apply subseteq_size in Hsub.
    rewrite size_list_to_set, size_dom in Hsub by assumption.
    unfold l in Hsub. rewrite length_fmap, length_seq in Hsub. lia.
  - exists k. split; [lia|assumption].
Qed.

Lemma files_are_identical_files (dest_path source_file : path) (w : world) (f g : file) :
  stat (fs w) dest_path = inr (File f) ->
  stat (fs w) source_file = inr (File g) ->
  denied (SysOpen dest_path) = false ->
  denied (SysOpen source_file) = false ->
  files_are_identical dest_path source_file w
  = (Ok (bool_decide (md5 (content f) = md5 (content g))), w).
Proof.
  intros Hd Hs Dd Ds.
  unfold files_are_identical, get_checksum, bind, open_rb, ret.
  now rewrite Dd, Hd, Ds, Hs.
Qed.

Lemma is_file_stat (m : gmap path node) (p : path) :
  is_file m p = true -> exists f, stat m p = inr (File f).
Proof. unfold is_file. destruct (stat m p) as [|[|f]]; try discriminate; eauto. Qed.

Lemma is_file_exists (m : gmap path node) (p : path) :
  is_file m p = true -> exists_ m p = true.
Proof. unfold is_file, exists_. destruct (stat m p) as [|[|f]]; easy. Qed.

(** What the loop can return, whatever the fuel and the starting
    point. *)
Lemma unique_loop_result (fuel : nat) (base_name ext : string)
    (dest_dir source_file dest_path : path) (counter : nat) (w w' : world)
    (r : outcome (option path)) :
  unique_loop fuel base_name ext dest_dir source_file dest_path counter w = (r, w') ->
  match r with
  | Ok (Some d) => w' = w /\ exists_ (fs w) d = false
  | Ok None =>
      exists d, w' = {| fs := fs w; stdout := stdout w ++ [MsgDuplicate source_file d] |}
                /\ is_file (fs w) d = true
                /\ files_are_identical d source_file w = (Ok true, w)
  | Raise _ => w' = w
  | Timeout => w' = w
  end.
Proof.
  revert dest_path counter. induction fuel as [|fuel IH]; intros dest_path counter.
  - simpl. unfold timeout. now intros [= <- <-].
  - rewrite unique_loop_step. unfold probe_outcome, probe.
    destruct (exists_ (fs w) dest_path) eqn:Ex; [|now intros [= <- <-]].
    destruct (is_file (fs w) dest_path) eqn:Ef; [|apply IH].
    pose proof (files_are_identical_state dest_path source_file w) as Hs.
    destruct (files_are_identical dest_path source_file w) as [[[|]| |] w1] eqn:Hi;
      simpl in *; subst w1; try apply IH.
    + intros [= <- <-]. eauto.
    + now intros [= <- <-].
Qed.

Lemma probe_readable (w : world) (source_file dest_path : path) (g : file) :
  stat (fs w) source_file = inr (File g) ->
  (forall p, denied (SysOpen p) = false) ->
  probe w source_file dest_path =
    match stat (fs w) dest_path with
    | inl _ => Free
    | inr Dir => Taken
    | inr (File f) =>
        if bool_decide (md5 (content f) = md5 (content g)) then Same else Taken
    end.
Proof.
  intros Hs Hd. unfold probe, exists_, is_file.
  destruct (stat (fs w) dest_path) as [e|[|f]] eqn:Hp; try reflexivity.
  rewrite (files_are_identical_files _ _ _ f g) by auto. simpl.
  now destruct (bool_decide _).
Qed.

Lemma probe_taken_exists (w : world) (source_file dest_path : path) :
  probe w source_file dest_path = Taken -> exists_ (fs w) dest_path = true.
Proof. unfold probe. now destruct (exists_ (fs w) dest_path). Qed.

Lemma probe_free (w : world) (source_file dest_path : path) :
  exists_ (fs w) dest_path = false -> probe w source_file dest_path = Free.
Proof. unfold probe. now intros ->. Qed.

(** C4.  The probing loop terminates.  For a readable regular source
    file and readable candidates there is a number [k] of collisions,
    at most the number of entries of the filesystem, such that the
    candidates [base.ext], [base_1.ext], ..., up to the one before the
    [k]-th all exist, and with any fuel above [k] the loop stops at the
    [k]-th candidate: it either returns that path, which does not
    exist, or reports it as a duplicate, a regular file with the digest
    of the source.  [generate_unique_filename] gives it enough fuel. *)
Theorem unique_loop_terminates (base_name ext : string)
    (dest_dir source_file : path) (w : world) :
  is_file (fs w) source_file = true ->
  (forall p, denied (SysOpen p) = false) ->
  exists k,
    k <= size (fs w)
    /\ (forall i, i < k ->
          exists_ (fs w) (candidate base_name ext dest_dir i) = true)
    /\ (exists r,
          (forall fuel, k < fuel ->
             unique_loop fuel base_name ext dest_dir source_file
               (dest_dir </> plain_name base_name ext) 1 w = r)
          /\ generate_unique_filename base_name ext dest_dir source_file w = r
          /\ ((r = (Ok (Some (candidate base_name ext dest_dir k)), w)
               /\ exists_ (fs w) (candidate base_name ext dest_dir k) = false)
              \/ (r = (Ok None,
                       say (MsgDuplicate source_file
                              (candidate base_name ext dest_dir k)) w)
                  /\ exists f g,
                       stat (fs w) (candidate base_name ext dest_dir k) = inr (File f)
                       /\ stat (fs w) source_file = inr (File g)
                       /\ md5 (content f) = md5 (content g)))).
Proof.
  intros Hsrc Hden.
  destruct (is_file_stat _ _ Hsrc) as [g Hg].
  set (cand := candidate base_name ext dest_dir).
  destruct (free_candidate (fs w) base_name ext dest_dir) as (k0 & Hk0 & Hfree).
  destruct (first_not_taken w source_file cand k0 0) as (k & Hk & Hbefore & Hat).
  { simpl. fold cand in Hfree. now rewrite (probe_free _ _ _ Hfree). }
  exists k. split; [lia|]. split.
  { intros i Hi. apply (probe_taken_exists w source_file). apply Hbefore. lia. }
  exists (probe_outcome w source_file (cand k)).
  assert (Hrun : forall fuel, k < fuel ->
            unique_loop fuel base_name ext dest_dir source_file
              (dest_dir </> plain_name base_name ext) 1 w
            = probe_outcome w source_file (cand k)).
  { intros fuel Hfuel.
    apply (unique_loop_run base_name ext dest_dir source_file w fuel 0 k);
      auto; lia. }
  split; [exact Hrun|]. split.
  { unfold generate_unique_filename, bind, get_fs. apply Hrun. lia. }
  unfold probe_outcome.
  rewrite (probe_readable w source_file (cand k) g Hg Hden) in *.
  unfold exists_.
  destruct (stat (fs w) (cand k)) as [e|[|f]] eqn:Hst.
  - left. split; reflexivity.
  - now elim Hat.
  - destruct (bool_decide (md5 (content f) = md5 (content g))) eqn:Hmd; [|now elim Hat].
    right. split; [reflexivity|]. exists f, g. apply bool_decide_eq_true in Hmd. auto.
Qed.

(** Candidates that all exist are entries of the filesystem, and they
    are pairwise distinct. *)
Lemma taken_count (m : gmap path node) (base_name ext : string) (dest_dir : path)
    (k : nat) :
  (forall i, i < k -> exists_ m (candidate base_name ext dest_dir i) = true) ->
  k <= size m.
Proof.
  intros Hall. set (cand := candidate base_name ext dest_dir) in *.
  set (l := cand <$> seq 0 k).
  assert (Hnd : NoDup l).
  { apply NoDup_fmap_2_strong; [|apply NoDup_seq].
    intros i j _ _. apply candidate_inj. }
  assert (Hsub : (list_to_set l : gset path) ⊆ dom m).
  { intros p Hp. apply elem_of_list_to_set in Hp.
    apply list_elem_of_fmap in Hp as (i & -> & Hi).
    apply elem_of_seq in Hi. apply elem_of_dom.
    apply exists_lookup; [apply candidate_not_root|]. apply Hall. lia. }
  apply subseteq_size in Hsub.
  rewrite size_list_to_set, size_dom in Hsub by assumption.
  unfold l in Hsub. now rewrite length_fmap, length_seq in Hsub.
Qed.

(** C10.  An entry that exists at the tested path without being a
    regular file costs one test and nothing else: the loop goes on to
    the next numbered name in the same world, without reading the
    entry (which would raise) and without printing; when that next
    name is free the loop returns it.  So when the first [k] names of
    the sequence are all such entries and the next one is free,
    [generate_unique_filename] returns that one, in the world it
    found.  And whatever the loop returns from any starting point, it
    is never such an entry: a returned destination does not exist and
    nothing was printed, and a duplicate is reported only for a
    regular file, another path, with the duplicate line printed. *)
Theorem non_file_candidate_skipped (base_name ext : string)
    (dest_dir source_file dest_path : path) (w : world) :
  exists_ (fs w) dest_path = true ->
  is_file (fs w) dest_path = false ->
  (forall fuel counter,
     unique_loop (S fuel) base_name ext dest_dir source_file dest_path counter w
     = unique_loop fuel base_name ext dest_dir source_file
         (dest_dir </> numbered_name base_name ext counter) (counter + 1) w)
  /\ (forall fuel counter,
        exists_ (fs w) (dest_dir </> numbered_name base_name ext counter) = false ->
        unique_loop (S (S fuel)) base_name ext dest_dir source_file dest_path counter w
        = (Ok (Some (dest_dir </> numbered_name base_name ext counter)), w))
  /\ (forall k,
        (forall i, i < k ->
           exists_ (fs w) (candidate base_name ext dest_dir i) = true
           /\ is_file (fs w) (candidate base_name ext dest_dir i) = false) ->
        exists_ (fs w) (candidate base_name ext dest_dir k) = false ->
        generate_unique_filename base_name ext dest_dir source_file w
        = (Ok (Some (candidate base_name ext dest_dir k)), w))
  /\ (forall fuel start counter r w',
        unique_loop fuel base_name ext dest_dir source_file start counter w = (r, w') ->
        match r with
        | Ok (Some d) => d <> dest_path /\ exists_ (fs w) d = false /\ w' = w
        | Ok None =>
            exists d,
              d <> dest_path /\ is_file (fs w) d = true
              /\ w' = say (MsgDuplicate source_file d) w
        | Raise _ => w' = w
        | Timeout => w' = w
        end)
  /\ (exists e, fst (get_checksum dest_path w) = Raise e).
Proof.
  intros Hex Hnf.
  assert (Hstep : forall fuel counter,
     unique_loop (S fuel) base_name ext dest_dir source_file dest_path counter w
     = unique_loop fuel base_name ext dest_dir source_file
         (dest_dir </> numbered_name base_name ext counter) (counter + 1) w).
  { intros fuel counter. rewrite unique_loop_step. unfold probe.
    now rewrite Hex, Hnf. }
  split; [exact Hstep|]. split; [|split; [|split]].
  - intros fuel counter Hfree. rewrite Hstep, unique_loop_step.
    unfold probe_outcome. now rewrite (probe_free _ _ _ Hfree).
  - intros k Hbefore Hfree.
    unfold generate_unique_filename, bind, get_fs.
    rewrite (unique_loop_run base_name ext dest_dir source_file w (S (size (fs w))) 0 k).
    + unfold probe_outcome. now rewrite (probe_free _ _ _ Hfree).
    + lia.
    + assert (k <= size (fs w)); [|lia].
      apply (taken_count _ base_name ext dest_dir). intros i Hi. now apply Hbefore.
    + intros i Hi. destruct (Hbefore i) as [He Hf]; [lia|].
      unfold probe. now rewrite He, Hf.
    + now rewrite (probe_free _ _ _ Hfree).
  - intros fuel start counter r w' Hrun.
    apply unique_loop_result in Hrun.
    destruct r as [[d|]| |].
    + destruct Hrun as [-> Hd]. split; [congruence|]. auto.
    + destruct Hrun as (d & -> & Hd & _). exists d.
      split; [congruence|]. split; [assumption|reflexivity].
    + assumption.
    + assumption.
  - unfold get_checksum, bind, open_rb. destruct (denied _); [eauto|].
    unfold exists_, is_file in *.
    destruct (stat (fs w) dest_path) as [e|[|f]]; try discriminate; eauto.
Qed.

(** ** Dates: [strptime] on what [strftime] writes *)

Lemma digit_char_facts (d : nat) :
  d < 10 ->
  is_digit (digit_char d) = true /\ is_space (digit_char d) = false
  /\ digit_val (digit_char d) = d.
Proof.
  intros Hd. do 10 (destruct d as [|d]; [now vm_compute|]). lia.
Qed.

Lemma mod10_lt (n : nat) : n mod 10 < 10.
Proof. apply Nat.mod_upper_bound. discriminate. Qed.

Lemma py_int_pad2 (n : nat) : n < 100 -> py_int (pad2 n) = n.
Proof.
  intros Hn. unfold py_int, pad2. cbn [lstrip_space].
  destruct (digit_char_facts (n / 10 mod 10) (mod10_lt _)) as (_ & -> & Ha).
  destruct (digit_char_facts (n mod 10) (mod10_lt _)) as (_ & _ & Hb).
  cbn [digits_val]. rewrite Ha, Hb.
  pose proof (Nat.div_mod_eq n 10).
  rewrite (Nat.mod_small (n / 10) 10) by (apply Nat.Div0.div_lt_upper_bound; lia).
  lia.
Qed.

Lemma py_int_pad4_check :
  forallb (fun y => py_int (pad4 y) =? y) (seq 0 (10 * 1000)) = true.
Proof. vm_compute. reflexivity. Qed.

Lemma py_int_pad4 (y : nat) : y < 10 * 1000 -> py_int (pad4 y) = y.
Proof.
  intros Hy. pose proof py_int_pad4_check as Hc.
  rewrite forallb_forall in Hc. apply Nat.eqb_eq, Hc, in_seq. lia.
Qed.

Ltac group_case Hk :=
  match type of Hk with
  | context [pad2 ?n] =>
      let t := eval vm_compute in (pad2 n) in
      change (pad2 n) with t in *;
      rewrite ?string_app_cons, ?string_app_nil_l;
      simpl; simpl in Hk; rewrite Hk; reflexivity
  end.

(** A zero-padded field is matched by the first alternative of its
    directive that applies, which takes both digits. *)
Lemma group_pad2 (f : field) (n : nat) (re : list item) (env : captures)
    (rest : string) (r : captures * string) :
  in_field f n ->
  re_match re (capture f (pad2 n) env) rest = Some r ->
  re_match (Group f :: re) env (pad2 n +:+ rest) = Some r.
Proof.
  intros Hn Hk. cbn [re_match]. destruct f; cbn [in_field] in Hn.
  - contradiction.
  - do 13 (destruct n as [|n]; [try lia; group_case Hk|]); lia.
  - do 32 (destruct n as [|n]; [try lia; group_case Hk|]); lia.
  - do 24 (destruct n as [|n]; [try lia; group_case Hk|]); lia.
  - do 60 (destruct n as [|n]; [try lia; group_case Hk|]); lia.
  - do 60 (destruct n as [|n]; [try lia; group_case Hk|]); lia.
Qed.


End Properties.

Section Dates.
Context `{Platform}.

Lemma group_pad4 (y : nat) (re : list item) (env : captures)
    (rest : string) (r : captures * string) :
  re_match re (capture FY (pad4 y) env) rest = Some r ->
  re_match (Group FY :: re) env (pad4 y +:+ rest) = Some r.
Proof.
  intros Hk. cbn [re_match alternatives first_alt]. unfold pad4, pad2 in *.
  rewrite !string_app_cons, string_app_nil_l. cbn [match_alt].
  destruct (digit_char_facts (y / 1000 mod 10) (mod10_lt _)) as (-> & _ & _).
  destruct (digit_char_facts (y / 100 mod 10) (mod10_lt _)) as (-> & _ & _).
  destruct (digit_char_facts (y / 10 mod 10) (mod10_lt _)) as (-> & _ & _).
  destruct (digit_char_facts (y mod 10) (mod10_lt _)) as (-> & _ & _).
  now rewrite Hk.
Qed.

Lemma lit_match (c : ascii) (re : list item) (env : captures) (rest : string) :
  re_match (Lit c :: re) env (String c rest) = re_match re env rest.
Proof. cbn [re_match]. now rewrite Ascii.eqb_refl. Qed.

(** One blank before a digit: [\s+] takes the blank and stops. *)
Lemma spaces_match (n : nat) (re : list item) (env : captures) (rest : string) :
  re_match (Spaces :: re) env (String " " (pad2 n +:+ rest))
  = re_match re env (pad2 n +:+ rest).
Proof.
  cbn [re_match]. unfold spaces_plus, pad2.
  change (is_space " ") with true. cbn iota.
  rewrite !string_app_cons. cbn [spaces_star].
  now destruct (digit_char_facts (n / 10 mod 10) (mod10_lt _)) as (_ & -> & _).
Qed.

Lemma days_in_month_le (y m : nat) : days_in_month y m <= 31.
Proof.
  unfold days_in_month.
  do 12 (destruct m as [|m]; [try lia; destruct (is_leap y); lia|]). lia.
Qed.

Lemma valid_datetime_fields (d : datetime) :
  valid_datetime d = true ->
  1 <= dt_year d < 10 * 1000 /\ in_field Fm (dt_month d) /\ in_field Fd (dt_day d)
  /\ in_field FH (dt_hour d) /\ in_field FM (dt_minute d) /\ in_field FS (dt_second d).
Proof.
  unfold valid_datetime, in_field. rewrite !andb_true_iff.
  rewrite !Nat.leb_le, !Nat.ltb_lt. intros Hv.
  pose proof (days_in_month_le (dt_year d) (dt_month d)). lia.
Qed.

Lemma capture_eq (f : field) (t : string) (env : captures) :
  capture f t env f = Some t.
Proof. unfold capture. now rewrite decide_True. Qed.

Lemma capture_ne (f g : field) (t : string) (env : captures) :
  g <> f -> capture f t env g = env g.
Proof. intros Hne. unfold capture. now rewrite decide_False. Qed.

Lemma datetime_of_captures (d : datetime) :
  valid_datetime d = true ->
  let env := capture FS (pad2 (dt_second d)) (capture FM (pad2 (dt_minute d))
              (capture FH (pad2 (dt_hour d)) (capture Fd (pad2 (dt_day d))
              (capture Fm (pad2 (dt_month d)) (capture FY (pad4 (dt_year d))
              no_captures))))) in
  {| dt_year := field_val env FY 1900; dt_month := field_val env Fm 1;
     dt_day := field_val env Fd 1; dt_hour := field_val env FH 0;
     dt_minute := field_val env FM 0; dt_second := field_val env FS 0 |} = d.
Proof.
  intros Hv. apply valid_datetime_fields in Hv. cbn [in_field] in Hv.
  unfold field_val.
  repeat (rewrite capture_eq || rewrite capture_ne by discriminate).
  rewrite py_int_pad4 by lia. rewrite !py_int_pad2 by lia. now destruct d.
Qed.

Lemma pad2_app_nil (n : nat) : pad2 n = pad2 n +:+ "".
Proof. reflexivity. Qed.

Lemma re_match_exif_text (d : datetime) :
  valid_datetime d = true ->
  re_match [Group FY; Lit ":"; Group Fm; Lit ":"; Group Fd; Spaces;
            Group FH; Lit ":"; Group FM; Lit ":"; Group FS]%char
    no_captures (exif_text d) = Some (date_captures d, "").
Proof.
  intros Hv. pose proof (valid_datetime_fields d Hv) as (Hy & Hm & Hd & HH & HM & HS).
  unfold exif_text.
  apply group_pad4.
  rewrite string_app_cons, string_app_nil_l, lit_match.
  apply group_pad2; [assumption|].
  rewrite string_app_cons, string_app_nil_l, lit_match.
  apply group_pad2; [assumption|].
  rewrite string_app_cons, string_app_nil_l, spaces_match.
  apply group_pad2; [assumption|].
  rewrite string_app_cons, string_app_nil_l, lit_match.
  apply group_pad2; [assumption|].
  rewrite string_app_cons, string_app_nil_l, lit_match.
  rewrite (pad2_app_nil (dt_second d)).
  apply group_pad2; [assumption|]. reflexivity.
Qed.

(** From 1000 on the year has four digits as it is. *)
Lemma pretty_pad4_check :
  forallb (fun y => String.eqb (pretty y) (pad4 y)) (seq 1000 (9 * 1000)) = true.
Proof. vm_compute. reflexivity. Qed.

Lemma pretty_pad4 (y : nat) : 1000 <= y < 10 * 1000 -> pretty y = pad4 y.
Proof.
  intros Hy. pose proof pretty_pad4_check as Hall.
  rewrite forallb_forall in Hall. apply String.eqb_eq. apply Hall.
  apply in_seq. lia.
Qed.

Lemma strftime_Y_pad4 (d : datetime) :
  valid_datetime d = true -> four_digit d -> strftime_Y d = pad4 (dt_year d).
Proof.
  intros Hv Hf. apply valid_datetime_fields in Hv. destruct Hv as (Hy & _).
  unfold strftime_Y. destruct Hf as [-> |Hge]; [reflexivity|].
  destruct year_padded; [reflexivity|]. apply pretty_pad4. lia.
Qed.

Lemma re_match_strftime_touch (d : datetime) :
  valid_datetime d = true -> four_digit d ->
  re_match [Group FY; Group Fm; Group Fd; Group FH; Group FM; Lit "."; Group FS]%char
    no_captures (strftime_touch d) = Some (date_captures d, "").
Proof.
  intros Hv Hf. pose proof (valid_datetime_fields d Hv) as (Hy & Hm & Hd & HH & HM & HS).
  unfold strftime_touch. rewrite (strftime_Y_pad4 d Hv Hf).
  apply group_pad4.
  do 4 (apply group_pad2; [assumption|]).
  rewrite string_app_cons, string_app_nil_l, lit_match.
  rewrite (pad2_app_nil (dt_second d)).
  apply group_pad2; [assumption|]. reflexivity.
Qed.

(** [strptime] reads a date in the exact pattern back. *)
Lemma strptime_exif_text (d : datetime) :
  valid_datetime d = true -> strptime (exif_text d) exif_format = Some d.
Proof.
  intros Hv. unfold strptime.
  change (compile false exif_format) with
    (Some [Group FY; Lit ":"; Group Fm; Lit ":"; Group Fd; Spaces;
           Group FH; Lit ":"; Group FM; Lit ":"; Group FS])%char.
  cbv beta iota. rewrite (re_match_exif_text d Hv).
  cbv beta iota zeta. unfold date_captures.
  rewrite (datetime_of_captures d Hv). now rewrite Hv.
Qed.

(** [strptime] reads back what [strftime] wrote for [os.utime], when
    the year was written with four digits. *)
Lemma strptime_strftime_touch (d : datetime) :
  valid_datetime d = true -> four_digit d ->
  strptime (strftime_touch d) touch_format = Some d.
Proof.
  intros Hv Hf. unfold strptime.
  change (compile false touch_format) with
    (Some [Group FY; Group Fm; Group Fd; Group FH; Group FM; Lit "."; Group FS])%char.
  cbv beta iota. rewrite (re_match_strftime_touch d Hv Hf).
  cbv beta iota zeta. unfold date_captures.
  rewrite (datetime_of_captures d Hv). now rewrite Hv.
Qed.

End Dates.

Section FormatDate.
Context `{Platform}.

Lemma strptime_valid (s fmt : string) (d : datetime) :
  strptime s fmt = Some d -> valid_datetime d = true.
Proof.
  unfold strptime. destruct (compile false fmt) as [re|]; [|discriminate].
  destruct (re_match re no_captures s) as [[env [|c r]]|]; try discriminate.
  match goal with |- context [valid_datetime ?x] => destruct (valid_datetime x) eqn:Hv end;
    [|discriminate].
  now intros [= <-].
Qed.

Lemma format_date_str (s : string) :
  format_date (VStr s) = Ok (date_info_of <$> strptime s exif_format).
Proof.
  unfold format_date. now destruct (strptime s exif_format).
Qed.

(** C7, as the code has it.  On a string [format_date] never raises:
    it returns [None] when [strptime] rejects the text, and otherwise
    the year, the two-digit month, the base name and the time stamp
    text [strftime] writes for the date read.  When the year is
    written with four digits, as for every date from the year 1000
    on, these are the zero-padded year [YYYY], the base name
    [YYYYMMDD_HHMMSS] and the time stamp text [YYYYMMDDhhmm.SS], from
    which [strptime] reads the same date back.  Every text of the
    exact pattern [YYYY:MM:DD HH:MM:SS] that is a valid date is
    accepted. *)
Theorem format_date_total (s : string) :
  ((strptime s exif_format = None /\ format_date (VStr s) = Ok None)
   \/ (exists d,
         strptime s exif_format = Some d
         /\ valid_datetime d = true
         /\ format_date (VStr s)
            = Ok (Some {| year := strftime_Y d;
                          month := pad2 (dt_month d);
                          formatted_date := strftime_touch d;
                          timestamp := strftime_compact d |})
         /\ (year_padded = true \/ 1000 <= dt_year d ->
             strftime_Y d = pad4 (dt_year d)
             /\ strftime_touch d
                = pad4 (dt_year d) +:+ pad2 (dt_month d) +:+ pad2 (dt_day d)
                  +:+ pad2 (dt_hour d) +:+ pad2 (dt_minute d) +:+ "."
                  +:+ pad2 (dt_second d)
             /\ strftime_compact d
                = pad4 (dt_year d) +:+ pad2 (dt_month d) +:+ pad2 (dt_day d)
                  +:+ "_" +:+ pad2 (dt_hour d) +:+ pad2 (dt_minute d)
                  +:+ pad2 (dt_second d)
             /\ strptime (strftime_touch d) touch_format = Some d)))
  /\ (forall d, valid_datetime d = true ->
        exact_pattern (exif_text d) = true
        /\ format_date (VStr (exif_text d)) = Ok (Some (date_info_of d))).
Proof.
  split.
  - rewrite format_date_str. destruct (strptime s exif_format) as [d|] eqn:Hp.
    + right. exists d. pose proof (strptime_valid _ _ _ Hp) as Hv.
      split; [reflexivity|]. split; [assumption|]. split; [reflexivity|].
      intros Hf. pose proof (strftime_Y_pad4 d Hv Hf) as Hy.
      split; [assumption|].
      unfold strftime_touch, strftime_compact. rewrite Hy.
      split; [reflexivity|]. split; [reflexivity|].
      rewrite <- Hy. now apply strptime_strftime_touch.
    + left. split; reflexivity.
  - intros d Hv. split.
    + unfold exact_pattern, exif_text, pad4, pad2.
      rewrite ?string_app_cons, ?string_app_nil_l. cbn [matches_template].
      repeat match goal with
      | |- context [is_digit (digit_char (?x mod 10))] =>
          rewrite (proj1 (digit_char_facts (x mod 10) (mod10_lt _)))
      end.
      reflexivity.
    + rewrite format_date_str, (strptime_exif_text d Hv). reflexivity.
Qed.

End FormatDate.

(** ** The filesystem under the system calls *)

Section Filesystem.
Context `{Platform}.

Lemma cons_ne_tail {A} (a : A) (l : list A) : a :: l <> l.
Proof.
  intros Heq. apply (f_equal length) in Heq. simpl in Heq. lia.
Qed.

Lemma stat_file_parent (m : gmap path node) (p : path) (f : file) :
  stat m p = inr (File f) ->
  p <> [] /\ stat m (parent p) = inr Dir /\ m !! p = Some (File f).
Proof.
  destruct p as [|n t]; simpl; [discriminate|].
  destruct (stat m t) as [e|[|g]]; try discriminate.
  destruct (m !! (n :: t)) as [nd|]; try discriminate.
  intros [= ->]. auto.
Qed.

Lemma stat_missing (m : gmap path node) (p : path) :
  p <> [] -> exists_ m p = false -> is_dir m (parent p) = true ->
  stat m p = inl FileNotFoundError /\ m !! p = None.
Proof.
  unfold exists_, is_dir. destruct p as [|n t]; [easy|]. intros _. simpl.
  destruct (stat m t) as [e|[|g]]; try discriminate.
  destruct (m !! (n :: t)) as [nd|]; try discriminate. auto.
Qed.

(** Writing a regular file at [p], over a regular file or at a free
    name in a directory: [p] is that file, and what can be reached at
    any other path is as before. *)
Lemma stat_insert_file (m : gmap path node) (p : path) (g : file) :
  (exists f0, stat m p = inr (File f0))
  \/ (p <> [] /\ exists_ m p = false /\ is_dir m (parent p) = true) ->
  stat (<[p := File g]> m) p = inr (File g)
  /\ forall q, q <> p ->
       forall nd, stat (<[p := File g]> m) q = inr nd <-> stat m q = inr nd.
Proof.
  intros Hp.
  assert (Hpar : p <> [] /\ stat m (parent p) = inr Dir).
  { destruct Hp as [[f0 Hf]|(Hne & Hex & Hd)].
    - apply stat_file_parent in Hf. tauto.
    - split; [assumption|]. unfold is_dir in Hd.
      destruct (stat m (parent p)) as [|[|]]; easy. }
  assert (Hnd : stat m p <> inr Dir).
  { destruct Hp as [[f0 Hf]|(Hne & Hex & Hd)]; [congruence|].
    unfold exists_ in Hex. destruct (stat m p); easy. }
  destruct Hpar as [Hne Hpar].
  set (m' := <[p := File g]> m).
  assert (S : forall q,
            (q = p -> stat m' q = inr (File g))
            /\ (q <> p -> forall nd, stat m' q = inr nd <-> stat m q = inr nd)).
  { induction q as [|a t [IH1 IH2]].
    - split; [congruence|]. intros _ nd. reflexivity.
    - destruct (decide (t = p)) as [->|Ht].
      + split; [intros Heq; now apply cons_ne_tail in Heq|].
        intros _ nd. simpl. rewrite (IH1 eq_refl).
        destruct (stat m p) as [e|[|f0]]; [easy|now elim Hnd|easy].
      + specialize (IH2 Ht). split.
        * intros Heq. subst p. simpl in Hpar. simpl.
          rewrite (proj2 (IH2 Dir) Hpar). unfold m'. now rewrite lookup_insert_eq.
        * intros Hq nd. simpl. unfold m' at 2. rewrite lookup_insert_ne by congruence.
          destruct (stat m t) as [e|n0] eqn:Hm.
          -- destruct (stat m' t) as [e'|n1]; [easy|].
             pose proof (proj1 (IH2 n1) eq_refl). discriminate.
          -- rewrite (proj2 (IH2 n0) eq_refl). tauto. }
  split; [exact (proj1 (S p) eq_refl)|]. intros q Hq. exact (proj2 (S q) Hq).
Qed.

(** Removing the regular file at [p]. *)
Lemma stat_delete_file (m : gmap path node) (p : path) (f : file) :
  stat m p = inr (File f) ->
  exists_ (delete p m) p = false
  /\ forall q, q <> p ->
       forall nd, stat (delete p m) q = inr nd <-> stat m q = inr nd.
Proof.
  intros Hf. destruct (stat_file_parent _ _ _ Hf) as (Hne & Hpar & _).
  set (m' := delete p m).
  assert (S : forall q,
            (q = p -> exists_ m' q = false)
            /\ (q <> p -> forall nd, stat m' q = inr nd <-> stat m q = inr nd)).
  { induction q as [|a t [IH1 IH2]].
    - split; [congruence|]. intros _ nd. reflexivity.
    - destruct (decide (t = p)) as [->|Ht].
      + split; [intros Heq; now apply cons_ne_tail in Heq|].
        intros _ nd. simpl. rewrite Hf. specialize (IH1 eq_refl).
        unfold exists_ in IH1. destruct (stat m' p) as [e|[|f0]]; easy.
      + specialize (IH2 Ht). split.
        * intros Heq. subst p. simpl in Hpar. unfold exists_. simpl.
          rewrite (proj2 (IH2 Dir) Hpar). unfold m'. now rewrite lookup_delete_eq.
        * intros Hq nd. simpl. unfold m' at 2. rewrite lookup_delete_ne by congruence.
          destruct (stat m t) as [e|n0] eqn:Hm.
          -- destruct (stat m' t) as [e'|n1]; [easy|].
             pose proof (proj1 (IH2 n1) eq_refl). discriminate.
          -- rewrite (proj2 (IH2 n0) eq_refl). tauto. }
  split; [exact (proj1 (S p) eq_refl)|]. intros q Hq. exact (proj2 (S q) Hq).
Qed.

(** A new directory hides nothing. *)
Lemma stat_insert_dir_mono (m : gmap path node) (p q : path) (nd : node) :
  m !! p = None -> stat m q = inr nd -> stat (<[p := Dir]> m) q = inr nd.
Proof.
  intros Hp. revert nd. induction q as [|a t IH]; intros nd; [easy|]. simpl.
  destruct (stat m t) as [e|[|f0]]; try discriminate.
  rewrite (IH Dir eq_refl).
  destruct (m !! (a :: t)) as [n0|] eqn:Hl; [|discriminate].
  rewrite lookup_insert_ne by congruence. now rewrite Hl.
Qed.

(** *** [mkdir] *)

Lemma grows_refl (w : world) : grows w w.
Proof. split; auto. Qed.

Lemma grows_trans (w w1 w2 : world) : grows w w1 -> grows w1 w2 -> grows w w2.
Proof. intros [A B] [C D]. split; [congruence|auto]. Qed.

Lemma os_mkdir_spec (p : path) (w w1 : world) (r : outcome unit) :
  os_mkdir p w = (r, w1) ->
  grows w w1 /\ r <> Timeout
  /\ (r = Ok tt -> is_dir (fs w1) p = true)
  /\ (forall e, r = Raise e -> w1 = w).
Proof.
  unfold os_mkdir. destruct (denied (SysMkdir p)).
  { intros [= <- <-]. repeat split; auto; try easy. }
  destruct p as [|n t].
  { intros [= <- <-]. repeat split; auto; try easy. }
  destruct (stat (fs w) t) as [e|[|f0]] eqn:Ht.
  - intros [= <- <-]. repeat split; auto; easy.
  - destruct (fs w !! (n :: t)) as [nd|] eqn:Hl.
    + intros [= <- <-]. repeat split; auto; easy.
    + intros [= <- <-]. repeat split; try easy.
      * intros q nd. simpl. now apply stat_insert_dir_mono.
      * intros _. unfold is_dir. simpl.
        rewrite (stat_insert_dir_mono _ _ _ _ Hl Ht). now rewrite lookup_insert_eq.
  - intros [= <- <-]. repeat split; auto; easy.
Qed.

Lemma unless_is_dir_spec (p : path) (e : exn) (w w1 : world) (r : outcome unit) :
  unless_is_dir p e w = (r, w1) ->
  w1 = w /\ r <> Timeout /\ (r = Ok tt -> is_dir (fs w) p = true).
Proof.
  unfold unless_is_dir, bind, get_fs, ret, raise.
  destruct (is_dir (fs w) p); intros [= <- <-]; repeat split; easy.
Qed.

Lemma mkdir_exist_ok_spec (p : path) (w w1 : world) (r : outcome unit) :
  mkdir_exist_ok p w = (r, w1) ->
  grows w w1 /\ r <> Timeout /\ (r = Ok tt -> is_dir (fs w1) p = true).
Proof.
  unfold mkdir_exist_ok, try_except.
  destruct (os_mkdir p w) as [r0 w0] eqn:Hos.
  apply os_mkdir_spec in Hos as (Hg & Ht & Hd & He).
  destruct r0 as [[]|e|]; [| |now elim Ht].
  - intros [= <- <-]. auto.
  - rewrite (He e eq_refl). destruct e;
      try (intros Hu; apply unless_is_dir_spec in Hu as (-> & ? & ?);
           repeat split; auto; apply grows_refl).
    intros [= <- <-]. repeat split; easy.
Qed.

Lemma mkdir_spec (p : path) (w w1 : world) (r : outcome unit) :
  mkdir p w = (r, w1) ->
  grows w w1 /\ r <> Timeout /\ (r = Ok tt -> is_dir (fs w1) p = true).
Proof.
  revert w w1 r. induction p as [|n t IH]; intros w w1 r; simpl; unfold try_except.
  - destruct (os_mkdir [] w) as [r0 w0] eqn:Hos.
    apply os_mkdir_spec in Hos as (Hg & Ht & Hd & He).
    destruct r0 as [[]|e|]; [| |now elim Ht].
    + intros [= <- <-]. auto.
    + rewrite (He e eq_refl). destruct e;
        try (intros Hu; apply unless_is_dir_spec in Hu as (-> & ? & ?);
             repeat split; auto; apply grows_refl).
      intros [= <- <-]. repeat split; easy.
  - destruct (os_mkdir (n :: t) w) as [r0 w0] eqn:Hos.
    apply os_mkdir_spec in Hos as (Hg & Ht & Hd & He).
    destruct r0 as [[]|e|]; [| |now elim Ht].
    + intros [= <- <-]. auto.
    + rewrite (He e eq_refl). destruct e;
        try (intros Hu; apply unless_is_dir_spec in Hu as (-> & ? & ?);
             repeat split; auto; apply grows_refl).
      unfold bind. destruct (mkdir t w) as [r1 w2] eqn:Hrec.
      apply IH in Hrec as (Hg1 & Ht1 & _).
      destruct r1 as [[]|e1|]; [| |now elim Ht1].
      * intros Hm. apply mkdir_exist_ok_spec in Hm as (Hg2 & ? & ?).
        repeat split; auto. apply (proj1 (grows_trans _ _ _ Hg1 Hg2)).
        apply (grows_trans _ _ _ Hg1 Hg2).
      * intros [= <- <-]. repeat split; try easy; apply Hg1.
Qed.

(** An existing directory is left as it is. *)
Lemma mkdir_existing (p : path) (w : world) :
  is_dir (fs w) p = true -> mkdir p w = (Ok tt, w).
Proof.
  intros Hd. assert (Hos : exists e, e <> FileNotFoundError /\ os_mkdir p w = (Raise e, w)).
  { unfold os_mkdir. destruct (denied (SysMkdir p)); [exists PermissionError; easy|].
    unfold is_dir in Hd. destruct p as [|n t]; [exists FileExistsError; easy|].
    simpl in Hd. destruct (stat (fs w) t) as [e|[|f0]]; try discriminate.
    destruct (fs w !! (n :: t)) as [nd|]; [|discriminate].
    exists FileExistsError; easy. }
  destruct Hos as (e & Hne & Hos).
  destruct p as [|n t]; simpl; unfold try_except; rewrite Hos;
    destruct e; try (now elim Hne);
    unfold unless_is_dir, bind, get_fs, ret; now rewrite Hd.
Qed.

End Filesystem.

(** ** One file, step by step *)

Section Steps.
Context `{Platform}.

Lemma os_utime_file (p : path) (times : Z * Z) (w : world) (f : file) :
  stat (fs w) p = inr (File f) ->
  os_utime p times w =
    if denied (SysUtime p) then (Raise PermissionError, w)
    else (Ok tt, set_fs (<[p := File (retime times f)]> (fs w)) w).
Proof. intros Hf. unfold os_utime. now rewrite Hf. Qed.

Lemma shutil_copy2_fresh (src dst : path) (w : world) (f : file) :
  stat (fs w) src = inr (File f) ->
  dst <> [] -> exists_ (fs w) dst = false -> is_dir (fs w) (parent dst) = true ->
  shutil_copy2 src dst w =
    if denied (SysOpen src) then (Raise PermissionError, w)
    else if denied (SysCopy src dst) then (Raise PermissionError, w)
    else
      match copy_fault src dst with
      | Some (e, part) => (Raise e, set_fs (<[dst := File part]> (fs w)) w)
      | None => (Ok tt, set_fs (<[dst := File f]> (fs w)) w)
      end.
Proof.
  intros Hf Hne Hex Hd. unfold shutil_copy2.
  assert (Hnd : is_dir (fs w) dst = false).
  { unfold is_dir, exists_ in *. destruct (stat (fs w) dst); easy. }
  rewrite Hnd.
  assert (Hsd : src <> dst).
  { intros ->. unfold exists_ in Hex. now rewrite Hf in Hex. }
  rewrite bool_decide_eq_false_2 by assumption. cbn [andb].
  destruct (denied (SysOpen src)); [reflexivity|]. rewrite Hf.
  destruct (denied (SysCopy src dst)); [reflexivity|].
  destruct (stat_missing _ _ Hne Hex Hd) as [-> _]. now rewrite Hd.
Qed.

Lemma os_remove_file (p : path) (w : world) (f : file) :
  stat (fs w) p = inr (File f) ->
  os_remove p w =
    if denied (SysRemove p) then (Raise PermissionError, w)
    else (Ok tt, set_fs (delete p (fs w)) w).
Proof. intros Hf. unfold os_remove. now rewrite Hf. Qed.

(** The loop with the fuel [generate_unique_filename] gives it. *)
Lemma generate_unique_filename_cases (base_name ext : string)
    (dest_dir source_file : path) (w : world) :
  exists k,
    k <= size (fs w)
    /\ (forall i, i < k ->
          probe w source_file (candidate base_name ext dest_dir i) = Taken)
    /\ probe w source_file (candidate base_name ext dest_dir k) <> Taken
    /\ generate_unique_filename base_name ext dest_dir source_file w
       = probe_outcome w source_file (candidate base_name ext dest_dir k).
Proof.
  set (cand := candidate base_name ext dest_dir).
  destruct (free_candidate (fs w) base_name ext dest_dir) as (k0 & Hk0 & Hfree).
  destruct (first_not_taken w source_file cand k0 0) as (k & Hk & Hbefore & Hat).
  { simpl. fold cand in Hfree. now rewrite (probe_free _ _ _ Hfree). }
  exists k. split; [lia|]. split; [intros i Hi; apply Hbefore; lia|].
  split; [assumption|].
  unfold generate_unique_filename, bind, get_fs.
  apply (unique_loop_run base_name ext dest_dir source_file w _ 0 k); auto; lia.
Qed.

(** When [get_exif_date] returns a value, the file was read and Pillow
    gave that value for the best date tag; nothing was printed. *)
Lemma get_exif_date_Some (file_path : path) (w w' : world) (v : exif_value) :
  get_exif_date file_path w = (Ok (Some v), w') ->
  w' = w
  /\ denied (SysOpen file_path) = false
  /\ exists f ex,
       stat (fs w) file_path = inr (File f)
       /\ getexif (content f) = ExifData (Some ex)
       /\ best_date ex = Some v.
Proof.
  unfold get_exif_date, image_getexif, try_except, bind, open_rb, ret, raise, print.
  destruct (denied (SysOpen file_path)); [discriminate|].
  destruct (stat (fs w) file_path) as [e|[|f]]; try discriminate.
  destruct (getexif (content f)) as [|[ex|]] eqn:Hx; try discriminate.
  destruct (decide (ex = ∅)); [discriminate|].
  intros [= Hb <-]. split; [reflexivity|]. split; [reflexivity|].
  exists f, ex. rewrite <- first_date_best. auto.
Qed.

Lemma get_exif_date_cases (file_path : path) (w : world) :
  (exists v, get_exif_date file_path w = (Ok (Some v), w))
  \/ get_exif_date file_path w = (Ok None, w)
  \/ (exists e, get_exif_date file_path w = (Ok None, say (MsgExifError file_path e) w)).
Proof.
  unfold get_exif_date, image_getexif, try_except, bind, open_rb, ret, raise, print.
  destruct (denied (SysOpen file_path)); [eauto|].
  destruct (stat (fs w) file_path) as [e|[|f]]; eauto.
  destruct (getexif (content f)) as [|[ex|]]; eauto.
  destruct (decide (ex = ∅)); eauto.
  destruct (first_date ex date_tags); eauto.
Qed.

Lemma process_file_dated (file_path dest_dir : path) (w : world)
    (s : string) (d : datetime) :
  get_exif_date file_path w = (Ok (Some (VStr s)), w) ->
  strptime s exif_format = Some d ->
  process_file file_path dest_dir w = place file_path dest_dir d w.
Proof.
  intros Hx Hp. unfold process_file, place. unfold bind at 1. rewrite Hx.
  unfold bind at 1, lift. rewrite format_date_str, Hp. cbn [fmap option_fmap option_map].
  cbn [date_info_of year month formatted_date timestamp].
  unfold subdir_of, ext_of, touch_date, bind, ret.
  destruct (mkdir _ w) as [[[]|e|] w1]; reflexivity.
Qed.

End Steps.

Section Placement.
Context `{Platform}.

Lemma candidate_parent (base_name ext : string) (dest_dir : path) (k : nat) :
  parent (candidate base_name ext dest_dir k) = dest_dir.
Proof. now destruct k. Qed.

Lemma probe_free_inv (w : world) (source_file dest_path : path) :
  probe w source_file dest_path = Free -> exists_ (fs w) dest_path = false.
Proof.
  unfold probe. destruct (exists_ (fs w) dest_path); [|reflexivity].
  destruct (is_file (fs w) dest_path); [|discriminate].
  destruct (fst (files_are_identical dest_path source_file w)) as [[|]| |]; discriminate.
Qed.

Lemma is_dir_stat (m : gmap path node) (p : path) :
  is_dir m p = true <-> stat m p = inr Dir.
Proof. unfold is_dir. destruct (stat m p) as [|[|]]; split; congruence. Qed.

(** Every way [place] can go, with the world it leaves. *)
Lemma place_cases (file_path dest_dir : path) (d : datetime) (w : world) (f : file) :
  stat (fs w) file_path = inr (File f) ->
  let sub := subdir_of dest_dir d in
  let cand := candidate (strftime_compact d) (ext_of file_path) sub in
  exists r1 w1,
    mkdir sub w = (r1, w1) /\ grows w w1
    /\ match r1 with
       | Timeout => False
       | Raise e => place file_path dest_dir d w = (Raise e, w1)
       | Ok _ =>
           is_dir (fs w1) sub = true
           /\ match touch_date d with
              | None => place file_path dest_dir d w = (Raise ValueError, w1)
              | Some d' =>
                  if denied (SysUtime file_path)
                  then place file_path dest_dir d w = (Raise PermissionError, w1)
                  else
                    let w2 := after_utime file_path d' f w1 in
                    exists k,
                      k <= size (fs w2)
                      /\ (forall i, i < k -> probe w2 file_path (cand i) = Taken)
                      /\ match probe w2 file_path (cand k) with
                         | Taken => False
                         | Fails e => place file_path dest_dir d w = (Raise e, w2)
                         | Same =>
                             place file_path dest_dir d w
                             = (Ok tt, say (MsgDuplicate file_path (cand k)) w2)
                         | Free =>
                             if denied (SysOpen file_path)
                                || denied (SysCopy file_path (cand k))
                             then place file_path dest_dir d w
                                  = (Raise PermissionError, w2)
                             else
                               match copy_fault file_path (cand k) with
                               | Some (e, part) =>
                                   place file_path dest_dir d w
                                   = (Raise e, after_fault (cand k) part w2)
                               | None =>
                                   let w3 := after_copy file_path (cand k) d' f w2 in
                                   if denied (SysRemove file_path)
                                   then place file_path dest_dir d w
                                        = (Raise PermissionError, w3)
                                   else place file_path dest_dir d w
                                        = (Ok tt, after_remove file_path w3)
                               end
                         end
              end
       end.
Proof.
  intros Hf sub cand.
  remember (place file_path dest_dir d w) as res eqn:Hres.
  unfold place in Hres. fold sub in Hres. unfold bind at 1 in Hres.
  destruct (mkdir sub w) as [r1 w1] eqn:Hm.
  destruct (mkdir_spec _ _ _ _ Hm) as (Hg & Ht & Hd).
  exists r1, w1. split; [reflexivity|]. split; [assumption|].
  destruct r1 as [[]|e|]; [|assumption|now elim Ht].
  split; [auto|]. specialize (Hd eq_refl).
  pose proof (proj2 Hg _ _ Hf) as Hf1.
  unfold bind at 1 in Hres.
  destruct (touch_date d) as [d'|]; [|assumption].
  unfold ret at 1 in Hres.
  unfold bind at 1 in Hres. rewrite (os_utime_file _ _ _ _ Hf1) in Hres.
  destruct (denied (SysUtime file_path)); [assumption|].
  fold (stamped file_path d' f) in Hres. fold (after_utime file_path d' f w1) in Hres.
  set (w2 := after_utime file_path d' f w1) in *.
  destruct (stat_insert_file (fs w1) file_path (stamped file_path d' f)
              (or_introl (ex_intro _ f Hf1))) as [Hf2 Hrest2].
  change (<[file_path:=File (stamped file_path d' f)]> (fs w1)) with (fs w2) in Hf2, Hrest2.
  destruct (generate_unique_filename_cases (strftime_compact d) (ext_of file_path)
              sub file_path w2) as (k & Hk & Hb & Hat & Hgen).
  fold cand in Hb, Hat, Hgen.
  exists k. split; [assumption|]. split; [assumption|].
  unfold bind at 1 in Hres. rewrite Hgen in Hres. unfold probe_outcome in Hres.
  destruct (probe w2 file_path (cand k)) eqn:Hpr; try assumption; [|now elim Hat].
  apply probe_free_inv in Hpr.
  assert (Hsub2 : is_dir (fs w2) (parent (cand k)) = true).
  { unfold cand. rewrite candidate_parent. apply is_dir_stat. apply Hrest2.
    - intros ->. apply is_dir_stat in Hd. congruence.
    - now apply is_dir_stat. }
  unfold bind at 1 in Hres.
  rewrite (shutil_copy2_fresh _ _ _ _ Hf2 (candidate_not_root _ _ _ _) Hpr Hsub2) in Hres.
  fold cand in Hres.
  destruct (denied (SysOpen file_path)); cbn [orb]; [assumption|].
  destruct (denied (SysCopy file_path (cand k))); [assumption|].
  destruct (copy_fault file_path (cand k)) as [[e part]|]; [assumption|].
  unfold bind at 1, print at 1 in Hres.
  fold (after_copy file_path (cand k) d' f w2) in Hres.
  set (w3 := after_copy file_path (cand k) d' f w2) in *.
  assert (Hf3 : stat (fs w3) file_path = inr (File (stamped file_path d' f))).
  { unfold w3, after_copy. simpl.
    apply (stat_insert_file (fs w2) (cand k) (stamped file_path d' f)); auto.
    - right. split; [apply candidate_not_root|]. auto.
    - intros Heq. unfold exists_ in Hpr. rewrite <- Heq, Hf2 in Hpr. discriminate. }
  unfold bind at 1 in Hres. rewrite (os_remove_file _ _ _ Hf3) in Hres.
  destruct (denied (SysRemove file_path)); assumption.
Qed.

End Placement.

Section Outcomes.
Context `{Platform}.

Lemma same_at_refl (w : world) (q : path) : same_at w w q.
Proof. intros nd. tauto. Qed.

Lemma same_at_trans (w w1 w2 : world) (q : path) :
  same_at w w1 q -> same_at w1 w2 q -> same_at w w2 q.
Proof. intros A B nd. rewrite (B nd). apply A. Qed.

Lemma same_at_say (x : msg) (w : world) (q : path) : same_at w (say x w) q.
Proof. intros nd. simpl. tauto. Qed.

Lemma same_at_exists (w w' : world) (q : path) :
  same_at w w' q -> exists_ (fs w') q = exists_ (fs w) q.
Proof.
  intros Hs. unfold exists_.
  destruct (stat (fs w) q) as [e|nd] eqn:A.
  - destruct (stat (fs w') q) as [e'|nd'] eqn:B; [reflexivity|].
    apply Hs in B. congruence.
  - now rewrite (proj2 (Hs nd) A).
Qed.

(** The time stamp is set: the source is the same file with new times,
    everything else is as it was. *)
Lemma after_utime_facts (p : path) (d : datetime) (f : file) (w1 : world) :
  stat (fs w1) p = inr (File f) ->
  let w2 := after_utime p d f w1 in
  stat (fs w2) p = inr (File (stamped p d f))
  /\ stdout w2 = stdout w1
  /\ forall q, q <> p -> same_at w1 w2 q.
Proof.
  intros Hf w2.
  destruct (stat_insert_file (fs w1) p (stamped p d f)
              (or_introl (ex_intro _ f Hf))) as [A B].
  split; [exact A|]. split; [reflexivity|]. exact B.
Qed.

(** The copy is made: the destination is a regular file with the
    content, mode and times of the source. *)
Lemma after_copy_facts (p c : path) (d : datetime) (f : file) (w2 : world) :
  c <> [] -> exists_ (fs w2) c = false -> is_dir (fs w2) (parent c) = true ->
  let w3 := after_copy p c d f w2 in
  stat (fs w3) c = inr (File (stamped p d f))
  /\ stdout w3 = (stdout w2 ++ [MsgCopied p c])%list
  /\ forall q, q <> c -> same_at w2 w3 q.
Proof.
  intros Hne Hex Hd w3.
  destruct (stat_insert_file (fs w2) c (stamped p d f)
              (or_intror (conj Hne (conj Hex Hd)))) as [A B].
  split; [exact A|]. split; [reflexivity|]. exact B.
Qed.

(** The source is removed. *)
Lemma after_remove_facts (p : path) (g : file) (w3 : world) :
  stat (fs w3) p = inr (File g) ->
  let w4 := after_remove p w3 in
  exists_ (fs w4) p = false
  /\ stdout w4 = (stdout w3 ++ [MsgRemoved p])%list
  /\ forall q, q <> p -> same_at w3 w4 q.
Proof.
  intros Hf w4. destruct (stat_delete_file (fs w3) p g Hf) as [A B].
  split; [exact A|]. split; [reflexivity|]. exact B.
Qed.

Lemma undated_fs (p : path) (w w' : world) (r : outcome unit) :
  undated p w r w' -> fs w' = fs w.
Proof. now destruct 1. Qed.

(** [process_file] either finds no usable date, or reads a date and
    places the file. *)
Lemma process_file_cases (file_path dest_dir : path) (w : world) :
  undated file_path w (fst (process_file file_path dest_dir w))
                       (snd (process_file file_path dest_dir w))
  \/ exists s d f ex,
       denied (SysOpen file_path) = false
       /\ stat (fs w) file_path = inr (File f)
       /\ getexif (content f) = ExifData (Some ex)
       /\ best_date ex = Some (VStr s)
       /\ strptime s exif_format = Some d
       /\ process_file file_path dest_dir w = place file_path dest_dir d w.
Proof.
  destruct (get_exif_date_cases file_path w) as [[v Hv]|[Hn|[e He]]].
  - destruct v as [s|b].
    + destruct (strptime s exif_format) as [d|] eqn:Hp.
      * right. destruct (get_exif_date_Some _ _ _ _ Hv) as (_ & Hd & f & ex & A & B & C).
        exists s, d, f, ex. repeat split; auto.
        now apply (process_file_dated _ _ _ s d).
      * left. unfold process_file, bind, lift. rewrite Hv, format_date_str, Hp.
        simpl. constructor.
    + left. unfold process_file, bind, lift. rewrite Hv. simpl. constructor.
  - left. unfold process_file, bind. rewrite Hn. simpl. constructor.
  - left. unfold process_file, bind. rewrite He. simpl. constructor.
Qed.

End Outcomes.

Section Placing.
Context `{Platform}.

Lemma place_placing (p dest_dir : path) (d : datetime) (f : file) (w : world) :
  stat (fs w) p = inr (File f) ->
  placing p dest_dir d f w (fst (place p dest_dir d w)) (snd (place p dest_dir d w)).
Proof.
  intros Hf. destruct (place_cases p dest_dir d w f Hf) as (r1 & w1 & Hm & Hg & Hc).
  destruct r1 as [[]|e|]; [| |contradiction].
  - destruct Hc as [Hd Hc].
    destruct (touch_date d) as [d'|] eqn:Ht; [|rewrite Hc; now apply TouchFailed].
    destruct (denied (SysUtime p)) eqn:Hu.
    + rewrite Hc. now apply (UtimeDenied _ _ _ _ _ w1 d').
    + destruct Hc as (k & _ & Hb & Hc).
      destruct (probe _ p _) eqn:Hpr in Hc; [| contradiction | |].
      * destruct (denied (SysOpen p) || denied (SysCopy p _)) eqn:Hcp in Hc.
        -- rewrite Hc. eapply Probed; eauto. now apply CopyDenied.
        -- destruct (copy_fault p _) as [[e part]|] eqn:Hcf in Hc.
           ++ rewrite Hc. eapply Probed; eauto. now apply CopyFailed.
           ++ destruct (denied (SysRemove p)) eqn:Hrm; rewrite Hc; simpl;
                eapply Probed; eauto; [now apply RemoveDenied|now apply Moved].
      * rewrite Hc. eapply Probed; eauto. now apply FoundSame.
      * rewrite Hc. eapply Probed; eauto. now apply ProbeFailed.
  - rewrite Hc. now apply MkdirFailed.
Qed.

Lemma probe_file (w : world) (src q : path) (g : file) :
  stat (fs w) q = inr (File g) ->
  probe w src q =
    match fst (files_are_identical q src w) with
    | Ok true => Same
    | Raise e => Fails e
    | _ => Taken
    end.
Proof.
  intros Hq. unfold probe, exists_, is_file. rewrite Hq.
  now destruct (fst (files_are_identical q src w)) as [[|]| |].
Qed.

Lemma get_checksum_file (q : path) (w : world) (g : file) :
  stat (fs w) q = inr (File g) ->
  get_checksum q w =
    if denied (SysOpen q) then (Raise PermissionError, w) else (Ok (md5 (content g)), w).
Proof.
  intros Hq. unfold get_checksum, bind, open_rb, ret. rewrite Hq.
  now destruct (denied (SysOpen q)).
Qed.

(** A name the loop went past does not hold the content of the
    source. *)
Lemma probe_taken_differs (w : world) (src q : path) (g f : file) :
  probe w src q = Taken ->
  stat (fs w) q = inr (File g) -> stat (fs w) src = inr (File f) ->
  md5 (content g) <> md5 (content f).
Proof.
  intros Hp Hq Hs. rewrite (probe_file _ _ _ _ Hq) in Hp.
  unfold files_are_identical, bind, ret in Hp.
  rewrite (get_checksum_file _ _ _ Hq) in Hp.
  destruct (denied (SysOpen q)); [discriminate|].
  rewrite (get_checksum_file _ _ _ Hs) in Hp.
  destruct (denied (SysOpen src)); [discriminate|]. simpl in Hp.
  destruct (bool_decide (md5 (content g) = md5 (content f))) eqn:Hb; [discriminate|].
  now apply bool_decide_eq_false in Hb.
Qed.

(** The source is not among the names the loop went past. *)
Lemma probe_self_not_taken (w : world) (src : path) (f : file) :
  stat (fs w) src = inr (File f) -> probe w src src <> Taken.
Proof.
  intros Hs Hp. now apply (probe_taken_differs w src src f f Hp Hs Hs).
Qed.

End Placing.

Section Results.
Context `{Platform}.

Lemma grows_exists (w w1 : world) (q : path) :
  grows w w1 -> exists_ (fs w1) q = false -> exists_ (fs w) q = false.
Proof.
  intros [_ Hg]. unfold exists_. destruct (stat (fs w) q) as [e|nd] eqn:Hq; [easy|].
  now rewrite (Hg _ _ Hq).
Qed.

(** What a file that was moved leaves behind. *)
Lemma moved_facts (p dest_dir : path) (d : datetime) (f : file) (w w1 : world) (c : path) :
  stat (fs w) p = inr (File f) -> grows w w1 ->
  c <> [] -> is_dir (fs w1) (parent c) = true ->
  probe (after_utime p d f w1) p c = Free ->
  let w' := after_remove p (after_copy p c d f (after_utime p d f w1)) in
  c <> p
  /\ exists_ (fs w) c = false
  /\ exists_ (fs w') p = false
  /\ stat (fs w') c = inr (File (stamped p d f))
  /\ placed p c w w'
  /\ (forall q, q <> p -> q <> c -> same_at w1 w' q).
Proof.
  intros Hf Hg Hne Hd Hpr w'.
  pose proof (proj2 Hg _ _ Hf) as Hf1.
  destruct (after_utime_facts p d f w1 Hf1) as (Hf2 & Ho2 & Hs2).
  set (w2 := after_utime p d f w1) in *.
  apply probe_free_inv in Hpr.
  assert (Hcp : c <> p).
  { intros ->. unfold exists_ in Hpr. now rewrite Hf2 in Hpr. }
  assert (Hd2 : is_dir (fs w2) (parent c) = true).
  { apply is_dir_stat. apply Hs2; [|now apply is_dir_stat].
    intros Heq. rewrite Heq in Hd. apply is_dir_stat in Hd. congruence. }
  destruct (after_copy_facts p c d f w2 Hne Hpr Hd2) as (Hc3 & Ho3 & Hs3).
  set (w3 := after_copy p c d f w2) in *.
  assert (Hf3 : stat (fs w3) p = inr (File (stamped p d f))).
  { apply Hs3; auto. }
  destruct (after_remove_facts p _ w3 Hf3) as (Hp4 & Ho4 & Hs4).
  fold w' in Hp4, Ho4, Hs4.
  split; [assumption|]. split.
  { apply (grows_exists w w1); [assumption|].
    rewrite <- (same_at_exists w1 w2 c); auto. }
  split; [assumption|]. split; [apply Hs4; auto|]. split.
  { unfold placed. rewrite Ho4, Ho3, Ho2, (proj1 Hg), <- app_assoc. reflexivity. }
  intros q Hqp Hqc.
  apply (same_at_trans w1 w2 w'); [auto|].
  apply (same_at_trans w2 w3 w'); auto.
Qed.

(** Reading the result off the output: a file reported as copied and
    removed went through every step. *)
Lemma placed_inv (p dest_dir c : path) (w w' : world) :
  process_file p dest_dir w = (Ok tt, w') -> placed p c w w' ->
  exists s d d' f ex w1 k,
    stat (fs w) p = inr (File f)
    /\ getexif (content f) = ExifData (Some ex)
    /\ best_date ex = Some (VStr s)
    /\ strptime s exif_format = Some d
    /\ touch_date d = Some d'
    /\ mkdir (subdir_of dest_dir d) w = (Ok tt, w1) /\ grows w w1
    /\ is_dir (fs w1) (subdir_of dest_dir d) = true
    /\ (forall i, i < k ->
          probe (after_utime p d' f w1) p
            (candidate (strftime_compact d) (ext_of p) (subdir_of dest_dir d) i) = Taken)
    /\ c = candidate (strftime_compact d) (ext_of p) (subdir_of dest_dir d) k
    /\ probe (after_utime p d' f w1) p c = Free
    /\ copy_fault p c = None
    /\ w' = after_remove p (after_copy p c d' f (after_utime p d' f w1)).
Proof.
  intros Hrun Hpl. unfold placed in Hpl.
  destruct (process_file_cases p dest_dir w) as [Hu|(s & d & f & ex & Hden & Hf & Hx & Hb & Hp & Heq)].
  - rewrite Hrun in Hu. simpl in Hu. inversion Hu; subst; simpl in Hpl;
      rewrite <- ?app_assoc in Hpl; apply app_inv_head in Hpl; discriminate.
  - pose proof (place_placing p dest_dir d f w Hf) as Hpp.
    rewrite <- Heq, Hrun in Hpp. simpl in Hpp.
    inversion Hpp as [| | |w1 d' k r w'' Hm Hg Hd Ht Hut Hbefore Harr]; subst.
    pose proof (proj2 Hg _ _ Hf) as Hf1.
    destruct (after_utime_facts p d' f w1 Hf1) as (Hf2 & Ho2 & Hs2).
    inversion Harr as [|Hsame| | | |Hfree Hcp Hcf Hrm]; subst.
    + exfalso. simpl in Hpl. rewrite ?Ho2, (proj1 Hg) in Hpl.
      apply app_inv_head in Hpl. discriminate.
    + exists s, d, d', f, ex, w1, k.
      assert (Hc : c = candidate (strftime_compact d) (ext_of p) (subdir_of dest_dir d) k).
      { simpl in Hpl. rewrite ?Ho2, (proj1 Hg), <- app_assoc in Hpl.
        apply app_inv_head in Hpl. now injection Hpl as <-. }
      subst c. repeat (split; [first [assumption|reflexivity]|]).
      first [assumption|reflexivity].
Qed.


End Results.

Section Placed.
Context `{Platform}.




Lemma ascii_lower_dot (c : ascii) : Ascii.eqb (ascii_lower c) "." = Ascii.eqb c ".".
Proof. destruct c as [[] [] [] [] [] [] [] []]; reflexivity. Qed.



(** A copy that failed: the destination holds what was written, and
    everything else is as before. *)
Lemma after_fault_facts (c : path) (part : file) (w2 : world) :
  c <> [] -> exists_ (fs w2) c = false -> is_dir (fs w2) (parent c) = true ->
  let w3 := after_fault c part w2 in
  stat (fs w3) c = inr (File part)
  /\ stdout w3 = stdout w2
  /\ forall q, q <> c -> same_at w2 w3 q.
Proof.
  intros Hne Hex Hd w3.
  destruct (stat_insert_file (fs w2) c part
              (or_intror (conj Hne (conj Hex Hd)))) as [A B].
  split; [exact A|]. split; [reflexivity|]. exact B.
Qed.

Lemma exif_date_of_file (p : path) (w : world) (f : file)
    (ex : gmap Z exif_value) :
  denied (SysOpen p) = false ->
  stat (fs w) p = inr (File f) ->
  getexif (content f) = ExifData (Some ex) ->
  exif_date_of w p = best_date ex.
Proof. intros Hd Hf Hx. unfold exif_date_of. now rewrite Hd, Hf, Hx. Qed.

(** The source of a file that is not moved is still there, with its
    content. *)
Lemma arrived_source (p : path) (d : datetime) (f : file) (w2 : world) (c : path)
    (r : outcome unit) (w' : world) :
  stat (fs w2) p = inr (File (stamped p d f)) ->
  c <> [] -> is_dir (fs w2) (parent c) = true ->
  arrived p d f w2 c r w' ->
  (r = Ok tt /\ probe w2 p c = Free /\ copy_fault p c = None
   /\ w' = after_remove p (after_copy p c d f w2))
  \/ stat (fs w') p = inr (File (stamped p d f)).
Proof.
  intros Hf2 Hne Hd Harr.
  destruct Harr as [e Hp|Hp|Hp Hc|e part Hp Hc Hcf|Hp Hc Hcf Hr|Hp Hc Hcf Hr]; auto.
  - right. apply probe_free_inv in Hp.
    destruct (after_fault_facts c part w2 Hne Hp Hd) as (_ & _ & Hs3).
    apply Hs3; [|assumption].
    intros ->. unfold exists_ in Hp. now rewrite Hf2 in Hp.
  - right. apply probe_free_inv in Hp.
    destruct (after_copy_facts p c d f w2 Hne Hp Hd) as (_ & _ & Hs3).
    apply Hs3; [|assumption].
    intros ->. unfold exists_ in Hp. now rewrite Hf2 in Hp.
Qed.

(** C2.  [process_file] on a regular file ends in one of two ways.
    Either the source is still in place with its content, or the run
    returned normally having printed that it copied and removed the
    file, the source is gone, and the destination, which did not exist
    before, is a regular file with the content of the source.  So the
    source is never gone without the copy, and whenever the output
    reports the file as placed the copy is there. *)
Theorem source_removed_only_after_copy (p dest_dir : path) (w : world) (f : file) :
  stat (fs w) p = inr (File f) ->
  ((exists g,
      stat (fs (snd (process_file p dest_dir w))) p = inr (File g)
      /\ content g = content f)
   \/ (fst (process_file p dest_dir w) = Ok tt
       /\ exists_ (fs (snd (process_file p dest_dir w))) p = false
       /\ exists c g,
            placed p c w (snd (process_file p dest_dir w))
            /\ exists_ (fs w) c = false
            /\ stat (fs (snd (process_file p dest_dir w))) c = inr (File g)
            /\ content g = content f))
  /\ (forall c w',
        process_file p dest_dir w = (Ok tt, w') -> placed p c w w' ->
        exists_ (fs w') p = false
        /\ exists g, stat (fs w') c = inr (File g) /\ content g = content f).
Proof.
  intros Hf. split.
  - destruct (process_file_cases p dest_dir w)
      as [Hu|(s & d & f' & ex & Hden & Hf' & Hx & Hb & Hp & Heq)].
    + left. exists f. rewrite (undated_fs _ _ _ _ Hu). auto.
    + rewrite Hf in Hf'. injection Hf' as <-. rewrite Heq.
      pose proof (place_placing p dest_dir d f w Hf) as Hpp.
      destruct Hpp as [e w1 Hm Hg|w1 Hm Hg Hd Ht|w1 d' Hm Hg Hd Ht Hut
                      |w1 d' k r w' Hm Hg Hd Ht Hut Hbefore Harr].
      * left. exists f. split; [|reflexivity]. now apply Hg.
      * left. exists f. split; [|reflexivity]. now apply Hg.
      * left. exists f. split; [|reflexivity]. now apply Hg.
      * pose proof (proj2 Hg _ _ Hf) as Hf1.
        destruct (after_utime_facts p d' f w1 Hf1) as (Hf2 & Ho2 & Hs2).
        assert (Hd2 : is_dir (fs (after_utime p d' f w1))
                        (parent (candidate (strftime_compact d) (ext_of p)
                                   (subdir_of dest_dir d) k)) = true).
        { rewrite candidate_parent. apply is_dir_stat. apply Hs2; [|now apply is_dir_stat].
          intros Heq'. rewrite Heq' in Hd. apply is_dir_stat in Hd. congruence. }
        destruct (arrived_source _ _ _ _ _ _ _ Hf2 (candidate_not_root _ _ _ _) Hd2 Harr)
          as [(-> & Hp0 & _ & ->)|Hkept].
        -- right.
           assert (Hd1 : is_dir (fs w1)
                           (parent (candidate (strftime_compact d) (ext_of p)
                                      (subdir_of dest_dir d) k)) = true)
             by now rewrite candidate_parent.
           destruct (moved_facts p dest_dir d' f w w1 _ Hf Hg
                       (candidate_not_root _ _ _ _) Hd1 Hp0)
             as (_ & Hnew & Hgone & Hcopy & Hpl & _).
           split; [reflexivity|]. split; [assumption|].
           eexists _, (stamped p d' f).
           split; [exact Hpl|]. split; [exact Hnew|]. split; [exact Hcopy|reflexivity].
        -- left. exists (stamped p d' f). auto.
  - intros c w' Hrun Hpl.
    destruct (placed_inv _ _ _ _ _ Hrun Hpl)
      as (s & d & d' & f' & ex & w1 & k & Hf' & Hx & Hb & Hp & Ht & Hm & Hg & Hd
          & Hbefore & Hc & Hfree & Hcf & ->).
    rewrite Hf in Hf'. injection Hf' as <-.
    assert (Hd1 : is_dir (fs w1) (parent c) = true)
      by (subst c; now rewrite candidate_parent).
    assert (Hne : c <> []) by (subst c; apply candidate_not_root).
    destruct (moved_facts p dest_dir d' f w w1 c Hf Hg Hne Hd1 Hfree)
      as (_ & Hnew & Hgone & Hcopy & _ & _).
    split; [assumption|]. exists (stamped p d' f). auto.
Qed.

Lemma placed_readable (p dest_dir c : path) (w w' : world) :
  process_file p dest_dir w = (Ok tt, w') -> placed p c w w' ->
  denied (SysOpen p) = false.
Proof.
  intros Hrun Hpl. unfold placed in Hpl.
  destruct (process_file_cases p dest_dir w) as [Hu|(s & d & f & ex & Hden & _)];
    [|assumption].
  rewrite Hrun in Hu. simpl in Hu. inversion Hu; subst; simpl in Hpl;
    rewrite <- ?app_assoc in Hpl; apply app_inv_head in Hpl; discriminate.
Qed.


(** C3, as the code has it.  A file reported as placed went to a path
    that did not exist, so nothing was overwritten, and every other
    entry that was there is still there.  The path is the [k]-th name
    of the probing sequence for the base name [format_date] gives the
    date entry of the file, and no regular file at an earlier name of
    that sequence has the digest of the source.  Files under other
    names in the directory are not looked at. *)
Theorem placed_overwrites_nothing (p dest_dir c : path) (w w' : world) :
  process_file p dest_dir w = (Ok tt, w') -> placed p c w w' ->
  exists_ (fs w) c = false
  /\ (forall q nd, q <> p -> stat (fs w) q = inr nd -> stat (fs w') q = inr nd)
  /\ exists f s info k,
       stat (fs w) p = inr (File f)
       /\ exif_date_of w p = Some (VStr s)
       /\ format_date (VStr s) = Ok (Some info)
       /\ c = candidate (timestamp info) (lstrip_dot (lower (suffix p)))
                (dest_dir </> year info </> (year info +:+ "-" +:+ month info)) k
       /\ forall i g,
            i < k ->
            stat (fs w) (candidate (timestamp info) (lstrip_dot (lower (suffix p)))
                           (dest_dir </> year info
                              </> (year info +:+ "-" +:+ month info)) i)
            = inr (File g) ->
            md5 (content g) <> md5 (content f).
Proof.
  intros Hrun Hpl.
  pose proof (placed_readable _ _ _ _ _ Hrun Hpl) as Hopen.
  destruct (placed_inv _ _ _ _ _ Hrun Hpl)
    as (s & d & d' & f & ex & w1 & k & Hf & Hx & Hb & Hp & Ht & Hm & Hg & Hd
        & Hbefore & Hc & Hfree & Hcf & ->).
  assert (Hpar : parent c = subdir_of dest_dir d)
    by (subst c; apply candidate_parent).
  assert (Hd1 : is_dir (fs w1) (parent c) = true) by now rewrite Hpar.
  assert (Hne : c <> []) by (subst c; apply candidate_not_root).
  destruct (moved_facts p dest_dir d' f w w1 c Hf Hg Hne Hd1 Hfree)
    as (Hcp & Hnew & Hgone & Hcopy & _ & Hsame).
  pose proof (proj2 Hg _ _ Hf) as Hf1.
  destruct (after_utime_facts p d' f w1 Hf1) as (Hf2 & Ho2 & Hs2).
  split; [assumption|]. split.
  - intros q nd Hq Hst. apply (Hsame q Hq).
    + intros ->. unfold exists_ in Hnew. now rewrite Hst in Hnew.
    + now apply Hg.
  - exists f, s, (date_info_of d), k. split; [assumption|].
    split; [now rewrite (exif_date_of_file p w f ex)|].
    split; [now rewrite format_date_str, Hp|].
    cbn [date_info_of year month timestamp].
    change (dest_dir </> strftime_Y d </> (strftime_Y d +:+ "-" +:+ strftime_m d))
      with (subdir_of dest_dir d).
    fold (ext_of p). split; [assumption|].
    intros i g Hi Hst.
    specialize (Hbefore i Hi).
    set (q := candidate (strftime_compact d) (ext_of p) (subdir_of dest_dir d) i) in *.
    assert (Hq : q <> p).
    { intros Heq. rewrite Heq in Hbefore.
      now apply (probe_self_not_taken _ _ _ Hf2) in Hbefore. }
    assert (Hst2 : stat (fs (after_utime p d' f w1)) q = inr (File g)).
    { apply (Hs2 q Hq). now apply Hg. }
    apply (probe_taken_differs _ _ _ _ _ Hbefore Hst2 Hf2).
Qed.

End Placed.

Section Rerun.
Context `{Platform}.

Lemma same_at_sym (w w' : world) (q : path) : same_at w w' q -> same_at w' w q.
Proof. intros Hs nd. symmetry. apply Hs. Qed.

Lemma get_exif_date_ok (p : path) (w : world) (f : file)
    (ex : gmap Z exif_value) (v : exif_value) :
  denied (SysOpen p) = false ->
  stat (fs w) p = inr (File f) ->
  getexif (content f) = ExifData (Some ex) ->
  best_date ex = Some v ->
  get_exif_date p w = (Ok (Some v), w).
Proof.
  intros Hd Hf Hx Hb.
  unfold get_exif_date, image_getexif, try_except, bind, open_rb, ret.
  rewrite Hd, Hf, Hx. destruct (decide (ex = ∅)) as [->|Hne].
  - rewrite best_date_empty in Hb. discriminate.
  - now rewrite first_date_best, Hb.
Qed.

Lemma get_checksum_state (q : path) (w : world) : snd (get_checksum q w) = w.
Proof.
  unfold get_checksum, bind, ret. pose proof (open_rb_state q w) as Hs.
  destruct (open_rb q w) as [[c| |] w1]; simpl in *; now subst.
Qed.

Lemma files_are_identical_fst (a b : path) (w : world) :
  fst (files_are_identical a b w) =
    match fst (get_checksum a w) with
    | Ok c1 =>
        match fst (get_checksum b w) with
        | Ok c2 => Ok (bool_decide (c1 = c2))
        | Raise e => Raise e
        | Timeout => Timeout
        end
    | Raise e => Raise e
    | Timeout => Timeout
    end.
Proof.
  unfold files_are_identical, bind, ret.
  pose proof (get_checksum_state a w) as Ha.
  destruct (get_checksum a w) as [[c1|e|] wa]; simpl in *; subst; try reflexivity.
  now destruct (get_checksum b w) as [[c2|e|] wb].
Qed.

(** The probe of a name depends on the entry at that name and on the
    digest of the source only. *)
Lemma probe_congr (w w' : world) (src src' q : path) :
  same_at w w' q ->
  fst (get_checksum src' w') = fst (get_checksum src w) ->
  probe w' src' q = probe w src q.
Proof.
  intros Hs Hc. unfold probe. rewrite (same_at_exists _ _ _ Hs).
  unfold exists_, is_file.
  destruct (stat (fs w) q) as [e|[|g]] eqn:Hq.
  - reflexivity.
  - now rewrite (proj2 (Hs Dir) Hq).
  - pose proof (proj2 (Hs _) Hq) as Hq'. rewrite Hq'.
    rewrite !files_are_identical_fst, Hc.
    rewrite (get_checksum_file _ _ _ Hq), (get_checksum_file _ _ _ Hq').
    now destruct (denied (SysOpen q)).
Qed.

(** C8, as the code has it.  After a file was placed at [c], a second
    file with the same bytes and the same lower-cased extension is
    skipped as a duplicate of [c], provided its time stamp can be set
    and it and [c] can be read: the run returns normally, prints the
    duplicate message for [c], and changes nothing but the times of
    the second source, which stays in place with its content. *)
Theorem second_placement_skipped (p1 p2 dest_dir c : path) (w0 w1 : world)
    (f1 f2 : file) :
  process_file p1 dest_dir w0 = (Ok tt, w1) -> placed p1 c w0 w1 ->
  stat (fs w0) p1 = inr (File f1) ->
  stat (fs w0) p2 = inr (File f2) ->
  p2 <> p1 ->
  content f2 = content f1 ->
  lstrip_dot (lower (suffix p2)) = lstrip_dot (lower (suffix p1)) ->
  denied (SysOpen p2) = false ->
  denied (SysUtime p2) = false ->
  denied (SysOpen c) = false ->
  exists w2,
    process_file p2 dest_dir w1 = (Ok tt, w2)
    /\ skipped_duplicate p2 c w1 w2
    /\ (forall q, q <> p2 ->
          forall nd, stat (fs w2) q = inr nd <-> stat (fs w1) q = inr nd)
    /\ exists g, stat (fs w2) p2 = inr (File g) /\ content g = content f2.
Proof.
  intros Hrun Hpl Hf1 Hf2 Hne Hcont Hext Ho2 Hu2 Hoc.
  pose proof (placed_readable _ _ _ _ _ Hrun Hpl) as Ho1.
  destruct (placed_inv _ _ _ _ _ Hrun Hpl)
    as (s & d & d' & f & ex & wa & k & Hf & Hx & Hb & Hp & Ht & Hm & Hg & Hd & Hbefore
        & Hc & Hfree & Hcf & Hw1).
  rewrite Hf1 in Hf. injection Hf as <-.
  set (sub := subdir_of dest_dir d) in *.
  set (cand := candidate (strftime_compact d) (ext_of p1) sub) in *.
  assert (Hpar : parent c = sub) by (subst c; apply candidate_parent).
  assert (Hda : is_dir (fs wa) (parent c) = true) by now rewrite Hpar.
  assert (Hcn : c <> []) by (subst c; apply candidate_not_root).
  destruct (moved_facts p1 dest_dir d' f1 w0 wa c Hf1 Hg Hcn Hda Hfree)
    as (Hcp1 & Hnew & Hgone & Hcopy & _ & Hsame).
  rewrite <- Hw1 in Hgone, Hcopy, Hsame.
  pose proof (proj2 Hg _ _ Hf1) as Hf1a.
  destruct (after_utime_facts p1 d' f1 wa Hf1a) as (Hf1b & _ & Hsb).
  set (wb := after_utime p1 d' f1 wa) in *.
  (* the second source, in the worlds of the first run *)
  assert (Hcp2 : c <> p2).
  { intros ->. unfold exists_ in Hnew. now rewrite Hf2 in Hnew. }
  pose proof (proj2 Hg _ _ Hf2) as Hf2a.
  assert (Hf2b : stat (fs wb) p2 = inr (File f2)) by now apply (Hsb p2 Hne).
  assert (Hf2w : stat (fs w1) p2 = inr (File f2)).
  { apply (Hsame p2 Hne); auto. }
  (* the second run reads the same date *)
  assert (Hx2 : get_exif_date p2 w1 = (Ok (Some (VStr s)), w1)).
  { apply (get_exif_date_ok p2 w1 f2 ex); auto. now rewrite Hcont. }
  rewrite (process_file_dated p2 dest_dir w1 s d Hx2 Hp).
  destruct (place_cases p2 dest_dir d w1 f2 Hf2w) as (r1 & wx & Hm2 & _ & Hcase).
  fold sub in Hm2, Hcase.
  assert (Hdw : is_dir (fs w1) sub = true).
  { apply is_dir_stat. apply (Hsame sub).
    - intros Heq. rewrite Heq in Hd. apply is_dir_stat in Hd. congruence.
    - rewrite Hc. unfold cand, candidate, joinpath.
      destruct k; intros Heq; symmetry in Heq; now apply cons_ne_tail in Heq.
    - now apply is_dir_stat. }
  rewrite (mkdir_existing sub w1 Hdw) in Hm2. injection Hm2 as <- <-.
  destruct Hcase as [_ Hcase]. rewrite Ht, Hu2 in Hcase.
  destruct (after_utime_facts p2 d' f2 w1 Hf2w) as (Hf2c & Hoc2 & Hsc).
  set (wc := after_utime p2 d' f2 w1) in *.
  unfold ext_of in Hcase. rewrite Hext in Hcase. fold (ext_of p1) in Hcase.
  fold cand in Hcase.
  destruct Hcase as (k2 & _ & Hb2 & Hend).
  (* digests of the two sources *)
  assert (Hsum : fst (get_checksum p2 wc) = fst (get_checksum p1 wb)).
  { rewrite (get_checksum_file _ _ _ Hf2c), (get_checksum_file _ _ _ Hf1b).
    rewrite Ho1, Ho2. simpl. now rewrite Hcont. }
  (* the names before [c] are taken as before *)
  assert (K1 : forall i, i < k -> probe wc p2 (cand i) = Taken).
  { intros i Hi. specialize (Hbefore i Hi).
    assert (Hq1 : cand i <> p1).
    { intros Heq. rewrite Heq in Hbefore.
      now apply (probe_self_not_taken _ _ _ Hf1b) in Hbefore. }
    assert (Hqc : cand i <> c).
    { rewrite Hc. intros Heq. apply candidate_inj in Heq. lia. }
    assert (Hq2 : cand i <> p2).
    { intros Heq. rewrite Heq in Hbefore.
      apply (probe_taken_differs _ _ _ _ _ Hbefore Hf2b Hf1b). simpl.
      now rewrite Hcont. }
    rewrite <- Hbefore. apply probe_congr; [|assumption].
    apply (same_at_trans wb wa wc).
    - apply same_at_sym. now apply Hsb.
    - apply (same_at_trans wa w1 wc); [now apply Hsame|now apply Hsc]. }
  (* and [c] holds the same bytes *)
  assert (K2 : probe wc p2 c = Same).
  { assert (Hcc : stat (fs wc) c = inr (File (stamped p1 d' f1))).
    { now apply (Hsc c Hcp2). }
    rewrite (probe_file _ _ _ _ Hcc), files_are_identical_fst.
    rewrite (get_checksum_file _ _ _ Hcc), (get_checksum_file _ _ _ Hf2c).
    rewrite Hoc, Ho2. simpl. rewrite Hcont.
    now rewrite bool_decide_eq_true_2. }
  assert (Hk : k2 = k).
  { destruct (lt_eq_lt_dec k2 k) as [[Hlt|Heq]|Hgt]; [|assumption|].
    - rewrite (K1 k2 Hlt) in Hend. contradiction.
    - specialize (Hb2 k Hgt). rewrite <- Hc, K2 in Hb2. discriminate. }
  subst k2. rewrite <- Hc, K2 in Hend.
  exists (say (MsgDuplicate p2 c) wc). split; [exact Hend|]. split.
  { unfold skipped_duplicate. simpl. reflexivity. }
  split.
  { intros q Hq nd. apply (Hsc q Hq). }
  exists (stamped p2 d' f2). split; [exact Hf2c|reflexivity].
Qed.

End Rerun.

Section Traversal.
Context `{Platform}.

Lemma for_each_app {A} (l1 l2 : list A) (body : A -> M unit) (w : world) :
  for_each (l1 ++ l2)%list body w =
    match for_each l1 body w with
    | (Ok _, w1) => for_each l2 body w1
    | (Raise e, w1) => (Raise e, w1)
    | (Timeout, w1) => (Timeout, w1)
    end.
Proof.
  revert w. induction l1 as [|x l1 IH]; intros w; simpl.
  - reflexivity.
  - unfold bind. destruct (body x w) as [[[]|e|] w1]; auto.
Qed.

(** A raise in the body ends the loop there. *)
Lemma for_each_raise {A} (pre post : list A) (x : A) (body : A -> M unit)
    (w w1 w2 : world) (e : exn) :
  for_each pre body w = (Ok tt, w1) ->
  body x w1 = (Raise e, w2) ->
  for_each (pre ++ x :: post)%list body w = (Raise e, w2).
Proof.
  intros Hpre Hx. rewrite for_each_app, Hpre. simpl. unfold bind. now rewrite Hx.
Qed.

Lemma file_fails_raise (dest_dir root : path) (files : list string)
    (w w2 : world) (e : exn) :
  file_fails dest_dir root files w e w2 ->
  process_files root files dest_dir w = (Raise e, w2).
Proof.
  intros [pre post file w0 w1 w3 e0 Hpre Hel Hrun].
  unfold process_files in *. apply (for_each_raise pre post file _ w0 w1); auto.
  now rewrite Hel.
Qed.

Lemma walk_fails_raise (dest_dir : path) (fuel : nat) (top : path)
    (w w' : world) (e : exn) :
  walk_fails dest_dir fuel top w e w' ->
  os_walk fuel top (fun root fl => process_files root fl dest_dir) w = (Raise e, w').
Proof.
  induction 1 as [fuel top w w2 e dirs files Hs Hf
                 |fuel top w w1 w2 w3 e files pre post d Hs Hfiles Hpre Hbelow IH].
  - simpl. unfold bind at 1, get_fs. rewrite Hs. unfold bind.
    now rewrite (file_fails_raise _ _ _ _ _ _ Hf).
  - simpl. unfold bind at 1, get_fs. rewrite Hs. unfold bind at 1. rewrite Hfiles.
    apply (for_each_raise pre post d _ w1 w2); assumption.
Qed.

(** C1, as the code has it.  Nothing catches an exception raised while
    a file is placed: when the walk meets a file whose [process_file]
    raises, [traverse_directory] ends with that exception in the world
    the failing step left, so no later file or directory is
    processed. *)
Theorem error_aborts_traversal (dest_dir source_dir : path) (fuel : nat)
    (w w' : world) (e : exn) :
  walk_fails dest_dir fuel source_dir (say (MsgTraversing source_dir) w) e w' ->
  traverse_directory fuel source_dir dest_dir w = (Raise e, w').
Proof.
  intros Hw. unfold traverse_directory, bind, print.
  now apply walk_fails_raise.
Qed.

End Traversal.

(** * Further properties

    ** Files without a usable date *)

Section Undated.
Context `{Platform}.

(** [get_exif_date] returns the date entry of the file, and prints only
    when there is none to return. *)
Lemma get_exif_date_of (p : path) (w : world) :
  get_exif_date p w = (Ok (exif_date_of w p), w)
  \/ (exif_date_of w p = None
      /\ exists e, get_exif_date p w = (Ok None, say (MsgExifError p e) w)).
Proof.
  unfold get_exif_date, exif_date_of, try_except, image_getexif, bind, open_rb.
  destruct (denied (SysOpen p)); [right; split; [reflexivity|eexists; reflexivity]|].
  destruct (stat (fs w) p) as [e|[|f]];
    try (right; split; [reflexivity|eexists; reflexivity]).
  destruct (getexif (content f)) as [|[ex|]].
  - right; split; [reflexivity|eexists; reflexivity].
  - left. unfold ret. cbv beta iota. case_decide as Hex.
    + subst ex. now rewrite best_date_empty.
    + now rewrite first_date_best.
  - left. reflexivity.
Qed.

(** X1.  A file that cannot be opened or decoded, or that has none of
    the three date tags set, is reported as having no valid date:
    [process_file] returns normally and the filesystem is exactly as
    it was; no directory is made and no time stamp is set. *)
Theorem undated_file_untouched (p dest_dir : path) (w : world) :
  exif_date_of w p = None ->
  exists w',
    process_file p dest_dir w = (Ok tt, w')
    /\ fs w' = fs w
    /\ (stdout w' = (stdout w ++ [MsgNoDate p])%list
        \/ exists e, stdout w' = (stdout w ++ [MsgExifError p e; MsgNoDate p])%list).
Proof.
  intros Hnone. unfold process_file, bind.
  destruct (get_exif_date_of p w) as [Hg|(_ & e & Hg)]; rewrite Hg; [rewrite Hnone|].
  - eexists. split; [reflexivity|]. split; [reflexivity|]. now left.
  - eexists. split; [reflexivity|]. split; [reflexivity|]. right. exists e.
    simpl. now rewrite <- app_assoc.
Qed.

(** X2.  A date entry that is a string [strptime] rejects is reported
    as an invalid date: [process_file] returns normally, prints that
    one line and changes nothing. *)
Theorem invalid_date_untouched (p dest_dir : path) (w : world) (s : string) :
  exif_date_of w p = Some (VStr s) ->
  strptime s exif_format = None ->
  process_file p dest_dir w = (Ok tt, say (MsgInvalidDate p) w).
Proof.
  intros Hd Hs. unfold process_file, bind.
  destruct (get_exif_date_of p w) as [Hg|(Hn & _)]; [|congruence].
  rewrite Hg, Hd. unfold lift, format_date. now rewrite Hs.
Qed.

(** X3.  A date entry that is not a string makes [process_file] raise
    [TypeError]: [format_date] catches [ValueError] only.  Nothing is
    printed and nothing is changed. *)
Theorem non_string_date_raises (p dest_dir : path) (w : world) (b : bool) :
  exif_date_of w p = Some (VOther b) ->
  process_file p dest_dir w = (Raise TypeError, w).
Proof.
  intros Hd. unfold process_file, bind.
  destruct (get_exif_date_of p w) as [Hg|(Hn & _)]; [|congruence].
  now rewrite Hg, Hd.
Qed.

End Undated.

(** ** What one call of [process_file] can change *)

Section Footprint.
Context `{Platform}.

Lemma os_mkdir_cases (p : path) (w w1 : world) (r : outcome unit) :
  os_mkdir p w = (r, w1) ->
  (exists e, r = Raise e /\ w1 = w)
  \/ (r = Ok tt /\ fs w !! p = None /\ w1 = set_fs (<[p := Dir]> (fs w)) w).
Proof.
  unfold os_mkdir. destruct (denied (SysMkdir p)); [intros [= <- <-]; eauto|].
  destruct p as [|n q]; [intros [= <- <-]; eauto|].
  destruct (stat (fs w) q) as [e|[|f]]; try (intros [= <- <-]; eauto).
  destruct (fs w !! (n :: q)) eqn:E; intros [= <- <-]; eauto.
Qed.

Lemma mkdir_exist_ok_cases (p : path) (w w1 : world) (r : outcome unit) :
  mkdir_exist_ok p w = (r, w1) ->
  w1 = w \/ (fs w !! p = None /\ w1 = set_fs (<[p := Dir]> (fs w)) w).
Proof.
  unfold mkdir_exist_ok, try_except.
  destruct (os_mkdir p w) as [r0 w0] eqn:E.
  destruct (os_mkdir_cases _ _ _ _ E) as [(e & -> & ->)|(-> & Hn & ->)].
  - destruct e; try (intros Hu; apply unless_is_dir_spec in Hu; left; apply Hu).
    intros [= <- <-]. now left.
  - intros [= <- <-]. now right.
Qed.

(** [mkdir] adds directories on the way to [p], where there was no
    entry, and nothing else. *)
Lemma mkdir_footprint (p : path) (w w1 : world) (r : outcome unit) :
  mkdir p w = (r, w1) ->
  forall q, fs w1 !! q <> fs w !! q ->
    q `suffix_of` p /\ fs w !! q = None /\ fs w1 !! q = Some Dir.
Proof.
  revert w w1 r. induction p as [|n p IH]; intros w w1 r; simpl; unfold try_except.
  - destruct (os_mkdir [] w) as [r0 w0] eqn:E.
    destruct (os_mkdir_cases _ _ _ _ E) as [(e & -> & ->)|(-> & Hn & ->)].
    + destruct e; try (intros Hu; apply unless_is_dir_spec in Hu;
                       destruct Hu as (-> & _); intros q Hq; now destruct Hq).
      intros [= <- <-] q Hq. now destruct Hq.
    + intros [= <- <-] q Hq. simpl in *.
      destruct (decide (q = [])) as [->|Hne].
      * rewrite lookup_insert_eq. auto.
      * rewrite lookup_insert_ne in Hq by congruence. now destruct Hq.
  - destruct (os_mkdir (n :: p) w) as [r0 w0] eqn:E.
    destruct (os_mkdir_cases _ _ _ _ E) as [(e & -> & ->)|(-> & Hn & ->)].
    + destruct e; try (intros Hu; apply unless_is_dir_spec in Hu;
                       destruct Hu as (-> & _); intros q Hq; now destruct Hq).
      unfold bind. destruct (mkdir p w) as [r1 w2] eqn:E1.
      specialize (IH _ _ _ E1).
      assert (Hup : forall q, fs w2 !! q <> fs w !! q ->
                q `suffix_of` (n :: p) /\ fs w !! q = None /\ fs w2 !! q = Some Dir).
      { intros q Hq. destruct (IH q Hq) as (Hs & Hn & Hd).
        split; [now apply suffix_cons_r|auto]. }
      destruct r1 as [[]|e1|]; try (intros [= <- <-]; exact Hup).
      intros Hm. destruct (mkdir_exist_ok_cases _ _ _ _ Hm) as [->|(Hn & ->)];
        [exact Hup|].
      intros q Hq. simpl in *.
      destruct (decide (q = n :: p)) as [->|Hne].
      * rewrite lookup_insert_eq. split; [reflexivity|]. split; [|reflexivity].
        destruct (fs w !! (n :: p)) as [nd|] eqn:E0; [|reflexivity].
        assert (Hd : fs w2 !! (n :: p) <> fs w !! (n :: p)) by (rewrite Hn, E0; discriminate).
        destruct (Hup _ Hd) as (_ & ? & _). congruence.
      * rewrite lookup_insert_ne in Hq |- * by congruence. auto.
    + intros [= <- <-] q Hq. simpl in *.
      destruct (decide (q = n :: p)) as [->|Hne].
      * rewrite lookup_insert_eq. auto.
      * rewrite lookup_insert_ne in Hq by congruence. now destruct Hq.
Qed.

(** The directory of a date is not the source file. *)
Lemma subdir_not_source (p sub : path) (f : file) (w1 : world) :
  stat (fs w1) p = inr (File f) -> is_dir (fs w1) sub = true -> sub <> p.
Proof. intros Hf Hd ->. apply is_dir_stat in Hd. congruence. Qed.

(** After the time stamp is set the directory of the date is still
    there. *)
Lemma after_utime_dir (p sub : path) (d : datetime) (f : file) (w1 : world) :
  stat (fs w1) p = inr (File f) -> is_dir (fs w1) sub = true ->
  is_dir (fs (after_utime p d f w1)) sub = true.
Proof.
  intros Hf Hd. destruct (after_utime_facts p d f w1 Hf) as (_ & _ & Hs2).
  apply is_dir_stat. apply Hs2; [now apply (subdir_not_source p sub f w1)|].
  now apply is_dir_stat.
Qed.

(** Every entry other than the source is left as it was, however the
    placement ends. *)
Lemma placing_keeps (p dest_dir : path) (d : datetime) (f : file) (w w' : world)
    (r : outcome unit) :
  stat (fs w) p = inr (File f) ->
  placing p dest_dir d f w r w' ->
  forall q nd, q <> p -> stat (fs w) q = inr nd -> stat (fs w') q = inr nd.
Proof.
  intros Hf Hpl q nd Hq Hst.
  destruct Hpl as [e w1 Hm Hg|w1 Hm Hg Hd Ht|w1 d' Hm Hg Hd Ht Hut
                  |w1 d' k r w' Hm Hg Hd Ht Hut Hbefore Harr];
    [now apply Hg|now apply Hg|now apply Hg|].
  pose proof (proj2 Hg _ _ Hf) as Hf1.
  destruct (after_utime_facts p d' f w1 Hf1) as (Hf2 & Ho2 & Hs2).
  assert (Hst2 : stat (fs (after_utime p d' f w1)) q = inr nd)
    by (apply (Hs2 q Hq); now apply Hg).
  set (c := candidate (strftime_compact d) (ext_of p) (subdir_of dest_dir d) k) in *.
  assert (Hne : c <> []) by apply candidate_not_root.
  assert (Hd2 : is_dir (fs (after_utime p d' f w1)) (parent c) = true).
  { unfold c. rewrite candidate_parent. now apply after_utime_dir. }
  destruct Harr as [e Hp|Hp|Hp Hc|e part Hp Hc Hcf|Hp Hc Hcf Hr|Hp Hc Hcf Hr];
    try assumption.
  - apply probe_free_inv in Hp.
    destruct (after_fault_facts c part _ Hne Hp Hd2) as (_ & _ & Hs3).
    apply Hs3; [|assumption].
    intros ->. unfold exists_ in Hp. now rewrite Hst2 in Hp.
  - apply probe_free_inv in Hp.
    destruct (after_copy_facts p c d' f _ Hne Hp Hd2) as (_ & _ & Hs3).
    apply Hs3; [|assumption].
    intros ->. unfold exists_ in Hp. now rewrite Hst2 in Hp.
  - assert (Hd1 : is_dir (fs w1) (parent c) = true)
      by (unfold c; now rewrite candidate_parent).
    destruct (moved_facts p dest_dir d' f w w1 c Hf Hg Hne Hd1 Hp)
      as (_ & Hnew & _ & _ & _ & Hsame).
    apply (Hsame q Hq).
    + intros ->. unfold exists_ in Hnew. now rewrite Hst in Hnew.
    + now apply Hg.
Qed.

Lemma process_file_frame (p dest_dir : path) (w w' : world) (r : outcome unit) :
  process_file p dest_dir w = (r, w') ->
  forall q nd, q <> p \/ nd = Dir -> stat (fs w) q = inr nd -> stat (fs w') q = inr nd.
Proof.
  intros Hrun q nd Hq Hst.
  destruct (process_file_cases p dest_dir w)
    as [Hu|(s & d & f & ex & Hden & Hf & Hx & Hb & Hp & Heq)].
  - rewrite Hrun in Hu. simpl in Hu. now rewrite (undated_fs _ _ _ _ Hu).
  - pose proof (place_placing p dest_dir d f w Hf) as Hpl.
    rewrite <- Heq, Hrun in Hpl. simpl in Hpl.
    apply (placing_keeps p dest_dir d f w _ _ Hf Hpl); [|assumption].
    destruct Hq as [Hq| ->]; [assumption|]. intros ->. congruence.
Qed.


End Footprint.

Section Changes.
Context `{Platform}.

(** A name the probe found free has no entry, before the placement
    either. *)
Lemma free_candidate_new (p c : path) (d : datetime) (f : file) (w w1 : world)
    (r : outcome unit) (sub : path) :
  mkdir sub w = (r, w1) ->
  stat (fs w1) p = inr (File f) ->
  c <> [] -> is_dir (fs w1) (parent c) = true ->
  probe (after_utime p d f w1) p c = Free ->
  c <> p /\ fs w1 !! c = None /\ fs w !! c = None.
Proof.
  intros Hm Hf1 Hne Hd1 Hp. apply probe_free_inv in Hp.
  destruct (after_utime_facts p d f w1 Hf1) as (Hf2 & _ & _).
  pose proof (after_utime_dir p (parent c) d f w1 Hf1 Hd1) as Hd2.
  destruct (stat_missing _ c Hne Hp Hd2) as (_ & Hn2).
  assert (Hcp : c <> p).
  { intros ->. unfold exists_ in Hp. now rewrite Hf2 in Hp. }
  simpl in Hn2. rewrite lookup_insert_ne in Hn2 by congruence.
  split; [assumption|]. split; [assumption|].
  destruct (fs w !! c) as [nd|] eqn:E0; [|reflexivity].
  assert (Hdiff : fs w1 !! c <> fs w !! c) by (rewrite Hn2, E0; discriminate).
  destruct (mkdir_footprint _ _ _ _ Hm c Hdiff) as (_ & ? & _). congruence.
Qed.

(** Where a placement can leave the map different. *)
Lemma placing_footprint (p dest_dir : path) (d : datetime) (f : file) (w w' : world)
    (r : outcome unit) :
  stat (fs w) p = inr (File f) ->
  placing p dest_dir d f w r w' ->
  forall q, fs w' !! q <> fs w !! q ->
    q = p
    \/ (q `suffix_of` subdir_of dest_dir d /\ fs w !! q = None /\ fs w' !! q = Some Dir)
    \/ ((exists k, q = candidate (strftime_compact d) (ext_of p)
                         (subdir_of dest_dir d) k)
        /\ fs w !! q = None
        /\ ((copy_fault p q = None
             /\ exists d', fs w' !! q = Some (File (stamped p d' f)))
            \/ (exists e part,
                  copy_fault p q = Some (e, part) /\ r = Raise e
                  /\ fs w' !! q = Some (File part)))).
Proof.
  intros Hf Hpl q Hq.
  destruct Hpl as [e w1 Hm Hg|w1 Hm Hg Hd Ht|w1 d' Hm Hg Hd Ht Hut
                  |w1 d' k r w' Hm Hg Hd Ht Hut Hbefore Harr];
    [right; left; now apply (mkdir_footprint _ _ _ _ Hm)
    |right; left; now apply (mkdir_footprint _ _ _ _ Hm)
    |right; left; now apply (mkdir_footprint _ _ _ _ Hm)|].
  destruct (decide (q = p)) as [->|Hqp]; [now left|right].
  pose proof (proj2 Hg _ _ Hf) as Hf1.
  set (c := candidate (strftime_compact d) (ext_of p) (subdir_of dest_dir d) k) in *.
  assert (Hne : c <> []) by apply candidate_not_root.
  assert (Hd1 : is_dir (fs w1) (parent c) = true)
    by (unfold c; now rewrite candidate_parent).
  assert (Hstay : fs w' !! q = fs w1 !! q ->
            q `suffix_of` subdir_of dest_dir d /\ fs w !! q = None
            /\ fs w' !! q = Some Dir).
  { intros Heq. rewrite Heq in Hq |- *. now apply (mkdir_footprint _ _ _ _ Hm). }
  destruct Harr as [e Hp|Hp|Hp Hc|e part Hp Hc Hcf|Hp Hc Hcf Hr|Hp Hc Hcf Hr];
    try (left; apply Hstay; simpl; now rewrite lookup_insert_ne by congruence).
  - destruct (free_candidate_new p c d' f w w1 _ _ Hm Hf1 Hne Hd1 Hp) as (Hcp & Hn1 & Hn0).
    destruct (decide (q = c)) as [->|Hqc].
    + right. split; [now exists k|]. split; [assumption|]. right.
      exists e, part. split; [assumption|]. split; [reflexivity|].
      simpl. now rewrite lookup_insert_eq.
    + left. apply Hstay. simpl. now rewrite !lookup_insert_ne by congruence.
  - destruct (free_candidate_new p c d' f w w1 _ _ Hm Hf1 Hne Hd1 Hp) as (Hcp & Hn1 & Hn0).
    destruct (decide (q = c)) as [->|Hqc].
    + right. split; [now exists k|]. split; [assumption|]. left.
      split; [assumption|]. exists d'. simpl. now rewrite lookup_insert_eq.
    + left. apply Hstay. simpl. now rewrite !lookup_insert_ne by congruence.
  - destruct (free_candidate_new p c d' f w w1 _ _ Hm Hf1 Hne Hd1 Hp) as (Hcp & Hn1 & Hn0).
    destruct (decide (q = c)) as [->|Hqc].
    + right. split; [now exists k|]. split; [assumption|]. left.
      split; [assumption|]. exists d'.
      simpl. rewrite lookup_delete_ne by congruence. now rewrite lookup_insert_eq.
    + left. apply Hstay. simpl. rewrite lookup_delete_ne by congruence.
      now rewrite !lookup_insert_ne by congruence.
Qed.


(** What a placement prints. *)
Lemma placing_output (p dest_dir : path) (d : datetime) (f : file) (w w' : world)
    (r : outcome unit) :
  stat (fs w) p = inr (File f) ->
  placing p dest_dir d f w r w' ->
  match r with
  | Ok _ => (exists c, skipped_duplicate p c w w') \/ (exists c, placed p c w w')
  | Raise e =>
      stdout w' = stdout w
      \/ (e = PermissionError /\ denied (SysRemove p) = true
          /\ exists c g, stdout w' = (stdout w ++ [MsgCopied p c])%list
                         /\ exists_ (fs w) c = false
                         /\ stat (fs w') c = inr (File g) /\ content g = content f
                         /\ stat (fs w') p = inr (File g))
  | Timeout => False
  end.
Proof.
  intros Hf Hpl.
  destruct Hpl as [e w1 Hm Hg|w1 Hm Hg Hd Ht|w1 d' Hm Hg Hd Ht Hut
                  |w1 d' k r w' Hm Hg Hd Ht Hut Hbefore Harr];
    [left; apply Hg|left; apply Hg|left; apply Hg|].
  pose proof (proj2 Hg _ _ Hf) as Hf1.
  destruct (after_utime_facts p d' f w1 Hf1) as (Hf2 & Ho2 & Hs2).
  set (c := candidate (strftime_compact d) (ext_of p) (subdir_of dest_dir d) k) in *.
  assert (Hne : c <> []) by apply candidate_not_root.
  assert (Hd1 : is_dir (fs w1) (parent c) = true)
    by (unfold c; now rewrite candidate_parent).
  pose proof (after_utime_dir p (parent c) d' f w1 Hf1 Hd1) as Hd2.
  destruct Hg as (Ho1 & Hg).
  destruct Harr as [e Hp|Hp|Hp Hc|e part Hp Hc Hcf|Hp Hc Hcf Hr|Hp Hc Hcf Hr].
  - left. now rewrite Ho2.
  - left. exists c. unfold skipped_duplicate. simpl. now rewrite Ho1.
  - left. now rewrite Ho2.
  - left. simpl. now rewrite Ho1.
  - right. split; [reflexivity|]. split; [assumption|].
    pose proof (probe_free_inv _ _ _ Hp) as Hfree.
    destruct (after_copy_facts p c d' f _ Hne Hfree Hd2) as (Hc3 & Ho3 & Hs3).
    exists c, (stamped p d' f).
    split; [rewrite Ho3; simpl; now rewrite Ho1|].
    destruct (free_candidate_new p c d' f w w1 _ _ Hm Hf1 Hne Hd1 Hp) as (Hcp & Hn1 & Hn0).
    split.
    { destruct (exists_ (fs w) c) eqn:E; [|reflexivity].
      apply exists_lookup in E; [|assumption]. rewrite Hn0 in E. now destruct E. }
    split; [assumption|]. split; [reflexivity|].
    apply Hs3; [congruence|assumption].
  - right. exists c.
    now destruct (moved_facts p dest_dir d' f w w1 c Hf (conj Ho1 Hg) Hne Hd1 Hp)
      as (_ & _ & _ & _ & Hpl & _).
Qed.

(** X6.  Every call of [process_file] that returns prints exactly one
    result for its file: no valid date (after the EXIF error, if
    reading failed), invalid date, duplicate of a named path, or
    copied to a named path and removed.  A call that raises has
    printed nothing, unless the copy was made and the removal of the
    source was refused: then only the copy is reported, and both the
    source and the copy are in place.  The call always ends. *)
Theorem process_file_verdict (p dest_dir : path) (w : world) :
  let w' := snd (process_file p dest_dir w) in
  match fst (process_file p dest_dir w) with
  | Ok _ =>
      stdout w' = (stdout w ++ [MsgNoDate p])%list
      \/ (exists e, stdout w' = (stdout w ++ [MsgExifError p e; MsgNoDate p])%list)
      \/ stdout w' = (stdout w ++ [MsgInvalidDate p])%list
      \/ (exists c, stdout w' = (stdout w ++ [MsgDuplicate p c])%list)
      \/ (exists c, stdout w' = (stdout w ++ [MsgCopied p c; MsgRemoved p])%list)
  | Raise e =>
      stdout w' = stdout w
      \/ (e = PermissionError /\ denied (SysRemove p) = true
          /\ exists c g, stdout w' = (stdout w ++ [MsgCopied p c])%list
                         /\ exists_ (fs w) c = false
                         /\ stat (fs w') c = inr (File g)
                         /\ stat (fs w') p = inr (File g))
  | Timeout => False
  end.
Proof.
  intros w'. subst w'.
  destruct (process_file_cases p dest_dir w)
    as [Hu|(s & d & f & ex & Hden & Hf & Hx & Hb & Hp & Heq)].
  - destruct Hu as [|e| |]; simpl; rewrite <- ?app_assoc; eauto 6.
  - rewrite Heq.
    pose proof (placing_output p dest_dir d f w _ _ Hf (place_placing _ _ _ _ _ Hf)) as Ho.
    destruct (fst (place p dest_dir d w)) as [[]|e|]; [| |assumption].
    + destruct Ho as [Hd|Hpl]; eauto 6.
    + destruct Ho as [Hs|(He & Hr & c & g & Ho & Hn & Hc & _ & Hsrc)]; [now left|].
      right. split; [assumption|]. split; [assumption|]. exists c, g. auto.
Qed.

End Changes.

(** ** Files that are already in place, and files that follow one another *)

Section Organized.
Context `{Platform}.

Lemma get_exif_date_dated (p : path) (w : world) (v : exif_value) :
  exif_date_of w p = Some v -> get_exif_date p w = (Ok (Some v), w).
Proof.
  intros Hd. destruct (get_exif_date_of p w) as [Hg|(Hn & _)]; [|congruence].
  now rewrite Hg, Hd.
Qed.


(** The names up to the one a file was placed at are all taken
    afterwards. *)
Lemma placed_names_taken (p dest_dir : path) (d d' : datetime) (f : file)
    (w w1 : world) (k : nat) :
  stat (fs w) p = inr (File f) -> grows w w1 ->
  is_dir (fs w1) (subdir_of dest_dir d) = true ->
  let cand := candidate (strftime_compact d) (ext_of p) (subdir_of dest_dir d) in
  (forall i, i < k -> probe (after_utime p d' f w1) p (cand i) = Taken) ->
  probe (after_utime p d' f w1) p (cand k) = Free ->
  forall i, i <= k ->
    exists_ (fs (after_remove p (after_copy p (cand k) d' f (after_utime p d' f w1))))
      (cand i) = true.
Proof.
  intros Hf Hg Hd cand Hbefore Hfree i Hi.
  pose proof (proj2 Hg _ _ Hf) as Hf1.
  destruct (after_utime_facts p d' f w1 Hf1) as (Hf2 & Ho2 & Hs2).
  assert (Hd1 : is_dir (fs w1) (parent (cand k)) = true)
    by (unfold cand; now rewrite candidate_parent).
  destruct (moved_facts p dest_dir d' f w w1 (cand k) Hf Hg
              (candidate_not_root _ _ _ _) Hd1 Hfree)
    as (Hcp & Hnew & Hgone & Hcopy & _ & Hsame).
  destruct (decide (i = k)) as [->|Hik].
  - unfold exists_. now rewrite Hcopy.
  - assert (Hlt : i < k) by lia.
    specialize (Hbefore i Hlt).
    assert (Hip : cand i <> p).
    { intros Heq. rewrite Heq in Hbefore.
      now apply (probe_self_not_taken _ _ _ Hf2) in Hbefore. }
    assert (Hic : cand i <> cand k).
    { intros Heq. apply candidate_inj in Heq. lia. }
    apply probe_taken_exists in Hbefore.
    rewrite (same_at_exists _ _ _ (Hs2 _ Hip)) in Hbefore.
    now rewrite (same_at_exists _ _ _ (Hsame _ Hip Hic)).
Qed.

(** X8.  Two files placed one after the other do not share a
    destination, and the second placement leaves the first copy as it
    is: afterwards both destinations are regular files, each with the
    content of its own source.  Each destination is a name of the
    probing sequence for the base name and the directory [strftime]
    gives its date; when the two have the same capture date and the
    same extension, the second destination carries a larger counter
    than the first. *)
Theorem later_placement_numbered (p1 p2 dest_dir c1 c2 : path) (w0 w1 w2 : world)
    (f1 f2 : file) :
  stat (fs w0) p1 = inr (File f1) ->
  process_file p1 dest_dir w0 = (Ok tt, w1) -> placed p1 c1 w0 w1 ->
  stat (fs w1) p2 = inr (File f2) ->
  process_file p2 dest_dir w1 = (Ok tt, w2) -> placed p2 c2 w1 w2 ->
  p2 <> c1 ->
  c1 <> c2
  /\ (exists g1 g2,
        stat (fs w2) c1 = inr (File g1) /\ content g1 = content f1
        /\ stat (fs w2) c2 = inr (File g2) /\ content g2 = content f2)
  /\ exists s1 d1 k1 s2 d2 k2,
       exif_date_of w0 p1 = Some (VStr s1) /\ strptime s1 exif_format = Some d1
       /\ exif_date_of w1 p2 = Some (VStr s2) /\ strptime s2 exif_format = Some d2
       /\ c1 = candidate (strftime_compact d1) (ext_of p1) (subdir_of dest_dir d1) k1
       /\ c2 = candidate (strftime_compact d2) (ext_of p2) (subdir_of dest_dir d2) k2
       /\ (d1 = d2 -> ext_of p1 = ext_of p2 -> k1 < k2).
Proof.
  intros Hf1 Hrun1 Hpl1 Hf2 Hrun2 Hpl2 Hp2c1.
  pose proof (placed_readable _ _ _ _ _ Hrun1 Hpl1) as Hopen1.
  pose proof (placed_readable _ _ _ _ _ Hrun2 Hpl2) as Hopen2.
  destruct (placed_inv _ _ _ _ _ Hrun1 Hpl1)
    as (s1 & d1 & t1 & f1' & ex1 & w0' & k1 & Hf1' & Hx1 & Hb1 & Hs1 & Ht1 & Hm1 & Hg1
        & Hd1 & Hbefore1 & Hc1 & Hfree1 & Hcf1 & Hw1).
  rewrite Hf1 in Hf1'. injection Hf1' as <-.
  destruct (placed_inv _ _ _ _ _ Hrun2 Hpl2)
    as (s2 & d2 & t2 & f2' & ex2 & w1' & k2 & Hf2' & Hx2 & Hb2 & Hs2 & Ht2 & Hm2 & Hg2
        & Hd2 & Hbefore2 & Hc2 & Hfree2 & Hcf2 & Hw2).
  rewrite Hf2 in Hf2'. injection Hf2' as <-.
  (* the names of the first placement, in the world the second one probes *)
  assert (Htaken : forall i, i <= k1 ->
            exists_ (fs (after_utime p2 t2 f2 w1'))
              (candidate (strftime_compact d1) (ext_of p1) (subdir_of dest_dir d1) i) = true).
  { intros i Hi.
    pose proof (placed_names_taken p1 dest_dir d1 t1 f1 w0 w0' k1 Hf1 Hg1 Hd1
                  Hbefore1 (eq_ind _ (fun c => probe _ p1 c = Free) Hfree1 _ Hc1) i Hi) as Hex.
    cbv zeta in Hex. rewrite <- Hc1, <- Hw1 in Hex.
    pose proof (proj2 Hg2 _ _ Hf2) as Hf2'.
    destruct (after_utime_facts p2 t2 f2 w1' Hf2') as (Hf22 & _ & Hs22).
    set (q := candidate (strftime_compact d1) (ext_of p1) (subdir_of dest_dir d1) i) in *.
    unfold exists_ in Hex. destruct (stat (fs w1) q) as [|nd] eqn:E; [discriminate|].
    apply (proj2 Hg2) in E.
    destruct (decide (q = p2)) as [->|Hne].
    - unfold exists_. now rewrite Hf22.
    - unfold exists_. now rewrite (proj2 (Hs22 _ Hne nd) E). }
  pose proof (probe_free_inv _ _ _ Hfree2) as Hnew2.
  assert (Hcc : c1 <> c2).
  { intros Heq. rewrite <- Heq, Hc1, (Htaken k1 (le_n _)) in Hnew2. discriminate. }
  assert (Hne1 : c1 <> []) by (subst c1; apply candidate_not_root).
  assert (Hne2 : c2 <> []) by (subst c2; apply candidate_not_root).
  assert (Hpar1 : is_dir (fs w0') (parent c1) = true)
    by (subst c1; now rewrite candidate_parent).
  assert (Hpar2 : is_dir (fs w1') (parent c2) = true)
    by (subst c2; now rewrite candidate_parent).
  destruct (moved_facts p1 dest_dir t1 f1 w0 w0' c1 Hf1 Hg1 Hne1 Hpar1 Hfree1)
    as (_ & _ & _ & Hcopy1 & _ & _).
  destruct (moved_facts p2 dest_dir t2 f2 w1 w1' c2 Hf2 Hg2 Hne2 Hpar2 Hfree2)
    as (_ & _ & _ & Hcopy2 & _ & _).
  rewrite <- Hw1 in Hcopy1. rewrite <- Hw2 in Hcopy2.
  split; [assumption|]. split.
  - exists (stamped p1 t1 f1), (stamped p2 t2 f2).
    split; [|split; [reflexivity|split; [assumption|reflexivity]]].
    apply (process_file_frame p2 dest_dir w1 w2 _ Hrun2); [left; congruence|assumption].
  - exists s1, d1, k1, s2, d2, k2.
    split; [now rewrite (exif_date_of_file p1 w0 f1 ex1)|]. split; [assumption|].
    split; [now rewrite (exif_date_of_file p2 w1 f2 ex2)|]. split; [assumption|].
    split; [assumption|]. split; [assumption|].
    intros Hdd Hee. destruct (le_lt_dec k2 k1) as [Hle|]; [|assumption].
    pose proof (Htaken k2 Hle) as Ht. rewrite Hdd, Hee, <- Hc2 in Ht. congruence.
Qed.



End Organized.

(** ** The walk as a whole *)

Section Walk.
Context `{Platform}.



(** A loop whose steps all end, and keep [P], ends and keeps [P]. *)
Lemma for_each_total {A} (P : world -> Prop) (l : list A) (body : A -> M unit) :
  (forall x w, x ∈ l -> P w -> fst (body x w) <> Timeout /\ P (snd (body x w))) ->
  forall w, P w -> fst (for_each l body w) <> Timeout /\ P (snd (for_each l body w)).
Proof.
  induction l as [|x l IH]; intros Hbody w Hw; simpl.
  - split; [discriminate|assumption].
  - unfold bind. destruct (Hbody x w (list_elem_of_here _ _) Hw) as (Hnt & Hp).
    destruct (body x w) as [[[]|e|] w1]; simpl in *;
      [|split; [discriminate|assumption]|contradiction].
    apply IH; [|assumption].
    intros y v Hy. apply Hbody. now right.
Qed.






(** *** Where an exception of the walk comes from *)

Lemma for_each_raise_inv {A} (l : list A) (body : A -> M unit) (w w' : world) (e : exn) :
  for_each l body w = (Raise e, w') ->
  exists pre x post w1,
    l = (pre ++ x :: post)%list
    /\ for_each pre body w = (Ok tt, w1)
    /\ body x w1 = (Raise e, w').
Proof.
  revert w. induction l as [|x l IH]; intros w; simpl; [discriminate|].
  unfold bind. destruct (body x w) as [[[]|e1|] w1] eqn:E; [| |discriminate].
  - intros Hrest. destruct (IH _ Hrest) as (pre & y & post & w2 & -> & Hpre & Hy).
    exists (x :: pre), y, post, w2. split; [reflexivity|]. split; [|assumption].
    simpl. unfold bind. now rewrite E.
  - intros [= <- <-]. exists [], x, l, w. auto.
Qed.

Lemma process_files_raise_inv (root : path) (files : list string) (dest_dir : path)
    (w w' : world) (e : exn) :
  process_files root files dest_dir w = (Raise e, w') ->
  file_fails dest_dir root files w e w'.
Proof.
  intros Hrun. unfold process_files in Hrun.
  destruct (for_each_raise_inv _ _ _ _ _ Hrun) as (pre & file & post & w1 & -> & Hpre & Hx).
  destruct (eligible file) eqn:El; [|discriminate].
  now apply (FileFails dest_dir root pre post file w w1 w' e).
Qed.

Lemma os_walk_raise_inv (dest_dir : path) (fuel : nat) (top : path)
    (w w' : world) (e : exn) :
  os_walk fuel top (fun root fl => process_files root fl dest_dir) w = (Raise e, w') ->
  walk_fails dest_dir fuel top w e w'.
Proof.
  revert top w w'. induction fuel as [|fuel IH]; intros top w w'; simpl; [discriminate|].
  unfold bind at 1, get_fs.
  destruct (scandir (fs w) top) as [[dirs files]|] eqn:Hs; [|discriminate].
  unfold bind. destruct (process_files top files dest_dir w) as [[[]|e1|] w1] eqn:E;
    [| |discriminate].
  - intros Hrest.
    destruct (for_each_raise_inv _ _ _ _ _ Hrest) as (pre & d & post & w2 & -> & Hpre & Hd).
    apply (FailsBelow dest_dir fuel top w w1 w2 w' e files pre post d); auto.
  - intros [= <- <-]. apply (FailsHere dest_dir fuel top w w1 e1 dirs files); [assumption|].
    now apply process_files_raise_inv.
Qed.

Lemma walk_fails_file (dest_dir : path) (fuel : nat) (top : path)
    (w w' : world) (e : exn) :
  walk_fails dest_dir fuel top w e w' ->
  exists root file w1,
    eligible file = true /\ process_file (root </> file) dest_dir w1 = (Raise e, w').
Proof.
  induction 1 as [fuel top w w2 e dirs files Hs Hf
                 |fuel top w w1 w2 w3 e files pre post d Hs Hfiles Hpre Hbelow IH].
  - destruct Hf as [pre post file w0 w1 w3 e0 Hpre Hel Hrun]. eauto.
  - exact IH.
Qed.

(** X10.  The walk itself never raises: a directory that cannot be
    listed is passed over.  When [traverse_directory] ends with an
    exception, the walk had reached a selected file whose
    [process_file] raised it, everything before that file in walk
    order had returned normally, and the world is the one that call
    left. *)
Theorem traversal_raises_only_from_file (fuel : nat) (source_dir dest_dir : path)
    (w w' : world) (e : exn) :
  traverse_directory fuel source_dir dest_dir w = (Raise e, w') ->
  walk_fails dest_dir fuel source_dir (say (MsgTraversing source_dir) w) e w'
  /\ exists root file w1,
       eligible file = true /\ process_file (root </> file) dest_dir w1 = (Raise e, w').
Proof.
  unfold traverse_directory, bind, print. intros Hrun.
  apply os_walk_raise_inv in Hrun. split; [assumption|].
  exact (walk_fails_file _ _ _ _ _ _ Hrun).
Qed.

(** *** Termination *)

Lemma within_depth (w : world) : within (depth (fs w)) w.
Proof.
  intros q [nd Hq]. unfold depth. apply max_list_elem_of_le.
  apply list_elem_of_fmap. exists (q, nd). split; [reflexivity|].
  now apply elem_of_map_to_list.
Qed.

Lemma within_le (n n' : nat) (w : world) : within n w -> n <= n' -> within n' w.
Proof. intros Hw Hle q Hq. specialize (Hw q Hq). lia. Qed.

Lemma process_file_not_timeout (p dest_dir : path) (w : world) :
  fst (process_file p dest_dir w) <> Timeout.
Proof.
  destruct (process_file_cases p dest_dir w)
    as [Hu|(s & d & f & ex & Hden & Hf & Hx & Hb & Hp & Heq)].
  - intros Ht. rewrite Ht in Hu. inversion Hu.
  - rewrite Heq.
    pose proof (placing_output p dest_dir d f w _ _ Hf (place_placing _ _ _ _ _ Hf)) as Ho.
    intros Ht. now rewrite Ht in Ho.
Qed.

(** [process_file] makes no entry deeper than the names in the
    directory of a date. *)
Lemma process_file_within (n : nat) (p dest_dir : path) (w : world) :
  length dest_dir + 3 <= n -> within n w ->
  within n (snd (process_file p dest_dir w)).
Proof.
  intros Hn Hw q Hq.
  destruct (fs w !! q) as [nd|] eqn:E; [apply Hw; now rewrite E|].
  destruct (process_file_cases p dest_dir w)
    as [Hu|(s & d & f & ex & Hden & Hf & Hx & Hb & Hp & Heq)].
  - rewrite (undated_fs _ _ _ _ Hu), E in Hq. now destruct Hq.
  - rewrite Heq in Hq.
    assert (Hdiff : fs (snd (place p dest_dir d w)) !! q <> fs w !! q).
    { rewrite E. destruct Hq as [nd Hq]. now rewrite Hq. }
    destruct (placing_footprint p dest_dir d f w _ _ Hf (place_placing _ _ _ _ _ Hf) q Hdiff)
      as [->|[(Hsuf & _)|((k & ->) & _)]].
    + destruct (stat_file_parent _ _ _ Hf) as (_ & _ & Hl). congruence.
    + apply suffix_length in Hsuf. simpl in Hsuf. lia.
    + destruct k; simpl; lia.
Qed.

Lemma process_files_within (n : nat) (root : path) (files : list string)
    (dest_dir : path) (w : world) :
  length dest_dir + 3 <= n -> within n w ->
  fst (process_files root files dest_dir w) <> Timeout
  /\ within n (snd (process_files root files dest_dir w)).
Proof.
  intros Hn. unfold process_files. apply (for_each_total (within n)).
  intros file v _ Hv. destruct (eligible file).
  - split; [apply process_file_not_timeout|now apply process_file_within].
  - split; [discriminate|assumption].
Qed.

(** The sub-directories [os.walk] finds have an entry in the map. *)
Lemma scandir_dirs (m : gmap path node) (top : path) (dirs files : list string) :
  scandir m top = Some (dirs, files) ->
  forall d, d ∈ dirs -> m !! (d :: top) = Some Dir.
Proof.
  unfold scandir. destruct (stat m top) as [|[|]]; try discriminate.
  intros [= <- <-] d Hd.
  apply list_elem_of_omap in Hd. destruct Hd as ([n nd] & Hin & Hsel).
  simpl in Hsel. destruct nd; [|discriminate]. injection Hsel as ->.
  unfold entries in Hin. apply list_elem_of_omap in Hin.
  destruct Hin as ([k nd] & Hin & Hsel). simpl in Hsel.
  destruct k as [|n' q]; [discriminate|].
  destruct (decide (q = top)) as [->|]; [|discriminate].
  injection Hsel as -> ->. now apply elem_of_map_to_list in Hin.
Qed.

(** With more fuel than the tree is deep below [top], the walk from
    [top] ends. *)
Lemma os_walk_within (n : nat) (dest_dir : path) (fuel : nat) (top : path) (w : world) :
  length dest_dir + 3 <= n -> within n w ->
  n < fuel + length top -> 0 < fuel ->
  fst (os_walk fuel top (fun root fl => process_files root fl dest_dir) w) <> Timeout
  /\ within n (snd (os_walk fuel top (fun root fl => process_files root fl dest_dir) w)).
Proof.
  intros Hn. revert top w. induction fuel as [|fuel IH]; intros top w Hw Hfuel Hpos; [lia|].
  simpl. unfold bind at 1 3, get_fs.
  destruct (scandir (fs w) top) as [[dirs files]|] eqn:Hs;
    [|split; [discriminate|assumption]].
  unfold bind.
  destruct (process_files_within n top files dest_dir w Hn Hw) as (Hnt & Hw1).
  destruct (process_files top files dest_dir w) as [[[]|e|] w1]; simpl in *;
    [|split; [discriminate|assumption]|contradiction].
  apply (for_each_total (within n)); [|assumption].
  intros d v Hd Hv.
  pose proof (scandir_dirs _ _ _ _ Hs d Hd) as Hentry.
  assert (Hlen : length (d :: top) <= n) by (apply Hw; now rewrite Hentry).
  simpl in Hlen. apply IH; [assumption|simpl; lia|lia].
Qed.

(** Fuel beyond what the walk needs changes nothing. *)
Lemma for_each_same {A} (l : list A) (f g : A -> M unit) (w : world) :
  (forall x v, fst (g x v) <> Timeout -> f x v = g x v) ->
  fst (for_each l g w) <> Timeout -> for_each l f w = for_each l g w.
Proof.
  intros Hfg. revert w. induction l as [|x l IH]; intros w; simpl; [reflexivity|].
  unfold bind. destruct (g x w) as [r1 w1] eqn:E.
  destruct r1 as [[]|e|]; intros Hnt.
  - rewrite (Hfg x w), E by (now rewrite E). now apply IH.
  - now rewrite (Hfg x w), E by (now rewrite E).
  - now destruct Hnt.
Qed.

Lemma os_walk_S (body : path -> list string -> M unit) (fuel : nat)
    (top : path) (w : world) :
  os_walk (S fuel) top body w =
    match scandir (fs w) top with
    | None => (Ok tt, w)
    | Some (dirs, files) =>
        match body top files w with
        | (Ok _, w1) => for_each dirs (fun d => os_walk fuel (top </> d) body) w1
        | (Raise e, w1) => (Raise e, w1)
        | (Timeout, w1) => (Timeout, w1)
        end
    end.
Proof.
  simpl. unfold bind, get_fs. now destruct (scandir (fs w) top) as [[dirs files]|].
Qed.

Lemma os_walk_more_fuel (body : path -> list string -> M unit) (fuel : nat)
    (top : path) (w : world) :
  fst (os_walk fuel top body w) <> Timeout ->
  os_walk (S fuel) top body w = os_walk fuel top body w.
Proof.
  revert top w. induction fuel as [|fuel IH]; intros top w; [simpl; congruence|].
  rewrite (os_walk_S body (S fuel)), (os_walk_S body fuel).
  destruct (scandir (fs w) top) as [[dirs files]|]; [|reflexivity].
  destruct (body top files w) as [[[]|e|] w1]; try reflexivity.
  intros Hnt. apply for_each_same; [|assumption].
  intros d v. apply IH.
Qed.

Lemma os_walk_enough_fuel (body : path -> list string -> M unit) (fuel extra : nat)
    (top : path) (w : world) :
  fst (os_walk fuel top body w) <> Timeout ->
  os_walk (extra + fuel) top body w = os_walk fuel top body w.
Proof.
  intros Hnt. induction extra as [|extra IH]; [reflexivity|].
  change (S extra + fuel) with (S (extra + fuel)).
  rewrite os_walk_more_fuel; rewrite IH; [reflexivity|assumption].
Qed.

(** X11.  The traversal ends.  The walk goes no deeper than the tree,
    and placing files adds nothing deeper than the names in the dated
    directories, three levels below the destination.  So with any fuel
    above the larger of the two depths [traverse_directory] gives one
    and the same result, which is a normal return or an exception. *)
Theorem traversal_terminates (source_dir dest_dir : path) (w : world) :
  exists r,
    fst r <> Timeout
    /\ forall fuel,
         Nat.max (depth (fs w)) (length dest_dir + 3) < fuel ->
         traverse_directory fuel source_dir dest_dir w = r.
Proof.
  set (n := Nat.max (depth (fs w)) (length dest_dir + 3)).
  set (body := fun root fl => process_files root fl dest_dir).
  set (w1 := say (MsgTraversing source_dir) w).
  assert (Hw1 : within n w1).
  { apply (within_le (depth (fs w))); [apply (within_depth w)|unfold n; lia]. }
  assert (Hn : length dest_dir + 3 <= n) by (unfold n; lia).
  destruct (os_walk_within n dest_dir (S n) source_dir w1 Hn Hw1) as (Hnt & _); [lia|lia|].
  fold body in Hnt.
  exists (os_walk (S n) source_dir body w1). split; [assumption|].
  intros fuel Hfuel. unfold traverse_directory, bind, print. fold w1 body.
  replace fuel with ((fuel - S n) + S n) by lia.
  now apply os_walk_enough_fuel.
Qed.

End Walk.

(** ** Names, dates and digests *)

Section Names.
Context `{Platform}.

Lemma substring_all (s : string) : String.substring 0 (String.length s) s = s.
Proof. induction s as [|c s IH]; simpl; [reflexivity|now rewrite IH]. Qed.

Lemma substring_tail (s : string) (n : nat) :
  n <= String.length s ->
  exists pre, s = pre +:+ String.substring (String.length s - n) n s.
Proof.
  induction s as [|c s IH]; intros Hn.
  - exists "". simpl in *. replace n with 0 by lia. reflexivity.
  - destruct (decide (n = String.length (String c s))) as [->|Hne].
    + exists "". rewrite Nat.sub_diag, substring_all. reflexivity.
    + simpl in Hn. assert (Hle : n <= String.length s) by (simpl in Hne; lia).
      destruct (IH Hle) as (pre & Hpre). exists (String c pre).
      replace (String.length (String c s) - n) with (S (String.length s - n))
        by (simpl; lia).
      rewrite string_app_cons. simpl. now rewrite <- Hpre.
Qed.

Lemma endswith_app (s suf : string) :
  endswith s suf = true -> exists pre, s = pre +:+ suf.
Proof.
  unfold endswith. intros Hends. apply andb_prop in Hends. destruct Hends as (Heq & Hle).
  apply String.eqb_eq in Heq. apply Nat.leb_le in Hle.
  destruct (substring_tail s _ Hle) as (pre & Hpre). exists pre. now rewrite Heq in Hpre.
Qed.

Lemma lower_app_inv (s a b : string) :
  lower s = a +:+ b ->
  exists a0 b0, s = a0 +:+ b0 /\ lower a0 = a /\ lower b0 = b.
Proof.
  revert s. induction a as [|c a IH]; intros s Hs.
  - exists "", s. rewrite string_app_nil_l in Hs. now rewrite string_app_nil_l.
  - rewrite string_app_cons in Hs. destruct s as [|c0 s]; [discriminate|].
    simpl in Hs. injection Hs as Hc Hs. destruct (IH _ Hs) as (a0 & b0 & -> & Ha & Hb).
    exists (String c0 a0), b0. rewrite string_app_cons. simpl. now rewrite Hc, Ha.
Qed.

Lemma lower_length (s : string) : String.length (lower s) = String.length s.
Proof. induction s as [|c s IH]; simpl; [reflexivity|now rewrite IH]. Qed.

Lemma rfind_dot_lower (s : string) : rfind_dot (lower s) = rfind_dot s.
Proof.
  induction s as [|c s IH]; simpl; [reflexivity|]. now rewrite IH, ascii_lower_dot.
Qed.

Lemma rfind_dot_app (a t : string) (i : nat) :
  rfind_dot t = Some i -> rfind_dot (a +:+ t) = Some (String.length a + i).
Proof.
  intros Ht. induction a as [|c a IH].
  - now rewrite string_app_nil_l.
  - rewrite string_app_cons. simpl. now rewrite IH.
Qed.

Lemma drop_string_app (a t : string) : drop_string (String.length a) (a +:+ t) = t.
Proof.
  induction a as [|c a IH].
  - rewrite string_app_nil_l. now destruct t.
  - rewrite string_app_cons. simpl. exact IH.
Qed.

(** The extension of a name that ends in a dot and letters. *)
Lemma ext_of_dotted (root : path) (file stem e : string) :
  lower file = stem +:+ String "." e ->
  rfind_dot (String "." e) = Some 0 ->
  0 < String.length e ->
  ext_of (root </> file)
  = match stem with EmptyString => EmptyString | _ => lstrip_dot (String "." e) end.
Proof.
  intros Hl Hdot He.
  destruct (lower_app_inv _ _ _ Hl) as (a0 & b0 & -> & Ha & Hb).
  unfold ext_of, suffix. simpl name_of.
  assert (Hr : rfind_dot (a0 +:+ b0) = Some (String.length a0 + 0)).
  { apply rfind_dot_app. now rewrite <- rfind_dot_lower, Hb. }
  rewrite Hr, Nat.add_0_r, string_length_app.
  assert (Hlen : String.length b0 = S (String.length e))
    by (now rewrite <- lower_length, Hb).
  destruct a0 as [|c a0].
  - simpl in Ha. now subst stem.
  - replace (0 <? String.length (String c a0)) with true by reflexivity.
    replace (String.length (String c a0) <? String.length (String c a0) + String.length b0 - 1)
      with true by (symmetry; apply Nat.ltb_lt; lia).
    cbn [andb]. rewrite drop_string_app, Hb.
    simpl in Ha. now subst stem.
Qed.

(** X12.  A name the traversal selects ends, in lower case, in a dot
    and [jpg], [jpeg] or [png]; that is the extension its destination
    gets, whatever the case of the letters in the source name.  The
    one exception is a name that consists of the dotted extension
    alone, such as [.jpg]: it is selected, and has no suffix for
    [Path.suffix], so its destination name ends in a bare dot. *)
Theorem eligible_extension (root : path) (file : string) :
  eligible file = true ->
  exists stem e,
    lower file = stem +:+ "." +:+ e
    /\ (e = "jpg" \/ e = "jpeg" \/ e = "png")
    /\ lstrip_dot (lower (suffix (root </> file)))
       = match stem with EmptyString => EmptyString | _ => e end.
Proof.
  unfold eligible. intros Hel.
  apply orb_prop in Hel. destruct Hel as [Hel|Hel];
    [apply orb_prop in Hel; destruct Hel as [Hel|Hel]|];
    apply endswith_app in Hel; destruct Hel as (stem & Hl); exists stem.
  - exists "jpg". split; [exact Hl|]. split; [now left|].
    change (lstrip_dot (lower (suffix (root </> file)))) with (ext_of (root </> file)).
    now rewrite (ext_of_dotted root file stem "jpg" Hl eq_refl) by (simpl; lia).
  - exists "jpeg". split; [exact Hl|]. split; [right; now left|].
    change (lstrip_dot (lower (suffix (root </> file)))) with (ext_of (root </> file)).
    now rewrite (ext_of_dotted root file stem "jpeg" Hl eq_refl) by (simpl; lia).
  - exists "png". split; [exact Hl|]. split; [right; now right|].
    change (lstrip_dot (lower (suffix (root </> file)))) with (ext_of (root </> file)).
    now rewrite (ext_of_dotted root file stem "png" Hl eq_refl) by (simpl; lia).
Qed.

Lemma pad2_inj (n m : nat) : n < 100 -> m < 100 -> pad2 n = pad2 m -> n = m.
Proof. intros Hn Hm Heq. rewrite <- (py_int_pad2 n Hn), <- (py_int_pad2 m Hm). now rewrite Heq. Qed.

Lemma pad4_inj (n m : nat) :
  n < 10 * 1000 -> m < 10 * 1000 -> pad4 n = pad4 m -> n = m.
Proof. intros Hn Hm Heq. rewrite <- (py_int_pad4 n Hn), <- (py_int_pad4 m Hm). now rewrite Heq. Qed.

Local Ltac same_digits :=
  unfold pad4, pad2;
  repeat (apply f_equal2; [assumption|]); reflexivity.

Lemma string_app_inj (a1 a2 r1 r2 : string) :
  String.length r1 = String.length r2 ->
  a1 +:+ r1 = a2 +:+ r2 -> a1 = a2 /\ r1 = r2.
Proof.
  intros Hlen. revert a2. induction a1 as [|c a1 IH]; intros a2 Heq.
  - destruct a2 as [|c2 a2]; [now rewrite !string_app_nil_l in Heq|].
    exfalso. apply (f_equal String.length) in Heq.
    rewrite string_app_nil_l, string_length_app in Heq. simpl in Heq. lia.
  - destruct a2 as [|c2 a2].
    + exfalso. apply (f_equal String.length) in Heq.
      rewrite string_app_nil_l, string_length_app in Heq. simpl in Heq. lia.
    + rewrite !string_app_cons in Heq. injection Heq as -> Heq.
      destruct (IH _ Heq) as (-> & ->). auto.
Qed.

Lemma strftime_Y_inj (d1 d2 : datetime) :
  valid_datetime d1 = true -> valid_datetime d2 = true ->
  strftime_Y d1 = strftime_Y d2 -> dt_year d1 = dt_year d2.
Proof.
  intros Hv1 Hv2.
  destruct (valid_datetime_fields d1 Hv1) as (Hy1 & _).
  destruct (valid_datetime_fields d2 Hv2) as (Hy2 & _).
  unfold strftime_Y. destruct year_padded.
  - apply pad4_inj; lia.
  - apply (inj pretty).
Qed.

(** The base name keeps the whole date, whatever the width of the
    year: the ten digits and the underscore after it have a fixed
    place from the end. *)
Lemma strftime_compact_inj (d1 d2 : datetime) :
  valid_datetime d1 = true -> valid_datetime d2 = true ->
  strftime_compact d1 = strftime_compact d2 -> d1 = d2.
Proof.
  intros Hv1 Hv2.
  destruct (valid_datetime_fields d1 Hv1) as (Hy1 & Hm1 & Hd1 & HH1 & HM1 & HS1).
  destruct (valid_datetime_fields d2 Hv2) as (Hy2 & Hm2 & Hd2 & HH2 & HM2 & HS2).
  unfold in_field in *.
  unfold strftime_compact. intros Heq.
  apply string_app_inj in Heq; [|reflexivity].
  destruct Heq as (HY & Heq).
  pose proof (strftime_Y_inj d1 d2 Hv1 Hv2 HY) as Ey.
  revert Heq. unfold pad2.
  rewrite !string_app_cons, !string_app_nil_l.
  intros Heq. injection Heq as M1 M2 D1 D2 H1 H2 I1 I2 S1 S2.
  assert (Em : dt_month d1 = dt_month d2)
    by (apply pad2_inj; [lia|lia|same_digits]).
  assert (Ed : dt_day d1 = dt_day d2)
    by (apply pad2_inj; [lia|lia|same_digits]).
  assert (Eh : dt_hour d1 = dt_hour d2)
    by (apply pad2_inj; [lia|lia|same_digits]).
  assert (Ei : dt_minute d1 = dt_minute d2)
    by (apply pad2_inj; [lia|lia|same_digits]).
  assert (Es : dt_second d1 = dt_second d2)
    by (apply pad2_inj; [lia|lia|same_digits]).
  destruct d1, d2. simpl in *. congruence.
Qed.

(** X13.  The base name [format_date] gives determines the date: two
    date strings that yield the same [timestamp] were read as the same
    date, so they yield the same year, month and time stamp text, and
    their files go to the same directory.  Files of different capture
    seconds never compete for a name.  This holds whether or not
    [strftime] pads the year. *)
Theorem timestamp_determines_date (s1 s2 : string) (i1 i2 : date_info) :
  format_date (VStr s1) = Ok (Some i1) ->
  format_date (VStr s2) = Ok (Some i2) ->
  timestamp i1 = timestamp i2 ->
  i1 = i2 /\ strptime s1 exif_format = strptime s2 exif_format.
Proof.
  rewrite !format_date_str.
  destruct (strptime s1 exif_format) as [d1|] eqn:E1; [|discriminate].
  destruct (strptime s2 exif_format) as [d2|] eqn:E2; [|discriminate].
  simpl. intros [= <-] [= <-]. simpl. intros Ht.
  apply strftime_compact_inj in Ht; [|now apply (strptime_valid s1 exif_format)
                                      |now apply (strptime_valid s2 exif_format)].
  now subst d2.
Qed.

(** X14.  [files_are_identical] reads both files and changes nothing.
    When it answers, both paths are regular files and the answer says
    whether their MD5 digests are equal: files with the same bytes are
    never told apart, and the answer does not depend on the order of
    the two.  When it raises, one of the two could not be read. *)
Theorem files_are_identical_sound (file1 file2 : path) (w : world) :
  snd (files_are_identical file1 file2 w) = w
  /\ match fst (files_are_identical file1 file2 w) with
     | Ok b =>
         exists f1 f2,
           stat (fs w) file1 = inr (File f1) /\ stat (fs w) file2 = inr (File f2)
           /\ b = bool_decide (md5 (content f1) = md5 (content f2))
           /\ (content f1 = content f2 -> b = true)
           /\ fst (files_are_identical file2 file1 w) = Ok b
     | Raise e =>
         fst (get_checksum file1 w) = Raise e
         \/ fst (get_checksum file2 w) = Raise e
     | Timeout => False
     end.
Proof.
  split; [apply files_are_identical_state|].
  rewrite (files_are_identical_fst file1 file2), (files_are_identical_fst file2 file1).
  unfold get_checksum, bind, open_rb, ret.
  destruct (denied (SysOpen file1)); [now left|].
  destruct (stat (fs w) file1) as [e1|[|f1]]; simpl; [now left|now left|].
  destruct (denied (SysOpen file2)); [now right|].
  destruct (stat (fs w) file2) as [e2|[|f2]]; simpl; [now right|now right|].
  exists f1, f2. split; [reflexivity|]. split; [reflexivity|]. split; [reflexivity|].
  split.
  - intros ->. now apply bool_decide_eq_true.
  - f_equal. apply bool_decide_ext. split; congruence.
Qed.

End Names.

(** ** The command line *)

Section CommandLine.
Context `{Platform}.
Variable resolve : string -> path.

Lemma traverse_directory_ends (fuel : nat) (source_dir dest_dir : path) (w : world) :
  Nat.max (depth (fs w)) (length dest_dir + 3) < fuel ->
  fst (traverse_directory fuel source_dir dest_dir w) <> Timeout.
Proof.
  intros Hfuel. unfold traverse_directory, bind, print.
  apply (os_walk_within (Nat.max (depth (fs w)) (length dest_dir + 3)) dest_dir);
    [lia| |lia|lia].
  apply (within_le (depth (fs w))); [apply (within_depth w)|lia].
Qed.

(** [main], case by case. *)
Lemma main_cases (fuel : nat) (argv : list string) (line : option string) (w : world) :
  let source_dir := resolve (nth 1 argv EmptyString) in
  let dest_dir := resolve (nth 2 argv EmptyString) in
  let asked := say MsgPrompt (say (MsgDestinationDirectory dest_dir)
                                (say (MsgSourceDirectory source_dir) w)) in
  main resolve fuel argv line w =
    if length argv <? 3 then (Ok 1, say MsgUsage w)
    else if is_dir (fs w) source_dir then
      match line with
      | None => (Raise EOFError, asked)
      | Some answer =>
          if String.eqb (lower (strip answer)) "y" then
            match traverse_directory fuel source_dir dest_dir asked with
            | (Ok _, w') => (Ok 0, w')
            | (Raise e, w') => (Raise e, w')
            | (Timeout, w') => (Timeout, w')
            end
          else (Ok 0, say MsgCanceled asked)
      end
    else (Ok 1, say (MsgInvalidSource source_dir) w).
Proof.
  intros source_dir dest_dir asked. unfold main. fold source_dir dest_dir.
  destruct (length argv <? 3); [reflexivity|].
  unfold bind at 1, get_fs.
  destruct (is_dir (fs w) source_dir); [|reflexivity].
  cbn [negb]. unfold bind at 1, print at 1. unfold bind at 1, print at 1.
  unfold bind at 1, input, bind at 1, print at 1. fold asked.
  destruct line as [answer|]; [|reflexivity].
  unfold ret at 1.
  destruct (String.eqb (lower (strip answer)) "y"); [|reflexivity].
  cbn [negb]. unfold bind.
  now destruct (traverse_directory fuel source_dir dest_dir asked) as [[[]|e|] w'].
Qed.

(** X15.  [main] changes nothing in the filesystem before it has an
    answer, and its exit status is that of the Python process.  With
    fewer than two arguments it prints the usage line and exits with
    status 1; with a source that is not a directory it prints the
    invalid-source line and exits with status 1; otherwise it prints
    the two directories and the prompt, and with no line to read
    [input] raises [EOFError], which nothing catches: the status is 1
    again.  With an answer other than [y] (stripped and lowered) it
    prints the cancel line and exits with status 0.  Only with the
    answer [y] does [traverse_directory] run, in the world after the
    three lines: the world [main] leaves is the one the traversal
    leaves, status 0 when it returns and 1 when it raises, the
    exception being left uncaught.  So a filesystem that differs
    from the one [main] found implies a confirmed run.  With enough
    fuel the run ends. *)
Theorem main_asks_first (fuel : nat) (argv : list string) (line : option string)
    (w : world) :
  let r := fst (main resolve fuel argv line w) in
  let w' := snd (main resolve fuel argv line w) in
  let source_dir := resolve (nth 1 argv EmptyString) in
  let dest_dir := resolve (nth 2 argv EmptyString) in
  let asked := say MsgPrompt (say (MsgDestinationDirectory dest_dir)
                                (say (MsgSourceDirectory source_dir) w)) in
  (length argv < 3 ->
     r = Ok 1 /\ exit_status r = Some 1 /\ w' = say MsgUsage w)
  /\ (3 <= length argv -> is_dir (fs w) source_dir = false ->
      r = Ok 1 /\ exit_status r = Some 1 /\ w' = say (MsgInvalidSource source_dir) w)
  /\ (3 <= length argv -> is_dir (fs w) source_dir = true -> line = None ->
      r = Raise EOFError /\ exit_status r = Some 1 /\ w' = asked)
  /\ (forall answer,
        3 <= length argv -> is_dir (fs w) source_dir = true -> line = Some answer ->
        lower (strip answer) <> "y" ->
        r = Ok 0 /\ exit_status r = Some 0 /\ w' = say MsgCanceled asked)
  /\ (forall answer,
        3 <= length argv -> is_dir (fs w) source_dir = true -> line = Some answer ->
        lower (strip answer) = "y" ->
        w' = snd (traverse_directory fuel source_dir dest_dir asked)
        /\ match fst (traverse_directory fuel source_dir dest_dir asked) with
           | Ok _ => r = Ok 0 /\ exit_status r = Some 0
           | Raise e => r = Raise e /\ exit_status r = Some 1
           | Timeout => r = Timeout
           end)
  /\ (fs w' <> fs w ->
      3 <= length argv /\ is_dir (fs w) source_dir = true
      /\ (exists answer, line = Some answer /\ lower (strip answer) = "y")
      /\ w' = snd (traverse_directory fuel source_dir dest_dir asked))
  /\ (Nat.max (depth (fs w)) (length dest_dir + 3) < fuel -> r <> Timeout).
Proof.
  intros r w' source_dir dest_dir asked. subst r w'.
  rewrite (main_cases fuel argv line w). fold source_dir dest_dir asked.
  destruct (length argv <? 3) eqn:Hargs.
  { apply Nat.ltb_lt in Hargs. simpl.
    split; [auto|]. split; [intros; lia|]. split; [intros; lia|].
    split; [intros; lia|]. split; [intros; lia|].
    split; [intros Hn; now destruct Hn|discriminate]. }
  apply Nat.ltb_ge in Hargs.
  destruct (is_dir (fs w) source_dir) eqn:Hdir; simpl.
  2:{ split; [intros; lia|]. split; [auto|]. split; [discriminate|].
      split; [discriminate|]. split; [discriminate|].
      split; [intros Hn; now destruct Hn|discriminate]. }
  destruct line as [answer|]; simpl.
  2:{ split; [intros; lia|]. split; [discriminate|]. split; [auto|].
      split; [discriminate|]. split; [discriminate|].
      split; [intros Hn; now destruct Hn|discriminate]. }
  destruct (String.eqb (lower (strip answer)) "y") eqn:Hans; simpl.
  2:{ apply String.eqb_neq in Hans.
      split; [intros; lia|]. split; [discriminate|]. split; [discriminate|].
      split; [auto|]. split; [intros a _ _ [= <-] Hy; contradiction|].
      split; [intros Hn; now destruct Hn|discriminate]. }
  apply String.eqb_eq in Hans.
  pose proof (traverse_directory_ends fuel source_dir dest_dir asked) as Hends.
  destruct (traverse_directory fuel source_dir dest_dir asked) as [[[]|e|] w'] eqn:Hrun;
    simpl in *.
  all: split; [intros; lia|]; split; [discriminate|]; split; [discriminate|];
       split; [intros a _ _ [= <-] Hy; contradiction|];
       split; [auto|]; split; [intros _; eauto 6|].
  - discriminate.
  - discriminate.
  - intros Hfuel. now destruct (Hends Hfuel).
Qed.

Lemma lstrip_space_split (s : string) :
  exists a, s = a +:+ lstrip_space s /\ all_space a = true.
Proof.
  induction s as [|c s (a & Ha & Hs)]; [now exists ""|].
  simpl. destruct (is_space c) eqn:Hc.
  - exists (String c a). rewrite string_app_cons, <- Ha. simpl. now rewrite Hc.
  - now exists "".
Qed.

Lemma rstrip_space_split (s : string) :
  exists b, s = rstrip_space s +:+ b /\ all_space b = true.
Proof.
  induction s as [|c s (b & Hb & Hs)]; [now exists ""|].
  simpl. destruct (rstrip_space s) as [|c' t] eqn:Hr.
  - rewrite string_app_nil_l in Hb. subst b. destruct (is_space c) eqn:Hc.
    + exists (String c s). rewrite string_app_nil_l. simpl. now rewrite Hc.
    + exists s. now rewrite string_app_cons, string_app_nil_l.
  - exists b. now rewrite string_app_cons, <- Hb.
Qed.

Lemma lstrip_space_app (a t : string) (c : ascii) :
  all_space a = true -> is_space c = false ->
  lstrip_space (a +:+ String c t) = String c t.
Proof.
  intros Ha Hc. induction a as [|c0 a IH].
  - rewrite string_app_nil_l. simpl. now rewrite Hc.
  - simpl in Ha. apply andb_prop in Ha. destruct Ha as (Hc0 & Ha).
    rewrite string_app_cons. simpl. rewrite Hc0. now apply IH.
Qed.

Lemma rstrip_space_blank (b : string) : all_space b = true -> rstrip_space b = "".
Proof.
  induction b as [|c b IH]; [reflexivity|].
  simpl. intros Hb. apply andb_prop in Hb. destruct Hb as (Hc & Hb).
  now rewrite (IH Hb), Hc.
Qed.

Lemma ascii_lower_y (c : ascii) :
  ascii_lower c = "y"%char <-> c = "y"%char \/ c = "Y"%char.
Proof.
  split.
  - destruct c as [[] [] [] [] [] [] [] []]; simpl; intros [=]; auto.
  - now intros [-> | ->].
Qed.

(** X16.  The answers [main] takes as a confirmation are exactly the
    letter [y] or [Y] with any white space before and after it:
    anything else, [yes] and the empty line included, cancels. *)
Theorem confirm_iff (answer : string) :
  lower (strip answer) = "y"
  <-> exists a c b,
        answer = a +:+ String c b
        /\ all_space a = true /\ all_space b = true
        /\ (c = "y"%char \/ c = "Y"%char).
Proof.
  unfold strip. split.
  - intros Hl.
    destruct (lstrip_space_split answer) as (a & Ha & Hsa).
    destruct (rstrip_space_split (lstrip_space answer)) as (b & Hb & Hsb).
    destruct (rstrip_space (lstrip_space answer)) as [|c [|c' t]]; try discriminate.
    simpl in Hl. injection Hl as Hc. apply ascii_lower_y in Hc.
    exists a, c, b. rewrite string_app_cons, string_app_nil_l in Hb.
    rewrite <- Hb. auto.
  - intros (a & c & b & -> & Ha & Hb & Hc).
    assert (Hns : is_space c = false) by (now destruct Hc as [-> | ->]).
    rewrite (lstrip_space_app a b c Ha Hns). simpl.
    rewrite (rstrip_space_blank b Hb), Hns. simpl.
    now rewrite (proj2 (ascii_lower_y c) Hc).
Qed.

End CommandLine.

(** ** The digest, chunk by chunk *)

Section Checksum.
Context `{Platform} {A : Type}.

(** The hash object: [fed h] is what [h] has been given so far, and
    the digest is the digest of that. *)
Variables (init : A) (update : A -> list byte -> A) (hexdigest : A -> string)
          (fed : A -> list byte).
Hypothesis fed_init : fed init = [].
Hypothesis fed_update : forall h c, fed (update h c) = (fed h ++ c)%list.
Hypothesis hexdigest_fed : forall h, hexdigest h = md5 (fed h).

Lemma read_chunks_fed (chunk_size fuel : nat) (rest : list byte) (h : A) :
  0 < chunk_size -> length rest < fuel ->
  exists h', read_chunks update fuel chunk_size rest h = Some h'
             /\ fed h' = (fed h ++ rest)%list.
Proof.
  intros Hc. revert rest h. induction fuel as [|fuel IH]; intros rest h Hfuel; [lia|].
  simpl. unfold file_read.
  destruct rest as [|b rest].
  - rewrite take_nil. exists h. now rewrite app_nil_r.
  - destruct chunk_size as [|n]; [lia|]. cbn [take drop].
    destruct (IH (drop n rest) (update h (b :: take n rest))) as (h' & Hrun & Hfed).
    { rewrite length_drop. simpl in Hfuel. lia. }
    exists h'. split; [exact Hrun|].
    rewrite Hfed, fed_update, <- app_assoc. f_equal.
    simpl. now rewrite take_drop.
Qed.

Lemma read_chunks_fuel (chunk_size fuel1 fuel2 : nat) (rest : list byte) (h0 h1 h2 : A) :
  read_chunks update fuel1 chunk_size rest h0 = Some h1 ->
  read_chunks update fuel2 chunk_size rest h0 = Some h2 -> h1 = h2.
Proof.
  revert fuel2 rest h0. induction fuel1 as [|fuel1 IH]; intros fuel2 rest h0; [discriminate|].
  destruct fuel2 as [|fuel2]; [discriminate|].
  simpl. unfold file_read. destruct (take chunk_size rest) as [|b chunk].
  - congruence.
  - apply IH.
Qed.

(** X17.  The loop of [get_checksum] reads the file to its end, one
    chunk of at most [chunk_size] bytes after the other, and gives the
    hash object every byte once and in order: for any positive chunk
    size it ends after at most one read per byte and one more, and the
    digest is the MD5 of the whole content, which is what
    [get_checksum] returns for a readable file.  With a chunk size of
    zero the first read is empty and nothing is hashed. *)
Theorem read_chunks_digest (chunk_size : nat) (p : path) (w : world) (f : file) :
  0 < chunk_size ->
  stat (fs w) p = inr (File f) ->
  denied (SysOpen p) = false ->
  (exists h,
     (forall fuel, length (content f) < fuel ->
        read_chunks update fuel chunk_size (content f) init = Some h)
     /\ get_checksum p w = (Ok (hexdigest h), w))
  /\ forall fuel, read_chunks update (S fuel) 0 (content f) init = Some init.
Proof.
  intros Hc Hf Hd. split.
  - destruct (read_chunks_fed chunk_size (S (length (content f))) (content f) init Hc)
      as (h & Hrun & Hfed); [lia|].
    rewrite fed_init in Hfed. simpl in Hfed.
    exists h. split.
    + intros fuel Hfuel.
      destruct (read_chunks_fed chunk_size fuel (content f) init Hc Hfuel)
        as (h' & Hrun' & Hfed').
      rewrite Hrun'. f_equal. exact (read_chunks_fuel _ _ _ _ _ _ _ Hrun' Hrun).
    + rewrite (get_checksum_file p w f Hf), Hd, hexdigest_fed, Hfed. reflexivity.
  - intros fuel. reflexivity.
Qed.

End Checksum.

(** ** A destination that is in the way *)

Section Blocked.
Context `{Platform}.

Lemma mkdir_cons (n : string) (q : path) (w : world) :
  mkdir (n :: q) w =
    try_except (os_mkdir (n :: q))
      (fun e =>
         match e with
         | FileNotFoundError => mkdir q ;; mkdir_exist_ok (n :: q)
         | _ => unless_is_dir (n :: q) e
         end) w.
Proof. reflexivity. Qed.

(** X18.  When the place of the dated directory, or of the year
    directory above it, is taken by a regular file, [process_file]
    raises before it touches anything: [FileExistsError] in the first
    case, [NotADirectoryError] in the second.  The source keeps its
    times and no directory is made.  The two directories are named
    from the year and month as [format_date] writes them. *)
Theorem blocked_directory_raises (p dest_dir : path) (w : world) (s : string)
    (d : datetime) :
  exif_date_of w p = Some (VStr s) ->
  strptime s exif_format = Some d ->
  denied (SysMkdir (dest_dir </> strftime_Y d
                      </> (strftime_Y d +:+ "-" +:+ strftime_m d))) = false ->
  (is_file (fs w) (dest_dir </> strftime_Y d
                     </> (strftime_Y d +:+ "-" +:+ strftime_m d)) = true ->
   process_file p dest_dir w = (Raise FileExistsError, w))
  /\ (is_file (fs w) (dest_dir </> strftime_Y d) = true ->
      process_file p dest_dir w = (Raise NotADirectoryError, w)).
Proof.
  intros Hdate Hs Hden.
  rewrite (process_file_dated p dest_dir w s d (get_exif_date_dated _ _ _ Hdate) Hs).
  unfold place, subdir_of, bind, joinpath in *.
  set (y := strftime_Y d :: dest_dir) in *.
  set (m := strftime_Y d +:+ "-" +:+ strftime_m d) in *.
  split; intros Hfile; apply is_file_stat in Hfile; destruct Hfile as (g & Hg).
  - destruct (stat_file_parent _ _ _ Hg) as (_ & Hpar & Hl).
    change (stat (fs w) y = inr Dir) in Hpar.
    assert (Hmk : mkdir (m :: y) w = (Raise FileExistsError, w)).
    { rewrite mkdir_cons. unfold try_except, os_mkdir.
      rewrite Hden, Hpar, Hl. unfold unless_is_dir, bind, get_fs, is_dir.
      now rewrite Hg. }
    now rewrite Hmk.
  - assert (Hsub : stat (fs w) (m :: y) = inl NotADirectoryError).
    { change (stat (fs w) (m :: y))
        with (match stat (fs w) y with
              | inr Dir => match fs w !! (m :: y) with
                           | Some nd => inr nd
                           | None => inl FileNotFoundError
                           end
              | inr (File _) => inl NotADirectoryError
              | inl e => inl e
              end).
      now rewrite Hg. }
    assert (Hmk : mkdir (m :: y) w = (Raise NotADirectoryError, w)).
    { rewrite mkdir_cons. unfold try_except, os_mkdir.
      rewrite Hden, Hg. unfold unless_is_dir, bind, get_fs, is_dir.
      now rewrite Hsub. }
    now rewrite Hmk.
Qed.

End Blocked.

(** * The theorems at work

    Each theorem that has hypotheses is applied once to a concrete
    filesystem of [Demo], and each statement of the specification
    the code does not meet is refuted on one. *)

Import Demo.

Lemma get_exif_date_priority_witness :
  get_exif_date (H := demo) (src </> "a.JPG") w0
  = (Ok (Some (VStr "2023:05:14 10:30:00")), w0).
Proof.
  destruct (get_exif_date_priority (H := demo) w0 (src </> "a.JPG")) as (_ & Hread & _).
  rewrite (Hread (photo_file "2023:05:14 10:30:00 first")
             (Some {[ 36867%Z := VStr "2023:05:14 10:30:00" ]}));
    reflexivity.
Defined.

Lemma unique_loop_terminates_witness :
  is_file (fs w_probe) (src </> "a.jpg") = true
  /\ (forall p, denied (Platform := demo) (SysOpen p) = false)
  /\ exists k r,
       k <= size (fs w_probe)
       /\ forall fuel, k < fuel ->
            unique_loop (H := demo) fuel base "jpg" day (src </> "a.jpg")
              (day </> plain_name base "jpg") 1 w_probe = r.
Proof.
  assert (H1 : is_file (fs w_probe) (src </> "a.jpg") = true) by (vm_compute; reflexivity).
  assert (H2 : forall p, denied (Platform := demo) (SysOpen p) = false) by reflexivity.
  split; [exact H1|]. split; [exact H2|].
  destruct (unique_loop_terminates (H := demo) base "jpg" day (src </> "a.jpg")
              w_probe H1 H2) as (k & Hk & _ & r & Hr & _).
  exists k, r. split; assumption.
Defined.

Lemma non_file_candidate_skipped_witness :
  let first := day </> "20230514_103000.jpg" in
  let p := src </> "a.jpg" in
  exists_ (fs w_dirname) first = true
  /\ is_file (fs w_dirname) first = false
  /\ (forall fuel counter,
        unique_loop (H := demo) (S fuel) base "jpg" day p first counter w_dirname
        = unique_loop (H := demo) fuel base "jpg" day p
            (day </> numbered_name base "jpg" counter) (counter + 1) w_dirname)
  /\ (forall fuel,
        unique_loop (H := demo) (S (S fuel)) base "jpg" day p first 1 w_dirname
        = (Ok (Some (day </> "20230514_103000_1.jpg")), w_dirname))
  /\ generate_unique_filename (H := demo) base "jpg" day p w_dirname
     = (Ok (Some (day </> "20230514_103000_1.jpg")), w_dirname).
Proof.
  intros first p.
  assert (H1 : exists_ (fs w_dirname) first = true) by (vm_compute; reflexivity).
  assert (H2 : is_file (fs w_dirname) first = false) by (vm_compute; reflexivity).
  split; [exact H1|]. split; [exact H2|].
  destruct (non_file_candidate_skipped (H := demo) base "jpg" day p first w_dirname H1 H2)
    as (Hstep & Hnext & Hgen & _).
  split; [exact Hstep|]. split.
  - intros fuel. apply (Hnext fuel 1). vm_compute. reflexivity.
  - apply (Hgen 1).
    + intros i Hi. destruct i as [|i]; [|lia]. split; vm_compute; reflexivity.
    + vm_compute. reflexivity.
Defined.

Lemma source_removed_only_after_copy_witness :
  stat (fs w0) (src </> "a.JPG") = inr (photo "2023:05:14 10:30:00 first")
  /\ forall c w',
       process_file (H := demo) (src </> "a.JPG") out w0 = (Ok tt, w') ->
       placed (src </> "a.JPG") c w0 w' ->
       exists_ (fs w') (src </> "a.JPG") = false
       /\ exists g, stat (fs w') c = inr (File g)
                    /\ content g = list_byte_of_string "2023:05:14 10:30:00 first".
Proof.
  assert (H1 : stat (fs w0) (src </> "a.JPG")
               = inr (File (photo_file "2023:05:14 10:30:00 first")))
    by (vm_compute; reflexivity).
  split; [exact H1|].
  exact (proj2 (source_removed_only_after_copy (H := demo) (src </> "a.JPG") out w0
                  (photo_file "2023:05:14 10:30:00 first") H1)).
Defined.


Lemma placed_overwrites_nothing_witness :
  let p := src </> "a.jpg" in
  let c := day </> "20230514_103000_2.jpg" in
  let w' := snd (process_file (H := demo) p out w_probe) in
  process_file (H := demo) p out w_probe = (Ok tt, w')
  /\ placed p c w_probe w'
  /\ exists_ (fs w_probe) c = false
  /\ (forall q nd, q <> p -> stat (fs w_probe) q = inr nd -> stat (fs w') q = inr nd)
  /\ forall g,
       stat (fs w_probe) (day </> "20230514_103000_1.jpg") = inr (File g) ->
       md5 (Platform := demo) (content g)
       <> md5 (Platform := demo) (list_byte_of_string "2023:05:14 10:30:00 these bytes").
Proof.
  intros p c w'.
  assert (H1 : process_file (H := demo) p out w_probe = (Ok tt, w'))
    by (vm_compute; reflexivity).
  assert (H2 : placed p c w_probe w') by (vm_compute; reflexivity).
  split; [exact H1|]. split; [exact H2|].
  destruct (placed_overwrites_nothing (H := demo) p out c w_probe w' H1 H2)
    as (Hnew & Hkept & f & s & info & k & Hf & Hdate & Hfmt & Hc & Hdig).
  split; [exact Hnew|]. split; [exact Hkept|].
  assert (Ef : f = photo_file "2023:05:14 10:30:00 these bytes").
  { assert (Hf' : stat (fs w_probe) p
                  = inr (File (photo_file "2023:05:14 10:30:00 these bytes")))
      by (vm_compute; reflexivity).
    rewrite Hf' in Hf. now injection Hf as <-. }
  assert (Es : s = "2023:05:14 10:30:00").
  { assert (Hd' : exif_date_of (H := demo) w_probe p = Some (VStr "2023:05:14 10:30:00"))
      by (vm_compute; reflexivity).
    rewrite Hd' in Hdate. now injection Hdate as <-. }
  subst f s.
  assert (Ei : info = {| year := "2023"; month := "05";
                         formatted_date := "202305141030.00";
                         timestamp := "20230514_103000" |}).
  { assert (Hi : format_date (H := demo) (VStr "2023:05:14 10:30:00")
                 = Ok (Some {| year := "2023"; month := "05";
                               formatted_date := "202305141030.00";
                               timestamp := "20230514_103000" |}))
      by (vm_compute; reflexivity).
    rewrite Hi in Hfmt. now injection Hfmt as <-. }
  subst info. cbn [year month timestamp] in Hc, Hdig.
  assert (Ek : k = 2).
  { apply (candidate_inj "20230514_103000" (lstrip_dot (lower (suffix p)))
             (out </> "2023" </> ("2023" +:+ "-" +:+ "05"))).
    rewrite <- Hc. vm_compute. reflexivity. }
  subst k. intros g Hg. apply (Hdig 1 g); [lia|exact Hg].
Defined.

Lemma second_placement_skipped_witness :
  let p1 := src </> "a.JPG" in
  let p2 := src </> "b.jpg" in
  let c := day </> "20230514_103000.jpg" in
  let w1 := snd (process_file (H := demo) p1 out w_pair) in
  process_file (H := demo) p1 out w_pair = (Ok tt, w1)
  /\ placed p1 c w_pair w1
  /\ exists w2,
       process_file (H := demo) p2 out w1 = (Ok tt, w2)
       /\ skipped_duplicate p2 c w1 w2.
Proof.
  intros p1 p2 c w1.
  assert (H1 : process_file (H := demo) p1 out w_pair = (Ok tt, w1))
    by (vm_compute; reflexivity).
  assert (H2 : placed p1 c w_pair w1) by (vm_compute; reflexivity).
  split; [exact H1|]. split; [exact H2|].
  assert (H3 : stat (fs w_pair) p1 = inr (File (photo_file "2023:05:14 10:30:00 same bytes")))
    by (vm_compute; reflexivity).
  assert (H4 : stat (fs w_pair) p2 = inr (File (photo_file "2023:05:14 10:30:00 same bytes")))
    by (vm_compute; reflexivity).
  assert (H5 : p2 <> p1) by discriminate.
  assert (H6 : lstrip_dot (lower (suffix p2)) = lstrip_dot (lower (suffix p1)))
    by (vm_compute; reflexivity).
  destruct (second_placement_skipped (H := demo) p1 p2 out c w_pair w1
              (photo_file "2023:05:14 10:30:00 same bytes")
              (photo_file "2023:05:14 10:30:00 same bytes")
              H1 H2 H3 H4 H5 eq_refl H6 eq_refl eq_refl eq_refl)
    as (w2 & Hrun & Hskip & _).
  exists w2. split; assumption.
Defined.

Lemma error_aborts_traversal_witness :
  walk_fails (H := demo) out 2 src (say (MsgTraversing src) w_blocked)
    NotADirectoryError (say (MsgTraversing src) w_blocked)
  /\ traverse_directory (H := demo) 2 src out w_blocked
     = (Raise NotADirectoryError, say (MsgTraversing src) w_blocked).
Proof.
  assert (H1 : walk_fails (H := demo) out 2 src (say (MsgTraversing src) w_blocked)
                 NotADirectoryError (say (MsgTraversing src) w_blocked)).
  { eapply FailsHere with (dirs := []) (files := ["b.jpg"; "a.jpg"]).
    - vm_compute. reflexivity.
    - eapply FileFails with (pre := []) (post := ["a.jpg"]) (file := "b.jpg")
                              (w1 := say (MsgTraversing src) w_blocked);
        vm_compute; reflexivity. }
  split; [exact H1|].
  exact (error_aborts_traversal (H := demo) out src 2 w_blocked
           (say (MsgTraversing src) w_blocked) NotADirectoryError H1).
Defined.

(** ** Where the code differs from the specification *)

(** C1.  The walk lists [b.jpg] before [a.jpg].  Placing [b.jpg] raises
    at [mkdir], because [out/2023] is a regular file, and the run ends
    there with that exception: [a.jpg] is never looked at and is still
    in the source, although on its own it would have been placed. *)
Lemma traversal_stops_at_first_error :
  scandir (fs w_blocked) src = Some ([], ["b.jpg"; "a.jpg"])
  /\ process_file (H := demo) (src </> "b.jpg") out w_blocked
     = (Raise NotADirectoryError, w_blocked)
  /\ traverse_directory (H := demo) 2 src out w_blocked
     = (Raise NotADirectoryError, say (MsgTraversing src) w_blocked)
  /\ fst (process_file (H := demo) (src </> "a.jpg") out w_blocked) = Ok tt
  /\ placed (src </> "a.jpg") (out </> "2024" </> "2024-01" </> "20240102_030405.jpg")
       w_blocked (snd (process_file (H := demo) (src </> "a.jpg") out w_blocked)).
Proof. repeat split; vm_compute; reflexivity. Qed.

(** C3.  In one run two sources with the same bytes, [a.jpg] and
    [b.jpeg], are both placed in the same directory: when [b.jpeg] is
    placed, [20230514_103000.jpg] is already there with the same
    digest. *)
Lemma twins_placed_side_by_side :
  let w1 := snd (process_file (H := demo) (src </> "a.jpg") out w_twins) in
  let w2 := snd (process_file (H := demo) (src </> "b.jpeg") out w1) in
  placed (src </> "a.jpg") (day </> "20230514_103000.jpg") w_twins w1
  /\ process_file (H := demo) (src </> "b.jpeg") out w1 = (Ok tt, w2)
  /\ placed (src </> "b.jpeg") (day </> "20230514_103000.jpeg") w1 w2
  /\ stat (fs w1) (src </> "b.jpeg") = inr (photo "2023:05:14 10:30:00 same bytes")
  /\ exists g,
       stat (fs w1) (day </> "20230514_103000.jpg") = inr (File g)
       /\ md5 (Platform := demo) (content g)
          = md5 (Platform := demo) (list_byte_of_string "2023:05:14 10:30:00 same bytes")
       /\ stat (fs w2) (day </> "20230514_103000.jpg") = inr (File g)
       /\ exists g', stat (fs w2) (day </> "20230514_103000.jpeg") = inr (File g')
                    /\ content g' = content g.
Proof.
  intros w1 w2.
  repeat (split; [vm_compute; reflexivity|]).
  eexists. split; [vm_compute; reflexivity|].
  split; [vm_compute; reflexivity|]. split; [vm_compute; reflexivity|].
  eexists. split; vm_compute; reflexivity.
Qed.

(** C5.  A photo whose date entry is [0999:05:14 10:30:00], a valid
    date.  [strftime] writes the year as [999], so the file is placed
    at [out/999/999-05/9990514_103000.jpg] and no directory [0999] is
    made; the time stamp text is [99905141030.00], which [strptime]
    reads back as 14 May 9990, and the placed file carries the
    modification time of that date, not of the capture date. *)
Lemma placed_year_999_misdated :
  let p := src </> "old.jpg" in
  let c := out </> "999" </> "999-05" </> "9990514_103000.jpg" in
  let w' := snd (process_file (H := demo) p out w_old) in
  let d := {| dt_year := 999; dt_month := 5; dt_day := 14;
              dt_hour := 10; dt_minute := 30; dt_second := 0 |} in
  let d' := {| dt_year := 9990; dt_month := 5; dt_day := 14;
               dt_hour := 10; dt_minute := 30; dt_second := 0 |} in
  exif_date_of (H := demo) w_old p = Some (VStr "0999:05:14 10:30:00")
  /\ strptime "0999:05:14 10:30:00" exif_format = Some d
  /\ format_date (H := demo) (VStr "0999:05:14 10:30:00")
     = Ok (Some {| year := "999"; month := "05";
                   formatted_date := "99905141030.00";
                   timestamp := "9990514_103000" |})
  /\ strptime "99905141030.00" touch_format = Some d'
  /\ process_file (H := demo) p out w_old = (Ok tt, w')
  /\ placed p c w_old w'
  /\ exists_ (fs w') (out </> "0999") = false
  /\ exists g,
       stat (fs w') c = inr (File g)
       /\ mtime g = mktime (Platform := demo) d'
       /\ mtime g <> mktime (Platform := demo) d.
Proof.
  intros p c w' d d'.
  repeat (split; [vm_compute; reflexivity|]).
  eexists. split; [vm_compute; reflexivity|].
  split; [vm_compute; reflexivity|]. vm_compute. discriminate.
Qed.

(** C7.  A date with a one-digit month is not of the exact pattern,
    and [format_date] accepts it. *)
Lemma format_date_accepts_unpadded :
  exact_pattern "2023:5:14 10:30:00" = false
  /\ format_date (H := demo) (VStr "2023:5:14 10:30:00")
     = Ok (Some {| year := "2023"; month := "05";
                   formatted_date := "202305141030.00";
                   timestamp := "20230514_103000" |}).
Proof. split; vm_compute; reflexivity. Qed.

(** C8.  The destination already holds the photo as
    [20230514_103000.jpg].  A second file with the same bytes, named
    [b.jpeg], is not skipped: it is placed as [20230514_103000.jpeg], a
    new destination file, and the second source is removed. *)
Lemma identical_file_placed_again :
  let p := src </> "b.jpeg" in
  let w' := snd (process_file (H := demo) p out w_organized) in
  stat (fs w_organized) p = inr (photo "2023:05:14 10:30:00 same bytes")
  /\ stat (fs w_organized) (day </> "20230514_103000.jpg")
     = inr (photo "2023:05:14 10:30:00 same bytes")
  /\ process_file (H := demo) p out w_organized = (Ok tt, w')
  /\ placed p (day </> "20230514_103000.jpeg") w_organized w'
  /\ ~ skipped_duplicate p (day </> "20230514_103000.jpg") w_organized w'
  /\ exists_ (fs w_organized) (day </> "20230514_103000.jpeg") = false
  /\ exists_ (fs w') (day </> "20230514_103000.jpeg") = true
  /\ exists_ (fs w') p = false.
Proof.
  intros p w'.
  repeat (split; [vm_compute; reflexivity|]).
  split; [|repeat split; vm_compute; reflexivity].
  intros Hs. vm_compute in Hs. discriminate.
Qed.

(** C9.  The same photo when the destination already holds it.  The
    run reports a duplicate, after it has set the modification time of
    the source to that of 14 May 9990, which is not the capture date.
    And for a photo dated [0001:01:01 00:00:00] the time stamp text
    [101010000.00] cannot be read back: the directory [out/1/1-01] is
    made, line 93 raises [ValueError], and neither the times of the
    source are set nor the duplicate check is reached. *)
Lemma duplicate_year_999_misdated :
  let p := src </> "old.jpg" in
  let e := day_old </> "9990514_103000.jpg" in
  let w' := snd (process_file (H := demo) p out w_old_again) in
  let d := {| dt_year := 999; dt_month := 5; dt_day := 14;
              dt_hour := 10; dt_minute := 30; dt_second := 0 |} in
  let d' := {| dt_year := 9990; dt_month := 5; dt_day := 14;
               dt_hour := 10; dt_minute := 30; dt_second := 0 |} in
  let q := src </> "one.jpg" in
  let w1 := snd (process_file (H := demo) q out w_first) in
  (exif_date_of (H := demo) w_old_again p = Some (VStr "0999:05:14 10:30:00")
   /\ strptime "0999:05:14 10:30:00" exif_format = Some d
   /\ process_file (H := demo) p out w_old_again = (Ok tt, w')
   /\ skipped_duplicate p e w_old_again w'
   /\ exists g,
        stat (fs w') p = inr (File g)
        /\ mtime g = mktime (Platform := demo) d'
        /\ mtime g <> mktime (Platform := demo) d)
  /\ (exif_date_of (H := demo) w_first q = Some (VStr "0001:01:01 00:00:00")
      /\ strptime "0001:01:01 00:00:00" exif_format
         = Some {| dt_year := 1; dt_month := 1; dt_day := 1;
                   dt_hour := 0; dt_minute := 0; dt_second := 0 |}
      /\ format_date (H := demo) (VStr "0001:01:01 00:00:00")
         = Ok (Some {| year := "1"; month := "01";
                       formatted_date := "101010000.00";
                       timestamp := "10101_000000" |})
      /\ strptime "101010000.00" touch_format = None
      /\ process_file (H := demo) q out w_first = (Raise ValueError, w1)
      /\ is_dir (fs w1) (out </> "1" </> "1-01") = true
      /\ stat (fs w1) q = stat (fs w_first) q
      /\ stdout w1 = stdout w_first).
Proof.
  intros p e w' d d' q w1. split.
  - repeat (split; [vm_compute; reflexivity|]).
    eexists. split; [vm_compute; reflexivity|].
    split; [vm_compute; reflexivity|]. vm_compute. discriminate.
  - repeat split; vm_compute; reflexivity.
Qed.

(** ** The further properties at work *)

Lemma undated_file_untouched_witness :
  exif_date_of (H := demo) w_dates (src </> "nodate.jpg") = None
  /\ exists w',
       process_file (H := demo) (src </> "nodate.jpg") out w_dates = (Ok tt, w')
       /\ fs w' = fs w_dates.
Proof.
  assert (H1 : exif_date_of (H := demo) w_dates (src </> "nodate.jpg") = None)
    by (vm_compute; reflexivity).
  split; [exact H1|].
  destruct (undated_file_untouched (H := demo) (src </> "nodate.jpg") out w_dates H1)
    as (w' & Hrun & Hfs & _).
  exists w'. split; assumption.
Defined.

Lemma invalid_date_untouched_witness :
  exif_date_of (H := demo) w_dates (src </> "bad.jpg") = Some (VStr "2023:02:30 10:00:00")
  /\ strptime "2023:02:30 10:00:00" exif_format = None
  /\ process_file (H := demo) (src </> "bad.jpg") out w_dates
     = (Ok tt, say (MsgInvalidDate (src </> "bad.jpg")) w_dates).
Proof.
  assert (H1 : exif_date_of (H := demo) w_dates (src </> "bad.jpg")
               = Some (VStr "2023:02:30 10:00:00")) by (vm_compute; reflexivity).
  assert (H2 : strptime "2023:02:30 10:00:00" exif_format = None)
    by (vm_compute; reflexivity).
  split; [exact H1|]. split; [exact H2|].
  exact (invalid_date_untouched (H := demo) (src </> "bad.jpg") out w_dates
           "2023:02:30 10:00:00" H1 H2).
Defined.

Lemma non_string_date_raises_witness :
  exif_date_of (H := demo_binary) w0 (src </> "a.JPG") = Some (VOther true)
  /\ process_file (H := demo_binary) (src </> "a.JPG") out w0 = (Raise TypeError, w0).
Proof.
  assert (H1 : exif_date_of (H := demo_binary) w0 (src </> "a.JPG") = Some (VOther true))
    by (vm_compute; reflexivity).
  split; [exact H1|].
  exact (non_string_date_raises (H := demo_binary) (src </> "a.JPG") out w0 true H1).
Defined.




Lemma later_placement_numbered_witness :
  let p1 := src </> "a.JPG" in
  let p2 := src </> "b.jpg" in
  let c1 := day </> "20230514_103000.jpg" in
  let c2 := day </> "20230514_103000_1.jpg" in
  let w1 := snd (process_file (H := demo) p1 out w0) in
  let w2 := snd (process_file (H := demo) p2 out w1) in
  placed p1 c1 w0 w1 /\ placed p2 c2 w1 w2
  /\ c1 <> c2
  /\ exists g1 g2,
       stat (fs w2) c1 = inr (File g1)
       /\ content g1 = list_byte_of_string "2023:05:14 10:30:00 first"
       /\ stat (fs w2) c2 = inr (File g2)
       /\ content g2 = list_byte_of_string "2023:05:14 10:30:00 second".
Proof.
  intros p1 p2 c1 c2 w1 w2.
  assert (H1 : stat (fs w0) p1 = inr (File (photo_file "2023:05:14 10:30:00 first")))
    by (vm_compute; reflexivity).
  assert (H2 : process_file (H := demo) p1 out w0 = (Ok tt, w1)) by (vm_compute; reflexivity).
  assert (H3 : placed p1 c1 w0 w1) by (vm_compute; reflexivity).
  assert (H4 : stat (fs w1) p2 = inr (File (photo_file "2023:05:14 10:30:00 second")))
    by (vm_compute; reflexivity).
  assert (H5 : process_file (H := demo) p2 out w1 = (Ok tt, w2)) by (vm_compute; reflexivity).
  assert (H6 : placed p2 c2 w1 w2) by (vm_compute; reflexivity).
  assert (H7 : p2 <> c1) by discriminate.
  split; [exact H3|]. split; [exact H6|].
  destruct (later_placement_numbered (H := demo) p1 p2 out c1 c2 w0 w1 w2
              (photo_file "2023:05:14 10:30:00 first")
              (photo_file "2023:05:14 10:30:00 second")
              H1 H2 H3 H4 H5 H6 H7) as (Hcc & (g1 & g2 & Hg) & _).
  split; [exact Hcc|]. exists g1, g2. exact Hg.
Defined.

Lemma traversal_raises_only_from_file_witness :
  traverse_directory (H := demo) 2 src out w_blocked
  = (Raise NotADirectoryError, say (MsgTraversing src) w_blocked)
  /\ exists root file w1,
       eligible file = true
       /\ process_file (H := demo) (root </> file) out w1
          = (Raise NotADirectoryError, say (MsgTraversing src) w_blocked).
Proof.
  assert (H1 : traverse_directory (H := demo) 2 src out w_blocked
               = (Raise NotADirectoryError, say (MsgTraversing src) w_blocked))
    by (vm_compute; reflexivity).
  split; [exact H1|].
  exact (proj2 (traversal_raises_only_from_file (H := demo) 2 src out w_blocked
                  (say (MsgTraversing src) w_blocked) NotADirectoryError H1)).
Defined.


Lemma eligible_extension_witness :
  eligible "IMG_1.JPG" = true
  /\ exists stem e,
       lower "IMG_1.JPG" = stem +:+ "." +:+ e
       /\ (e = "jpg" \/ e = "jpeg" \/ e = "png")
       /\ lstrip_dot (lower (suffix (src </> "IMG_1.JPG")))
          = match stem with EmptyString => EmptyString | _ => e end.
Proof.
  assert (H1 : eligible "IMG_1.JPG" = true) by (vm_compute; reflexivity).
  split; [exact H1|].
  exact (eligible_extension src "IMG_1.JPG" H1).
Defined.

Lemma timestamp_determines_date_witness :
  let i := {| year := "2023"; month := "05";
              formatted_date := "202305141030.00"; timestamp := "20230514_103000" |} in
  format_date (H := demo) (VStr "2023:05:14 10:30:00") = Ok (Some i)
  /\ format_date (H := demo) (VStr "2023:5:14 10:30:00") = Ok (Some i)
  /\ strptime "2023:05:14 10:30:00" exif_format = strptime "2023:5:14 10:30:00" exif_format.
Proof.
  intros i.
  assert (H1 : format_date (H := demo) (VStr "2023:05:14 10:30:00") = Ok (Some i))
    by (vm_compute; reflexivity).
  assert (H2 : format_date (H := demo) (VStr "2023:5:14 10:30:00") = Ok (Some i))
    by (vm_compute; reflexivity).
  split; [exact H1|]. split; [exact H2|].
  exact (proj2 (timestamp_determines_date (H := demo) "2023:05:14 10:30:00"
                  "2023:5:14 10:30:00" i i H1 H2 eq_refl)).
Defined.


Lemma read_chunks_digest_witness :
  exists h,
    (forall fuel,
       length (list_byte_of_string "2023:05:14 10:30:00 first") < fuel ->
       read_chunks (fun (h : list byte) c => (h ++ c)%list) fuel 8
         (list_byte_of_string "2023:05:14 10:30:00 first") [] = Some h)
    /\ get_checksum (H := demo) (src </> "a.JPG") w0 = (Ok (string_of_list_byte h), w0).
Proof.
  assert (H1 : stat (fs w0) (src </> "a.JPG")
               = inr (File (photo_file "2023:05:14 10:30:00 first")))
    by (vm_compute; reflexivity).
  exact (proj1 (read_chunks_digest (H := demo) [] (fun (h : list byte) c => (h ++ c)%list)
                  string_of_list_byte (fun h => h)
                  eq_refl (fun h c => eq_refl) (fun h => eq_refl)
                  8 (src </> "a.JPG") w0 (photo_file "2023:05:14 10:30:00 first")
                  (Nat.lt_0_succ 7) H1 eq_refl)).
Defined.

Lemma blocked_directory_raises_witness :
  is_file (fs w_blocked) (out </> "2023") = true
  /\ process_file (H := demo) (src </> "b.jpg") out w_blocked
     = (Raise NotADirectoryError, w_blocked).
Proof.
  assert (H1 : exif_date_of (H := demo) w_blocked (src </> "b.jpg")
               = Some (VStr "2023:05:14 10:30:00")) by (vm_compute; reflexivity).
  assert (H2 : strptime "2023:05:14 10:30:00" exif_format
               = Some {| dt_year := 2023; dt_month := 5; dt_day := 14;
                         dt_hour := 10; dt_minute := 30; dt_second := 0 |})
    by (vm_compute; reflexivity).
  assert (H3 : is_file (fs w_blocked) (out </> "2023") = true) by (vm_compute; reflexivity).
  split; [exact H3|].
  exact (proj2 (blocked_directory_raises (H := demo) (src </> "b.jpg") out w_blocked
                  "2023:05:14 10:30:00" _ H1 H2 eq_refl) H3).
Defined.
